(** * model_analyzer: record aggregation, profiling cycle, perf_analyzer config

    A shallow embedding of
      - [model_analyzer/record/record_aggregator.py]  (class RecordAggregator),
      - [model_analyzer/analyzer.py]                  (Analyzer._profile),
      - [model_analyzer/perf_analyzer/perf_config.py] (class PerfAnalyzerConfig).

    Python objects that are mutated and shared (the list objects that hold
    the records of one type, the [defaultdict] of every aggregator) live in
    an explicit store and are named by their address.  Methods are
    computations in a state-and-exception monad over that store; a raised
    exception keeps the store as it was at the [raise]. *)

From stdpp Require Import base numbers list option strings pretty.

Set Default Proof Using "Type".

(** ** Python dictionaries

    A [dict] keeps its keys in insertion order and holds every key once.
    Assigning to a key that is present keeps its position. *)

Module PyDict.
Section dict.
Context {K V : Type} `{EqDecision K}.

Fixpoint getitem (k : K) (d : list (K * V)) : option V :=
  match d with
  | [] => None
  | (k', v) :: d' => if decide (k = k') then Some v else getitem k d'
  end.

(** [k in d] *)
Definition contains (k : K) (d : list (K * V)) : bool :=
  match getitem k d with Some _ => true | None => false end.

(** [d[k] = v] *)
Fixpoint setitem (k : K) (v : V) (d : list (K * V)) : list (K * V) :=
  match d with
  | [] => [(k, v)]
  | (k', v') :: d' =>
      if decide (k = k') then (k, v) :: d' else (k', v') :: setitem k v d'
  end.

(** [list(d)] *)
Definition keys (d : list (K * V)) : list K := d.*1.

End dict.
End PyDict.

(** ** Records

    The store of an aggregator is keyed by the class of the record
    ([type(record)]); the classes are the tags below. *)

(** Modelled from the spec: of the record classes only [GPUUsedMemory]
    ([record/gpu_used_memory.py]) is among the sources; [analyzer.py]
    imports the other three, and the spec (section 3) lists the same four
    variants. *)
Inductive RecordType :=
| GPUUsedMemory
| GPUFreeMemory
| PerfThroughput
| PerfLatency.

#[global] Instance RecordType_eq_dec : EqDecision RecordType.
Proof. solve_decision. Defined.

(** Modelled from the spec: the class [GPUDevice] is not among the sources;
    the spec (section 3, DeviceRef) gives it a stable [device_id()], which
    is all [Analyzer._profile] uses. *)
Record GPUDevice := mkGPUDevice { device_id : nat }.

(** Modelled from the spec: the base classes [Record] and [GPURecord] are
    not among the sources.  [GPUUsedMemory.__init__(device, used_mem, timestamp)]
    passes its three arguments on to [GPURecord]; the spec (section 3) gives
    every record a value and a timestamp, and a device to the device-scoped
    variants only.  [rtype] stands for [type(record)].  Values are the
    measured numbers; the aggregator only compares them. *)
Record RecordObj := mkRecord {
  rtype : RecordType;
  device : option GPUDevice;
  value : Z;
  timestamp : Z
}.

(** What a caller may hand to [RecordAggregator.insert]: a record, or an
    object on which [isinstance(_, Record)] is false. *)
Inductive PyObject :=
| ARecord (r : RecordObj)
| NotARecord.

(** [GPUUsedMemory.header] *)
Definition GPUUsedMemory_header : string := "GPU Used Memory [MB]".

(** ** Exceptions *)

(** The message of a [TritonModelAnalyzerException], one constructor per
    message of [analyzer.py] and [perf_config.py], the two modules that
    import the class. *)
Inductive message :=
| PerfAnalyzerBinaryNotFound
    (* "perf_analyzer binary not found : ..." *)
| KeyNotFoundInConfig (key : string)
    (* "'key' Key not found in config" *)
| ArgumentNotSupported (key : string).
    (* "The argument 'key' to the perf_analyzer is not supported by the
       model analyzer." *)

Inductive exn :=
| TritonModelAnalyzerException (msg : message)
| NameError (name : string)
    (* a global name that the module does not define *)
| KeyError
| ValueError
    (* [max] of an empty list; [time.sleep] of a negative length *)
| AttributeError      (* [record.device()] on a record without a device *)
| FileNotFoundError   (* the perf_analyzer binary is missing *)
| OtherError          (* any other exception of a collaborator *)
| InvalidReference.
    (* no Python counterpart: an address that names no object of the
       store; never raised from a well-formed store *)

Inductive outcome (A : Type) :=
| Returns (a : A)
| Raises (e : exn).
Arguments Returns {A} a.
Arguments Raises {A} e.

(** ** The store and the monad *)

(** Objects of the store are named by their index. *)
Abbreviation addr := nat (only parsing).

(** The calls made on the two collaborators of a profiling cycle. *)
Inductive Event :=
| StartRecording
| StopRecording
| RunPerfAnalyzer (tags : list RecordType)
| Sleep (seconds : Z).

Record Store := mkStore {
  lists : list (list RecordObj);
    (* the list objects: one bucket of records each *)
  dicts : list (list (RecordType * addr));
    (* the [_records] dictionary of every RecordAggregator: class -> list object *)
  trace : list Event
    (* collaborator calls, oldest first *)
}.

Definition M (A : Type) : Type := Store → Store * outcome A.

#[global] Instance M_ret : MRet M := λ A a s, (s, Returns a).

#[global] Instance M_bind : MBind M := λ A B f m s,
  match m s with
  | (s', Returns a) => f a s'
  | (s', Raises e) => (s', Raises e)
  end.

Definition raise {A} (e : exn) : M A := λ s, (s, Raises e).

(** A pure call that may raise. *)
Definition lift {A} (o : outcome A) : M A := λ s, (s, o).

(** [try: body  except E: handler]; [handler e = None] when the [except]
    clause does not match [e]. *)
Definition try_except {A} (body : M A) (handler : exn → option (M A)) : M A :=
  λ s,
    match body s with
    | (s', Raises e) =>
        match handler e with
        | Some h => h s'
        | None => (s', Raises e)
        end
    | r => r
    end.

(** [for x in xs: body(x)] *)
Fixpoint for_each {A} (xs : list A) (body : A → M unit) : M unit :=
  match xs with
  | [] => mret tt
  | x :: xs' => body x ;; for_each xs' body
  end.

(** [for x in xs: acc = body(acc, x)], for a loop that builds a local
    value (a set, a dictionary, a sum). *)
Fixpoint for_fold {A B} (xs : list A) (acc : B) (body : B → A → M B) : M B :=
  match xs with
  | [] => mret acc
  | x :: xs' => acc' ← body acc x; for_fold xs' acc' body
  end.

(** *** List objects *)

Definition new_list : M addr := λ s,
  (mkStore (lists s ++ [[]]) (dicts s) (trace s), Returns (length (lists s))).

Definition read_list (l : addr) : M (list RecordObj) := λ s,
  match lists s !! l with
  | Some rs => (s, Returns rs)
  | None => (s, Raises InvalidReference)
  end.

(** [l.append(r)] *)
Definition list_append (l : addr) (r : RecordObj) : M unit := λ s,
  match lists s !! l with
  | Some rs => (mkStore (<[l := rs ++ [r]]> (lists s)) (dicts s) (trace s), Returns tt)
  | None => (s, Raises InvalidReference)
  end.

(** *** [defaultdict(list)] objects *)

Definition new_defaultdict : M addr := λ s,
  (mkStore (lists s) (dicts s ++ [[]]) (trace s), Returns (length (dicts s))).

Definition read_dict (a : addr) : M (list (RecordType * addr)) := λ s,
  match dicts s !! a with
  | Some d => (s, Returns d)
  | None => (s, Raises InvalidReference)
  end.

Definition write_dict (a : addr) (d : list (RecordType * addr)) : M unit := λ s,
  match dicts s !! a with
  | Some _ => (mkStore (lists s) (<[a := d]> (dicts s)) (trace s), Returns tt)
  | None => (s, Raises InvalidReference)
  end.

(** [d[k]] on a [defaultdict(list)]: a key that is missing is first bound
    to a new empty list.  It never raises [KeyError]. *)
Definition defaultdict_getitem (a : addr) (k : RecordType) : M addr :=
  d ← read_dict a;
  match PyDict.getitem k d with
  | Some l => mret l
  | None =>
      l ← new_list;
      write_dict a (PyDict.setitem k l d) ;;
      mret l
  end.

(** [d[k] = l] *)
Definition defaultdict_setitem (a : addr) (k : RecordType) (l : addr) : M unit :=
  d ← read_dict a;
  write_dict a (PyDict.setitem k l d).

(** [k in d]; binds nothing. *)
Definition defaultdict_contains (a : addr) (k : RecordType) : M bool :=
  d ← read_dict a;
  mret (PyDict.contains k d).

(** [d[k]] on a plain [dict]. *)
Definition dict_getitem {K V} `{EqDecision K} (k : K) (d : list (K * V)) : outcome V :=
  match PyDict.getitem k d with
  | Some v => Returns v
  | None => Raises KeyError
  end.

(** [not x] is true of [None] and of the empty list. *)
Definition truthy {A} (x : option (list A)) : bool :=
  match x with
  | Some (_ :: _) => true
  | _ => false
  end.

(** The builtin [max] on a list of numbers. *)
Definition py_max (values : list Z) : outcome Z :=
  match values with
  | [] => Raises ValueError
  | v :: vs => Returns (foldl Z.max v vs)
  end.

(** [s.add(k)] on a local [set], kept as the list of its elements.  Python
    fixes no iteration order for a set; the order of first insertion is
    used here, and no theorem below depends on it. *)
Definition set_add {K} `{EqDecision K} (k : K) (s : list K) : list K :=
  if decide (k ∈ s) then s else s ++ [k].

(** ** record_aggregator.py: class RecordAggregator

    An aggregator is named by the address of its [_records] dictionary.

    The module imports [Record], [defaultdict] and [itertools] only.  Its
    statements [raise TritonModelAnalyzerException(...)] name a class that
    is not defined in the module: the name is looked up first, before the
    message is built, and the lookup raises [NameError]. *)

Module RecordAggregator.

(** [__init__]: [self._records = defaultdict(list)] *)
Definition new : M addr := new_defaultdict.

Definition insert (self : addr) (record : PyObject) : M unit :=
  match record with
  | ARecord r =>
      let record_type := rtype r in
      l ← defaultdict_getitem self record_type;
      list_append l r
  | NotARecord =>
      (* raise TritonModelAnalyzerException(
           "Can only add objects of type 'Record' to RecordAggregator") *)
      raise (NameError "TritonModelAnalyzerException")
  end.

Definition add_key (self : addr) (record_type : RecordType) (records : addr) : M unit :=
  defaultdict_setitem self record_type records.

Definition filter_records (self : addr)
    (record_types : option (list RecordType))
    (filters : option (list (RecordObj → outcome bool))) : M addr :=
  filtered_records ← new;
  if negb (truthy record_types) && negb (truthy filters) then
    items ← read_dict self;
    for_each items (λ '(record_type, records),
      add_key filtered_records record_type records) ;;
    mret filtered_records
  else if truthy record_types && negb (truthy filters) then
    (* no lookup in a defaultdict raises KeyError: the handler is dead code *)
    try_except
      (for_each (default [] record_types) (λ record_type,
         records ← defaultdict_getitem self record_type;
         add_key filtered_records record_type records) ;;
       mret filtered_records)
      (λ e, match e with
            | KeyError =>
                (* raise TritonModelAnalyzerException(
                     f"Record type '{k.header()}' not found in this RecordAggregator") *)
                Some (raise (NameError "TritonModelAnalyzerException"))
            | _ => None
            end)
  else if truthy filters && negb (truthy record_types) then
    (* raise TritonModelAnalyzerException(
         "Must specify the record types corresponding to each filter criterion.") *)
    raise (NameError "TritonModelAnalyzerException")
  else if negb (bool_decide (length (default [] record_types)
                             = length (default [] filters))) then
    (* raise TritonModelAnalyzerException(
         "Must specify the same number of record types as filter criteria.") *)
    raise (NameError "TritonModelAnalyzerException")
  else
    (* Remove records that do not satisfy criteria.  The list a loop runs
       over is read once: the inserts go to buckets of [filtered_records],
       which are list objects of their own. *)
    for_each (zip (default [] record_types) (default [] filters)) (λ '(h, f),
      bucket ← defaultdict_getitem self h;
      records ← read_list bucket;
      for_each records (λ record,
        keep ← lift (f record);
        if keep : bool then insert filtered_records (ARecord record)
        else mret tt)) ;;
    mret filtered_records.

Definition record_types (self : addr) : M (list RecordType) :=
  d ← read_dict self;
  mret (PyDict.keys d).

Definition get_records (self : addr) : M addr := mret self.

Definition aggregate (self : addr)
    (record_types : option (list RecordType))
    (reduce_func : list Z → outcome Z) : M (list (RecordType * Z)) :=
  record_types ←
    (if negb (truthy record_types) then RecordAggregator.record_types self
     else mret (default [] record_types));
  for_fold record_types [] (λ aggregated_records record_type,
    bucket ← defaultdict_getitem self record_type;
    records ← read_list bucket;
    let values := value <$> records in
    reduced ← lift (reduce_func values);
    mret (PyDict.setitem record_type reduced aggregated_records)).

Definition groupby {K} `{EqDecision K} (self : addr) (record_type : RecordType)
    (groupby_criteria : RecordObj → outcome K)
    (reduce_func : list Z → outcome Z) : M (list (K * Z)) :=
  records ← (filtered ← filter_records self (Some [record_type]) None;
             get_records filtered);
  bucket ← defaultdict_getitem records record_type;
  bucket_records ← read_list bucket;
  field_values ← for_fold bucket_records [] (λ field_values record,
    k ← lift (groupby_criteria record);
    mret (set_add k field_values));
  for_fold field_values [] (λ groupby_result field_value,
    filtered ← filter_records self (Some [record_type])
      (Some [λ record,
               match groupby_criteria record with
               | Returns k => Returns (bool_decide (k = field_value))
               | Raises e => Raises e
               end]);
    aggregated_result ← aggregate filtered (Some [record_type]) reduce_func;
    reduced ← lift (dict_getitem record_type aggregated_result);
    mret (PyDict.setitem field_value reduced groupby_result)).

Definition total (self : addr) (record_type : option RecordType) : M nat :=
  match record_type with
  | Some record_type =>
      known ← defaultdict_contains self record_type;
      if negb known then
        (* raise TritonModelAnalyzerException(
             f"Record type '{record_type.header()}' not found in this RecordAggregator") *)
        raise (NameError "TritonModelAnalyzerException")
      else
        bucket ← defaultdict_getitem self record_type;
        records ← read_list bucket;
        mret (length records)
  | None =>
      d ← read_dict self;
      for_fold (PyDict.keys d) 0%nat (λ sum k,
        bucket ← defaultdict_getitem self k;
        records ← read_list bucket;
        mret (sum + length records)%nat)
  end.

End RecordAggregator.

(** ** analyzer.py: Analyzer._profile *)

(** Modelled from the spec: the class [DCGMMonitor] is not among the sources.  The
    spec (section 6, telemetry collaborator) has [stopRecording] return the
    device-scoped records sampled since the matching start; [samples] are
    those records. *)
Record DCGMMonitor := mkDCGMMonitor { samples : list RecordObj }.

Definition start_recording_metrics (m : DCGMMonitor) : M unit := λ s,
  (mkStore (lists s) (dicts s) (trace s ++ [StartRecording]), Returns tt).

Definition stop_recording_metrics (m : DCGMMonitor) : M (list RecordObj) := λ s,
  (mkStore (lists s) (dicts s) (trace s ++ [StopRecording]), Returns (samples m)).

(** Modelled from the spec: the class [PerfAnalyzer] is not among the sources.  The
    spec (section 6, workload collaborator) has [run(tagSet)] return the
    run-scoped records or fail; [run_result] is what one call does. *)
Record PerfAnalyzer := mkPerfAnalyzer { run_result : outcome (list RecordObj) }.

Definition run (p : PerfAnalyzer) (tags : list RecordType) : M (list RecordObj) := λ s,
  (mkStore (lists s) (dicts s) (trace s ++ [RunPerfAnalyzer tags]), run_result p).

(** [time.sleep(seconds)]: a negative length raises [ValueError] ("sleep
    length must be non-negative") at once. *)
Definition sleep (seconds : Z) : M unit := λ s,
  if decide (seconds < 0)%Z then (s, Raises ValueError)
  else (mkStore (lists s) (dicts s) (trace s ++ [Sleep seconds]), Returns tt).

Module Analyzer.

(** The attributes of an [Analyzer] that [_profile] reads. *)
Record t := mk {
  _duration_seconds : Z;
  dcgm_tags : list RecordType;
  perf_tags : list RecordType
}.

(** The local function of [_profile]: [record.device().device_id()] *)
Definition gpu_device_id (record : RecordObj) : outcome nat :=
  match device record with
  | Some d => Returns (device_id d)
  | None => Raises AttributeError
  end.

Definition _profile (self : t) (perf_analyzer : option PerfAnalyzer)
    (dcgm_monitor : DCGMMonitor)
  : M (list (RecordType * list (nat * Z)) * list (RecordType * Z)) :=
  (* Start monitors and run perf_analyzer *)
  start_recording_metrics dcgm_monitor ;;
  perf_records ←
    match perf_analyzer with
    | Some perf_analyzer =>
        try_except (run perf_analyzer (perf_tags self))
          (λ e, match e with
                | FileNotFoundError =>
                    Some (raise (TritonModelAnalyzerException
                                   PerfAnalyzerBinaryNotFound))
                | _ => None
                end)
    | None =>
        sleep (_duration_seconds self) ;;
        mret []
    end;
  dcgm_records ← stop_recording_metrics dcgm_monitor;
  (* Insert all records into aggregator and get aggregated DCGM records *)
  record_aggregator ← RecordAggregator.new;
  for_each dcgm_records (λ record,
    RecordAggregator.insert record_aggregator (ARecord record)) ;;
  records_groupby_gpu ← for_fold (dcgm_tags self) [] (λ records_groupby_gpu tag,
    grouped ← RecordAggregator.groupby record_aggregator tag gpu_device_id py_max;
    mret (PyDict.setitem tag grouped records_groupby_gpu));
  perf_record_aggregator ← RecordAggregator.new;
  for_each perf_records (λ record,
    RecordAggregator.insert perf_record_aggregator (ARecord record)) ;;
  aggregated ← RecordAggregator.aggregate perf_record_aggregator None py_max;
  mret (records_groupby_gpu, aggregated).

End Analyzer.

(** ** perf_config.py: class PerfAnalyzerConfig *)

(** The values a caller stores in a config. *)
Inductive PyValue :=
| PyNone
| PyBool (b : bool)
| PyInt (z : Z)
| PyStr (s : string).

Module PerfAnalyzerConfig.

Record t := mk {
  _args : list (string * PyValue);
  _options : list (string * PyValue);
  _verbose : list (string * PyValue);
  _input_to_options : list (string * string);
  _input_to_verbose : list (string * string)
}.

(** [__init__] *)
Definition new : t := {|
  _args := [
    ("async", PyNone);
    ("sync", PyNone);
    ("measurement-interval", PyNone);
    ("concurrency-range", PyNone);
    ("request-rate-range", PyNone);
    ("request-distribution", PyNone);
    ("request-intervals", PyNone);
    ("binary-search", PyNone);
    ("num-of-sequence", PyNone);
    ("latency-threshold", PyNone);
    ("max-threads", PyNone);
    ("stability-percentage", PyNone);
    ("max-trials", PyNone);
    ("percentile", PyNone);
    ("input-data", PyNone);
    ("shared-memory", PyNone);
    ("output-shared-memory-size", PyNone);
    ("shape", PyNone);
    ("sequence-length", PyNone);
    ("string-length", PyNone);
    ("string-data", PyNone)
  ];
  _options := [
    ("-m", PyNone);
    ("-x", PyNone);
    ("-b", PyNone);
    ("-u", PyNone);
    ("-i", PyNone);
    ("-f", PyNone);
    ("-H", PyNone)
  ];
  _verbose := [("-v", PyNone); ("-v -v", PyNone)];
  _input_to_options := [
    ("model-name", "-m");
    ("model-version", "-x");
    ("batch-size", "-b");
    ("url", "-u");
    ("protocol", "-i");
    ("latency-report-file", "-f");
    ("streaming", "-H")
  ];
  _input_to_verbose := [("verbose", "-v"); ("extra-verbose", "-v -v")]
|}%string.

(** [config[key]] *)
Definition __getitem__ (self : t) (key : string) : outcome PyValue :=
  if PyDict.contains key (_args self) then
    dict_getitem key (_args self)
  else if PyDict.contains key (_input_to_options self) then
    match dict_getitem key (_input_to_options self) with
    | Returns option => dict_getitem option (_options self)
    | Raises e => Raises e
    end
  else if PyDict.contains key (_input_to_verbose self) then
    match dict_getitem key (_input_to_verbose self) with
    | Returns flag => dict_getitem flag (_verbose self)
    | Raises e => Raises e
    end
  else
    Raises (TritonModelAnalyzerException (KeyNotFoundInConfig key)).

(** [config[key] = value]: the config after the statement, and whether it
    raised. *)
Definition __setitem__ (self : t) (key : string) (value : PyValue) : t * outcome unit :=
  if PyDict.contains key (_args self) then
    (mk (PyDict.setitem key value (_args self)) (_options self) (_verbose self)
        (_input_to_options self) (_input_to_verbose self),
     Returns tt)
  else if PyDict.contains key (_input_to_options self) then
    match dict_getitem key (_input_to_options self) with
    | Returns option =>
        (mk (_args self) (PyDict.setitem option value (_options self)) (_verbose self)
            (_input_to_options self) (_input_to_verbose self),
         Returns tt)
    | Raises e => (self, Raises e)
    end
  else if PyDict.contains key (_input_to_verbose self) then
    match dict_getitem key (_input_to_verbose self) with
    | Returns flag =>
        (mk (_args self) (_options self) (PyDict.setitem flag value (_verbose self))
            (_input_to_options self) (_input_to_verbose self),
         Returns tt)
    | Raises e => (self, Raises e)
    end
  else
    (self, Raises (TritonModelAnalyzerException (ArgumentNotSupported key))).

(** The keys [__getitem__] and [__setitem__] accept. *)
Definition recognized (self : t) (key : string) : bool :=
  PyDict.contains key (_args self)
  || PyDict.contains key (_input_to_options self)
  || PyDict.contains key (_input_to_verbose self).

End PerfAnalyzerConfig.

(** ** Reading the store *)

(** The records of the bucket of [record_type] in aggregator [self], when
    the aggregator knows the type. *)
Definition bucket (s : Store) (self : addr) (record_type : RecordType)
  : option (list RecordObj) :=
  d ← dicts s !! self;
  l ← PyDict.getitem record_type d;
  lists s !! l.

(** The record types an aggregator knows. *)
Definition known_types (s : Store) (self : addr) : option (list RecordType) :=
  PyDict.keys <$> dicts s !! self.

(** Every bucket of the aggregator at [self] is a list object of the store. *)
Definition well_formed (s : Store) (self : addr) : Prop :=
  ∃ d, dicts s !! self = Some d ∧
       ∀ t l, PyDict.getitem t d = Some l → (l < length (lists s))%nat.

Definition empty_store : Store := mkStore [] [] [].

(** Runs a computation for its store, whatever its outcome. *)
Definition exec {A} (m : M A) (s : Store) : Store := (m s).1.

(** The store after a sequence of [insert] calls, each of which may raise. *)
Definition insert_all (self : addr) (objs : list PyObject) (s : Store) : Store :=
  foldl (λ s o, exec (RecordAggregator.insert self o) s) s objs.

(** The data-model invariant of an aggregator that is filled by [insert]
    only: every bucket is a list object of the store, holds records of its
    own type, and is the bucket of no other type. *)
Definition typed (s : Store) (self : addr) : Prop :=
  ∃ d, dicts s !! self = Some d
       ∧ (∀ t l, PyDict.getitem t d = Some l →
            ∃ rs, lists s !! l = Some rs ∧ Forall (λ r, rtype r = t) rs)
       ∧ (∀ t t' l, PyDict.getitem t d = Some l → PyDict.getitem t' d = Some l →
            t = t').

(** [sum(total(tag) for tag in tags)] *)
Definition sum_of_totals (self : addr) (tags : list RecordType) : M nat :=
  for_fold tags 0%nat (λ sum tag,
    n ← RecordAggregator.total self (Some tag);
    mret (sum + n)%nat).

(** [m] is the greatest of the numbers [vs]. *)
Definition is_max (m : Z) (vs : list Z) : Prop :=
  m ∈ vs ∧ ∀ v, v ∈ vs → (v ≤ m)%Z.

(** The records of a bucket, none when the aggregator does not know the
    type. *)
Definition contents (s : Store) (self : addr) (record_type : RecordType)
  : list RecordObj :=
  default [] (bucket s self record_type).

(** The greatest of the numbers [vs]; only used on a non-empty list. *)
Definition max_of (vs : list Z) : Z :=
  match vs with
  | [] => 0%Z
  | v :: vs => foldl Z.max v vs
  end.

(** The keys of the records [rs], each once. *)
Definition distinct_keys {K} `{EqDecision K} (key : RecordObj → K)
    (rs : list RecordObj) : list K :=
  foldl (λ field_values r, set_add (key r) field_values) [] rs.

(** The mapping [groupby] builds from the records [rs] of a bucket when the
    criterion gives [key r] on a record [r] and the reduction gives [red k]
    on the group of key [k]. *)
Definition grouped {K} `{EqDecision K} (key : RecordObj → K) (red : K → Z)
    (rs : list RecordObj) : list (K * Z) :=
  foldl (λ groupby_result k, PyDict.setitem k (red k) groupby_result) []
    (distinct_keys key rs).

(** The store with lists [L] and dictionaries [D] after a new aggregator
    (at address [length D]) has received the records [acc], all of type
    [T]: nothing when [acc] is empty, else one new bucket. *)
Definition with_filtered (L : list (list RecordObj)) (D : list (list (RecordType * addr)))
    (tr : list Event) (T : RecordType) (acc : list RecordObj) : Store :=
  match acc with
  | [] => mkStore L (D ++ [[]]) tr
  | _ :: _ => mkStore (L ++ [acc]) (D ++ [[(T, length L)]]) tr
  end.

(** The device id of a record that has a device. *)
Definition device_key (r : RecordObj) : nat :=
  match device r with
  | Some d => device_id d
  | None => 0%nat
  end.

#[global] Instance GPUDevice_eq_dec : EqDecision GPUDevice.
Proof. solve_decision. Defined.

(** What [groupby(tag, gpu_device_id)] with the default reduction returns on
    a bucket [rs] of records that all have a device: for each device id, in
    the order of first occurrence, the greatest value of its records. *)
Definition max_by_device (rs : list RecordObj) : list (nat * Z) :=
  grouped device_key
    (λ id, max_of (value <$> filter (λ r, device_key r = id) rs)) rs.

(** An aggregator that received [add_key(GPUUsedMemory, [])] and nothing
    else. *)
Definition store_with_empty_bucket : Store :=
  exec (self ← RecordAggregator.new;
        records ← new_list;
        RecordAggregator.add_key self GPUUsedMemory records) empty_store.

(** A computation keeps an invariant of the store, whether it returns or
    raises. *)
Definition preserves {A} (I : Store → Prop) (m : M A) : Prop :=
  ∀ s, I s → I (m s).1.

(** What holds of the store while [filter_records] runs on the source
    [self] from the store [s0], [filtered] being the aggregator it builds:
    both dictionaries are there, every bucket the source had in [s0] is
    still its bucket with the same records, and -- in the branch that
    inserts records ([inserting = true]) -- the buckets of [filtered] are
    list objects of their own, none of them a bucket of the source. *)
Definition filter_inv (inserting : bool) (s0 : Store) (self filtered : addr)
    (s : Store) : Prop :=
  ∃ ds df,
    dicts s !! self = Some ds
    ∧ dicts s !! filtered = Some df
    ∧ self ≠ filtered
    ∧ (∀ t l, PyDict.getitem t ds = Some l → (l < length (lists s))%nat)
    ∧ (∀ t rs, bucket s0 self t = Some rs → bucket s self t = Some rs)
    ∧ (inserting = true →
         (∀ t l, PyDict.getitem t df = Some l → (l < length (lists s))%nat)
         ∧ ∀ t l t' l', PyDict.getitem t ds = Some l →
                        PyDict.getitem t' df = Some l' → l ≠ l').

(** The records among the objects handed to [insert]. *)
Definition records_of (objs : list PyObject) : list RecordObj :=
  omap (λ o, match o with ARecord r => Some r | NotARecord => None end) objs.

(** A new aggregator, in the store [s0], after the [insert] calls [objs]:
    its address and the store. *)
Definition filled (s0 : Store) (objs : list PyObject) : addr * Store :=
  (length (dicts s0), insert_all (length (dicts s0)) objs (exec RecordAggregator.new s0)).

(** The builtin [len] used as a reduction: the number of values. *)
Definition py_len (values : list Z) : outcome Z :=
  Returns (Z.of_nat (length values)).

(** ** perf_config.py: to_cli_string, and analyzer.py: _create_perf_config *)

(** [if v]: the truth value of a stored value. *)
Definition py_truthy (v : PyValue) : bool :=
  match v with
  | PyNone => false
  | PyBool b => b
  | PyInt z => negb (z =? 0)%Z
  | PyStr s => negb (String.eqb s "")
  end.

(** What an f-string prints for a stored value. *)
Definition py_str (v : PyValue) : string :=
  match v with
  | PyNone => "None"
  | PyBool true => "True"
  | PyBool false => "False"
  | PyInt z => pretty z
  | PyStr s => s
  end.

(** [PerfAnalyzerConfig.to_cli_string]: single dashed options, then verbose
    flags, then main args. *)
Definition to_cli_string (self : PerfAnalyzerConfig.t) : string :=
  let args :=
    (λ kv, kv.1 +:+ " " +:+ py_str kv.2)
      <$> filter (λ kv, py_truthy kv.2 = true) (PerfAnalyzerConfig._options self) in
  let args :=
    args ++ (fst <$> filter (λ kv, py_truthy kv.2 = true)
                       (PerfAnalyzerConfig._verbose self)) in
  let args :=
    args ++ ((λ kv, "--" +:+ kv.1 +:+ "=" +:+ py_str kv.2)
               <$> filter (λ kv, py_truthy kv.2 = true)
                     (PerfAnalyzerConfig._args self)) in
  String.concat " " args.

(** [Analyzer._create_perf_config]; [params] are the items of the dictionary
    of parameters, in its order. *)
Fixpoint set_params (config : PerfAnalyzerConfig.t) (params : list (string * PyValue))
  : outcome PerfAnalyzerConfig.t :=
  match params with
  | [] => Returns config
  | (param, value) :: params' =>
      match PerfAnalyzerConfig.__setitem__ config param value with
      | (config', Returns _) => set_params config' params'
      | (_, Raises e) => Raises e
      end
  end.

Definition _create_perf_config (params : list (string * PyValue))
  : outcome PerfAnalyzerConfig.t :=
  set_params PerfAnalyzerConfig.new params.

(** A config is laid out like a new one: the same keys in its three
    dictionaries of values and the same two dictionaries of aliases. *)
Definition config_shape (c : PerfAnalyzerConfig.t) : Prop :=
  PyDict.keys (PerfAnalyzerConfig._args c)
    = PyDict.keys (PerfAnalyzerConfig._args PerfAnalyzerConfig.new)
  ∧ PyDict.keys (PerfAnalyzerConfig._options c)
    = PyDict.keys (PerfAnalyzerConfig._options PerfAnalyzerConfig.new)
  ∧ PyDict.keys (PerfAnalyzerConfig._verbose c)
    = PyDict.keys (PerfAnalyzerConfig._verbose PerfAnalyzerConfig.new)
  ∧ PerfAnalyzerConfig._input_to_options c
    = PerfAnalyzerConfig._input_to_options PerfAnalyzerConfig.new
  ∧ PerfAnalyzerConfig._input_to_verbose c
    = PerfAnalyzerConfig._input_to_verbose PerfAnalyzerConfig.new.

(** The config after the assignments [config[k] = v] of a list, made on a
    new config; an assignment that raises changes nothing. *)
Definition after_assignments (assignments : list (string * PyValue))
  : PerfAnalyzerConfig.t :=
  foldl (λ c kv, (PerfAnalyzerConfig.__setitem__ c kv.1 kv.2).1)
    PerfAnalyzerConfig.new assignments.

(** ** analyzer.py: server-only profiling and the rows of the GPU tables *)

(** A column value of a table row. *)
Inductive Cell :=
| CellStr (s : string)
| CellNum (z : Z)
| CellGpu (id : nat).

(** [gpu_metrics[gpu_id].append(metric_value)] on the local
    [defaultdict(list)] of the two profiling methods of [Analyzer]. *)
Definition append_metric (gpu_metrics : list (nat * list Z)) (gpu_id : nat)
    (metric_value : Z) : list (nat * list Z) :=
  PyDict.setitem gpu_id
    (default [] (PyDict.getitem gpu_id gpu_metrics) ++ [metric_value]) gpu_metrics.

(** The two nested loops that turn the mapping type -> (gpu id -> value)
    into the mapping gpu id -> values. *)
Definition metrics_by_gpu (metrics : list (RecordType * list (nat * Z)))
  : list (nat * list Z) :=
  foldl (λ gpu_metrics tag_metric,
           foldl (λ gpu_metrics gpu_value,
                    append_metric gpu_metrics gpu_value.1 gpu_value.2)
             gpu_metrics tag_metric.2)
    [] metrics.

(** The rows handed to [add_row], one per entry of [gpu_metrics]: the
    parameter columns, the metric values, the gpu id. *)
Definition gpu_rows (parameters : list Cell)
    (metrics : list (RecordType * list (nat * Z))) : list (list Cell) :=
  (λ gpu_metric, parameters ++ (CellNum <$> gpu_metric.2) ++ [CellGpu gpu_metric.1])
    <$> metrics_by_gpu metrics.



(** The values of one gpu id in the mapping type -> (gpu id -> value), in
    the order of the types. *)
Definition gpu_values (gpu_id : nat) (metrics : list (RecordType * list (nat * Z)))
  : list Z :=
  metrics ≫= λ tag_metric, (filter (λ gpu_value, gpu_value.1 = gpu_id) tag_metric.2).*2.


(** The list a gpu id is bound to after more values [vs] have been appended
    for it: a gpu id without a value so far stays unbound when there is
    nothing to append. *)
Definition extend_values (bound : option (list Z)) (vs : list Z) : option (list Z) :=
  match bound with
  | Some old => Some (old ++ vs)
  | None => match vs with [] => None | _ :: _ => Some vs end
  end.

(** * Properties *)

(** ** Dictionaries *)

Section dict_facts.
Context {K V : Type} `{EqDecision K}.
Implicit Types (k : K) (v : V) (d : list (K * V)).

Lemma getitem_setitem_eq k v d : PyDict.getitem k (PyDict.setitem k v d) = Some v.
Proof.
  induction d as [|[k' v'] d IH]; simpl.
  - by rewrite decide_True.
  - destruct (decide (k = k')) as [->|Hne]; simpl.
    + by rewrite decide_True.
    + by rewrite decide_False.
Qed.

Lemma getitem_setitem_ne k k' v d :
  k ≠ k' → PyDict.getitem k' (PyDict.setitem k v d) = PyDict.getitem k' d.
Proof.
  intros Hne. induction d as [|[k0 v0] d IH]; simpl.
  - rewrite decide_False; [done|congruence].
  - destruct (decide (k = k0)) as [->|Hne0]; simpl.
    + rewrite !decide_False; [done|congruence|congruence].
    + by rewrite IH.
Qed.

Lemma getitem_setitem k k' v d :
  PyDict.getitem k' (PyDict.setitem k v d) = if decide (k = k') then Some v else PyDict.getitem k' d.
Proof.
  destruct (decide (k = k')) as [->|Hne].
  - apply getitem_setitem_eq.
  - by apply getitem_setitem_ne.
Qed.

Lemma keys_setitem_present k v d :
  is_Some (PyDict.getitem k d) → PyDict.keys (PyDict.setitem k v d) = PyDict.keys d.
Proof.
  unfold PyDict.keys. induction d as [|[k' v'] d IH]; csimpl.
  - by intros [? ?].
  - destruct (decide (k = k')) as [->|Hne]; csimpl; [done|].
    intros Hs. by rewrite IH.
Qed.

Lemma keys_setitem_absent k v d :
  PyDict.getitem k d = None → PyDict.keys (PyDict.setitem k v d) = PyDict.keys d ++ [k].
Proof.
  unfold PyDict.keys. induction d as [|[k' v'] d IH]; csimpl; [done|].
  destruct (decide (k = k')) as [->|Hne]; csimpl; [done|].
  intros Hn. by rewrite IH.
Qed.

Lemma getitem_None k d : PyDict.getitem k d = None ↔ k ∉ PyDict.keys d.
Proof.
  unfold PyDict.keys. induction d as [|[k' v'] d IH]; csimpl.
  - split; [intros _; apply not_elem_of_nil|done].
  - rewrite not_elem_of_cons. destruct (decide (k = k')) as [->|Hne].
    + split; [done|]. intros [? _]. congruence.
    + rewrite IH. tauto.
Qed.

Lemma getitem_is_Some k d : is_Some (PyDict.getitem k d) ↔ k ∈ PyDict.keys d.
Proof.
  rewrite <-not_eq_None_Some, getitem_None.
  destruct (decide (k ∈ PyDict.keys d)); tauto.
Qed.

Lemma keys_setitem_NoDup k v d : NoDup (PyDict.keys d) → NoDup (PyDict.keys (PyDict.setitem k v d)).
Proof.
  intros Hnd. destruct (PyDict.getitem k d) as [v0|] eqn:Hg.
  - by rewrite keys_setitem_present.
  - rewrite keys_setitem_absent by done.
    apply NoDup_app. split; [done|]. split; [|apply NoDup_singleton].
    intros x Hx Hx'. apply list_elem_of_singleton in Hx' as ->.
    by apply getitem_None in Hg.
Qed.

End dict_facts.

(** ** The monad *)

Ltac simpl_store := cbn [lists dicts trace fst snd] in *.

Lemma bind_unfold {A B} (m : M A) (f : A → M B) (s : Store) :
  (m ≫= f) s =
  match m s with
  | (s', Returns a) => f a s'
  | (s', Raises e) => (s', Raises e)
  end.
Proof. reflexivity. Qed.

Lemma bind_returns {A B} (m : M A) (f : A → M B) (s s' : Store) (a : A) :
  m s = (s', Returns a) → (m ≫= f) s = f a s'.
Proof. intros Hm. by rewrite bind_unfold, Hm. Qed.

Lemma ret_unfold {A} (a : A) (s : Store) : (mret a : M A) s = (s, Returns a).
Proof. reflexivity. Qed.

Lemma contains_true {K V} `{EqDecision K} (k : K) (d : list (K * V)) :
  PyDict.contains k d = true ↔ is_Some (PyDict.getitem k d).
Proof.
  unfold PyDict.contains. destruct (PyDict.getitem k d); split; done.
Qed.

Lemma contains_setitem {K V} `{EqDecision K} (k k' : K) (v : V) (d : list (K * V)) :
  PyDict.contains k' d = true → PyDict.contains k' (PyDict.setitem k v d) = true.
Proof.
  rewrite !contains_true, getitem_setitem. by destruct (decide (k = k')).
Qed.

Lemma dict_getitem_Some {K V} `{EqDecision K} (k : K) (d : list (K * V)) (v : V) :
  PyDict.getitem k d = Some v → dict_getitem k d = Returns v.
Proof. unfold dict_getitem. by intros ->. Qed.

(** ** PerfAnalyzerConfig *)

(** C10. Setting a recognized key (a long-form argument, an option alias or
    a verbose alias) and reading it back gives the value that was set; on a
    key that is not recognized both [__setitem__] and [__getitem__] raise
    and the config is left as it was. *)
Theorem config_set_get_roundtrip (self : PerfAnalyzerConfig.t) (key : string) (v : PyValue) :
  (PerfAnalyzerConfig.recognized self key = true →
     ∃ self', PerfAnalyzerConfig.__setitem__ self key v = (self', Returns tt)
              ∧ PerfAnalyzerConfig.__getitem__ self' key = Returns v)
  ∧ (PerfAnalyzerConfig.recognized self key = false →
     PerfAnalyzerConfig.__setitem__ self key v
       = (self, Raises (TritonModelAnalyzerException (ArgumentNotSupported key)))
     ∧ PerfAnalyzerConfig.__getitem__ self key
       = Raises (TritonModelAnalyzerException (KeyNotFoundInConfig key))).
Proof.
  unfold PerfAnalyzerConfig.recognized, PerfAnalyzerConfig.__setitem__,
    PerfAnalyzerConfig.__getitem__.
  destruct (PyDict.contains key (PerfAnalyzerConfig._args self)) eqn:Hargs; simpl.
  { split; [intros _|done]. eexists. split; [done|]. simpl.
    rewrite contains_setitem by done.
    apply dict_getitem_Some, getitem_setitem_eq. }
  destruct (PyDict.contains key (PerfAnalyzerConfig._input_to_options self)) eqn:Hopt; simpl.
  { split; [intros _|done].
    destruct (proj1 (contains_true _ _) Hopt) as [option Hoption].
    rewrite (dict_getitem_Some _ _ _ Hoption).
    eexists. split; [done|]. simpl. rewrite Hargs, Hopt.
    rewrite (dict_getitem_Some _ _ _ Hoption).
    apply dict_getitem_Some, getitem_setitem_eq. }
  destruct (PyDict.contains key (PerfAnalyzerConfig._input_to_verbose self)) eqn:Hverb; simpl.
  { split; [intros _|done].
    destruct (proj1 (contains_true _ _) Hverb) as [flag Hflag].
    rewrite (dict_getitem_Some _ _ _ Hflag).
    eexists. split; [done|]. simpl. rewrite Hargs, Hopt, Hverb.
    rewrite (dict_getitem_Some _ _ _ Hflag).
    apply dict_getitem_Some, getitem_setitem_eq. }
  split; [done|]. by intros _.
Qed.

Lemma config_set_get_roundtrip_witness :
  PerfAnalyzerConfig.recognized PerfAnalyzerConfig.new "model-name" = true
  ∧ ∃ self',
      PerfAnalyzerConfig.__setitem__ PerfAnalyzerConfig.new "model-name" (PyStr "resnet50")
        = (self', Returns tt)
      ∧ PerfAnalyzerConfig.__getitem__ self' "model-name" = Returns (PyStr "resnet50").
Proof.
  split; [reflexivity|].
  apply (proj1 (config_set_get_roundtrip PerfAnalyzerConfig.new "model-name"
                  (PyStr "resnet50"))).
  reflexivity.
Defined.

(** The keys a new config recognizes. *)
Lemma config_new_recognized (key : string) :
  PerfAnalyzerConfig.recognized PerfAnalyzerConfig.new key = true ↔
  key ∈ ["async"; "sync"; "measurement-interval"; "concurrency-range";
         "request-rate-range"; "request-distribution"; "request-intervals";
         "binary-search"; "num-of-sequence"; "latency-threshold";
         "max-threads"; "stability-percentage"; "max-trials"; "percentile";
         "input-data"; "shared-memory"; "output-shared-memory-size"; "shape";
         "sequence-length"; "string-length"; "string-data";
         "model-name"; "model-version"; "batch-size"; "url"; "protocol";
         "latency-report-file"; "streaming"; "verbose"; "extra-verbose"]%string.
Proof.
  unfold PerfAnalyzerConfig.recognized.
  rewrite !orb_true_iff, !contains_true, !getitem_is_Some.
  unfold PerfAnalyzerConfig.new, PerfAnalyzerConfig._args,
    PerfAnalyzerConfig._input_to_options, PerfAnalyzerConfig._input_to_verbose,
    PyDict.keys.
  cbn [fmap list_fmap fst].
  rewrite !elem_of_cons, !elem_of_nil. tauto.
Qed.

(** ** RecordAggregator.filter_records: malformed calls *)

(** C8. With filter criteria given and no record types, and with record
    types and filter criteria given in different numbers, [filter_records]
    returns no aggregator and leaves the source as it was; but it fails in
    both cases with the same [NameError]: the two [raise] statements it
    reaches ("Must specify the record types corresponding to each filter
    criterion.", "Must specify the same number of record types as filter
    criteria.") name [TritonModelAnalyzerException], which the module does
    not import.  Neither an invalid-argument error nor an arity error is
    raised. *)
Theorem filter_records_malformed (s : Store) (self : addr)
    (record_types : option (list RecordType))
    (filters : option (list (RecordObj → outcome bool))) :
  truthy filters = true →
  (truthy record_types = false →
     RecordAggregator.filter_records self record_types filters s
     = (mkStore (lists s) (dicts s ++ [[]]) (trace s),
        Raises (NameError "TritonModelAnalyzerException")))
  ∧ (truthy record_types = true →
     length (default [] record_types) ≠ length (default [] filters) →
     RecordAggregator.filter_records self record_types filters s
     = (mkStore (lists s) (dicts s ++ [[]]) (trace s),
        Raises (NameError "TritonModelAnalyzerException"))).
Proof.
  intros Hf. unfold RecordAggregator.filter_records.
  rewrite bind_unfold. cbn -[truthy length]. rewrite Hf. split.
  - by intros ->.
  - intros -> Hlen. cbn -[length]. by rewrite bool_decide_false.
Qed.

Lemma filter_records_malformed_witness :
  let keep_all : RecordObj → outcome bool := λ _, Returns true in
  RecordAggregator.filter_records 0%nat None (Some [keep_all])
    (mkStore [] [[]] [])
  = (mkStore [] [[]; []] [],
     Raises (NameError "TritonModelAnalyzerException"))
  ∧ RecordAggregator.filter_records 0%nat (Some [GPUUsedMemory; GPUFreeMemory])
      (Some [keep_all]) (mkStore [] [[]] [])
    = (mkStore [] [[]; []] [],
       Raises (NameError "TritonModelAnalyzerException")).
Proof.
  intros keep_all. split.
  - apply (proj1 (filter_records_malformed (mkStore [] [[]] []) 0%nat None
                    (Some [keep_all]) eq_refl)).
    reflexivity.
  - apply (proj2 (filter_records_malformed (mkStore [] [[]] []) 0%nat
                    (Some [GPUUsedMemory; GPUFreeMemory])
                    (Some [keep_all]) eq_refl)).
    + reflexivity.
    + simpl. lia.
Defined.

(** ** Analyzer._profile: the workload fails *)

(** C1. When [perf_analyzer.run] raises [FileNotFoundError], [_profile]
    raises the exception "perf_analyzer binary not found" and the only calls
    made on the collaborators are the start of the monitor and the run
    itself: [stop_recording_metrics] is not called. *)
Theorem profile_binary_not_found (self : Analyzer.t) (dcgm_monitor : DCGMMonitor)
    (s : Store) :
  Analyzer._profile self (Some (mkPerfAnalyzer (Raises FileNotFoundError)))
    dcgm_monitor s
  = (mkStore (lists s) (dicts s)
       (trace s ++ [StartRecording; RunPerfAnalyzer (Analyzer.perf_tags self)]),
     Raises (TritonModelAnalyzerException PerfAnalyzerBinaryNotFound)).
Proof.
  unfold Analyzer._profile, mbind, M_bind. cbn -[app]. by rewrite <-(assoc_L (++)).
Qed.

(** ** Store primitives *)

Lemma new_run (s : Store) :
  RecordAggregator.new s
  = (mkStore (lists s) (dicts s ++ [[]]) (trace s), Returns (length (dicts s))).
Proof. reflexivity. Qed.

Lemma read_dict_run (s : Store) (a : addr) d :
  dicts s !! a = Some d → read_dict a s = (s, Returns d).
Proof. unfold read_dict. by intros ->. Qed.

Lemma read_list_run (s : Store) (l : addr) rs :
  lists s !! l = Some rs → read_list l s = (s, Returns rs).
Proof. unfold read_list. by intros ->. Qed.

Lemma list_append_run (s : Store) (l : addr) rs r :
  lists s !! l = Some rs →
  list_append l r s
  = (mkStore (<[l := rs ++ [r]]> (lists s)) (dicts s) (trace s), Returns tt).
Proof. unfold list_append. by intros ->. Qed.

Lemma defaultdict_getitem_present (s : Store) (a : addr) d k l :
  dicts s !! a = Some d → PyDict.getitem k d = Some l →
  defaultdict_getitem a k s = (s, Returns l).
Proof.
  intros Hd Hk. unfold defaultdict_getitem.
  rewrite (bind_returns _ _ _ _ _ (read_dict_run _ _ _ Hd)). cbv beta.
  by rewrite Hk.
Qed.

Lemma defaultdict_getitem_absent (s : Store) (a : addr) d k :
  dicts s !! a = Some d → PyDict.getitem k d = None →
  defaultdict_getitem a k s
  = (mkStore (lists s ++ [[]])
       (<[a := PyDict.setitem k (length (lists s)) d]> (dicts s)) (trace s),
     Returns (length (lists s))).
Proof.
  intros Hd Hk. unfold defaultdict_getitem.
  rewrite (bind_returns _ _ _ _ _ (read_dict_run _ _ _ Hd)). cbv beta.
  rewrite Hk.
  unfold new_list, write_dict, mbind, M_bind. cbn -[PyDict.setitem].
  by rewrite Hd.
Qed.

Lemma defaultdict_setitem_run (s : Store) (a : addr) d k l :
  dicts s !! a = Some d →
  defaultdict_setitem a k l s
  = (mkStore (lists s) (<[a := PyDict.setitem k l d]> (dicts s)) (trace s),
     Returns tt).
Proof.
  intros Hd. unfold defaultdict_setitem.
  rewrite (bind_returns _ _ _ _ _ (read_dict_run _ _ _ Hd)). cbv beta.
  unfold write_dict. by rewrite Hd.
Qed.

Lemma defaultdict_contains_run (s : Store) (a : addr) d k :
  dicts s !! a = Some d →
  defaultdict_contains a k s = (s, Returns (PyDict.contains k d)).
Proof.
  intros Hd. unfold defaultdict_contains.
  by rewrite (bind_returns _ _ _ _ _ (read_dict_run _ _ _ Hd)).
Qed.

Lemma lookup_insert_is_Some_iff {A} (l : list A) (i j : nat) (x : A) :
  is_Some (<[i := x]> l !! j) ↔ is_Some (l !! j).
Proof. by rewrite !lookup_lt_is_Some, length_insert. Qed.

(** ** RecordAggregator.filter_records with record types only *)

(** The loop of the second branch returns for every list of record types:
    no lookup in a [defaultdict] raises [KeyError]. *)
Lemma filter_types_loop_returns (self filtered : addr) (record_types : list RecordType) :
  ∀ s, is_Some (dicts s !! self) → is_Some (dicts s !! filtered) →
    ∃ s', for_each record_types (λ record_type,
            records ← defaultdict_getitem self record_type;
            RecordAggregator.add_key filtered record_type records) s
          = (s', Returns tt).
Proof.
  induction record_types as [|t ts IH]; intros s [d Hd] [df Hdf].
  - by eexists.
  - cbn [for_each]. rewrite bind_unfold.
    destruct (PyDict.getitem t d) as [l|] eqn:Ht.
    + rewrite (bind_returns _ _ _ _ _ (defaultdict_getitem_present _ _ _ _ _ Hd Ht)).
      unfold RecordAggregator.add_key.
      rewrite (defaultdict_setitem_run _ _ _ _ _ Hdf).
      apply IH; cbn; apply lookup_insert_is_Some_iff; by eexists.
    + rewrite (bind_returns _ _ _ _ _ (defaultdict_getitem_absent _ _ _ _ Hd Ht)).
      unfold RecordAggregator.add_key.
      assert (is_Some (<[self := PyDict.setitem t (length (lists s)) d]> (dicts s) !! filtered))
        as [df' Hdf'] by (apply lookup_insert_is_Some_iff; by eexists).
      rewrite (defaultdict_setitem_run _ _ df'); [|done].
      apply IH; cbn; rewrite !lookup_insert_is_Some_iff; by eexists.
Qed.

(** C2. With record types only, [filter_records] returns an aggregator
    whatever the requested types are: a type that was never inserted does
    not make it raise. *)
Theorem filter_records_types_only_returns (s : Store) (self : addr)
    (record_types : list RecordType) :
  is_Some (dicts s !! self) →
  record_types ≠ [] →
  ∃ s' filtered,
    RecordAggregator.filter_records self (Some record_types) None s
    = (s', Returns filtered).
Proof.
  intros Hself Hne. unfold RecordAggregator.filter_records.
  rewrite (bind_returns _ _ _ _ _ (new_run s)).
  destruct record_types as [|t ts]; [done|]. cbn [truthy negb andb default].
  unfold try_except.
  edestruct (filter_types_loop_returns self (length (dicts s)) (t :: ts)) as [s' Hs'];
    [| |rewrite (bind_returns _ _ _ _ _ Hs'); by eauto].
  - cbn. rewrite lookup_app_l; [done|]. by apply lookup_lt_is_Some.
  - cbn. rewrite lookup_app_r, Nat.sub_diag; [by eexists|done].
Qed.

Lemma filter_records_types_only_returns_witness :
  known_types (mkStore [] [[]] []) 0%nat = Some []
  ∧ ∃ s' filtered,
      RecordAggregator.filter_records 0%nat (Some [GPUUsedMemory]) None
        (mkStore [] [[]] [])
      = (s', Returns filtered).
Proof.
  split; [reflexivity|].
  apply (filter_records_types_only_returns (mkStore [] [[]] []) 0%nat [GPUUsedMemory]).
  - by eexists.
  - discriminate.
Defined.

(** C3. Filtering on a record type the source does not know binds that type
    in the source: after the call the source knows one type more (with an
    empty bucket). *)
Theorem filter_records_binds_absent_type (s : Store) (self : addr)
    (d : list (RecordType * addr)) (t : RecordType) :
  dicts s !! self = Some d →
  PyDict.getitem t d = None →
  ∃ s' filtered,
    RecordAggregator.filter_records self (Some [t]) None s = (s', Returns filtered)
    ∧ known_types s self = Some (PyDict.keys d)
    ∧ known_types s' self = Some (PyDict.keys d ++ [t])
    ∧ bucket s self t = None
    ∧ bucket s' self t = Some [].
Proof.
  intros Hd Ht.
  assert (self < length (dicts s))%nat as Hlt by by eapply lookup_lt_Some.
  unfold RecordAggregator.filter_records.
  rewrite (bind_returns _ _ _ _ _ (new_run s)).
  cbn [truthy negb andb default from_option id for_each]. unfold try_except.
  set (s1 := mkStore (lists s) (dicts s ++ [[]]) (trace s)).
  assert (dicts s1 !! self = Some d) as Hd1 by (cbn; by rewrite lookup_app_l).
  rewrite !bind_unfold.
  rewrite (defaultdict_getitem_absent _ _ _ _ Hd1 Ht).
  unfold RecordAggregator.add_key.
  erewrite defaultdict_setitem_run; last first.
  { cbn. rewrite list_lookup_insert_ne by lia.
    by rewrite lookup_app_r, Nat.sub_diag. }
  cbn. do 2 eexists. split; [done|].
  unfold known_types, bucket. cbn. rewrite Hd. cbn. rewrite Ht.
  rewrite list_lookup_insert_ne by lia.
  rewrite list_lookup_insert_eq by (rewrite length_app; cbn; lia).
  cbn. rewrite keys_setitem_absent by done. rewrite getitem_setitem_eq. cbn.
  by rewrite lookup_app_r, Nat.sub_diag.
Qed.

Lemma filter_records_binds_absent_type_witness :
  ∃ s' filtered,
    RecordAggregator.filter_records 0%nat (Some [GPUUsedMemory]) None
      (mkStore [] [[]] [])
    = (s', Returns filtered)
    ∧ known_types (mkStore [] [[]] []) 0%nat = Some []
    ∧ known_types s' 0%nat = Some [GPUUsedMemory]
    ∧ bucket (mkStore [] [[]] []) 0%nat GPUUsedMemory = None
    ∧ bucket s' 0%nat GPUUsedMemory = Some [].
Proof.
  apply (filter_records_binds_absent_type (mkStore [] [[]] []) 0%nat []
           GPUUsedMemory); reflexivity.
Defined.

(** ** RecordAggregator.insert and the buckets *)

Lemma insert_present (s : Store) (self : addr) d r l rs :
  dicts s !! self = Some d →
  PyDict.getitem (rtype r) d = Some l →
  lists s !! l = Some rs →
  RecordAggregator.insert self (ARecord r) s
  = (mkStore (<[l := rs ++ [r]]> (lists s)) (dicts s) (trace s), Returns tt).
Proof.
  intros Hd Ht Hl. unfold RecordAggregator.insert.
  rewrite (bind_returns _ _ _ _ _ (defaultdict_getitem_present _ _ _ _ _ Hd Ht)).
  by apply list_append_run.
Qed.

Lemma insert_absent (s : Store) (self : addr) d r :
  dicts s !! self = Some d →
  PyDict.getitem (rtype r) d = None →
  RecordAggregator.insert self (ARecord r) s
  = (mkStore (lists s ++ [[r]])
       (<[self := PyDict.setitem (rtype r) (length (lists s)) d]> (dicts s))
       (trace s),
     Returns tt).
Proof.
  intros Hd Ht. unfold RecordAggregator.insert.
  rewrite (bind_returns _ _ _ _ _ (defaultdict_getitem_absent _ _ _ _ Hd Ht)).
  erewrite list_append_run; last first.
  { cbn. by rewrite lookup_app_r, Nat.sub_diag. }
  cbn. do 2 f_equal.
  rewrite insert_app_r_alt, Nat.sub_diag by done. done.
Qed.

Lemma new_typed (s : Store) :
  typed (exec RecordAggregator.new s) (length (dicts s)).
Proof.
  exists []. cbn. split; [|done].
  by rewrite lookup_app_r, Nat.sub_diag.
Qed.

Lemma insert_typed (s : Store) (self : addr) (o : PyObject) :
  typed s self → typed (exec (RecordAggregator.insert self o) s) self.
Proof.
  intros (d & Hd & Hty & Hinj). destruct o as [r|]; [|by exists d].
  unfold exec. destruct (PyDict.getitem (rtype r) d) as [l|] eqn:Ht.
  - destruct (Hty _ _ Ht) as (rs & Hl & Hrs).
    rewrite (insert_present _ _ _ _ _ _ Hd Ht Hl). cbn [lists dicts trace fst].
    exists d. cbn [lists dicts trace]. split; [done|]. split; [|done].
    intros t' l' Ht'. destruct (decide (l' = l)) as [->|Hne].
    + rewrite (Hinj _ _ _ Ht' Ht). exists (rs ++ [r]). split.
      * apply list_lookup_insert_eq. by eapply lookup_lt_Some.
      * apply Forall_app. split; [done|]. by apply Forall_singleton.
    + rewrite list_lookup_insert_ne by done. by apply Hty.
  - rewrite (insert_absent _ _ _ _ Hd Ht). cbn [lists dicts trace fst].
    assert (self < length (dicts s))%nat by by eapply lookup_lt_Some.
    exists (PyDict.setitem (rtype r) (length (lists s)) d).
    cbn [lists dicts trace].
    split; [by apply list_lookup_insert_eq|].
    assert (∀ t l, PyDict.getitem t d = Some l → l < length (lists s))%nat as Hlt.
    { intros t l Htl. destruct (Hty _ _ Htl) as (rs & Hl & _).
      by eapply lookup_lt_Some. }
    split.
    + intros t' l'. rewrite getitem_setitem.
      destruct (decide (rtype r = t')) as [<-|Hne].
      * intros [= <-]. exists [r]. split.
        -- by rewrite lookup_app_r, Nat.sub_diag.
        -- by apply Forall_singleton.
      * intros Ht'. destruct (Hty _ _ Ht') as (rs & Hl & Hrs).
        exists rs. split; [|done]. rewrite lookup_app_l; [done|].
        by eapply lookup_lt_Some.
    + intros t1 t2 l0. rewrite !getitem_setitem.
      destruct (decide (rtype r = t1)) as [<-|Hne1],
               (decide (rtype r = t2)) as [<-|Hne2]; try done.
      * intros [= <-] Ht2. apply Hlt in Ht2. lia.
      * intros Ht1 [= <-]. apply Hlt in Ht1. lia.
      * apply Hinj.
Qed.

Lemma insert_all_typed (objs : list PyObject) (self : addr) :
  ∀ s, typed s self → typed (insert_all self objs s) self.
Proof.
  induction objs as [|o objs IH]; intros s Hs; [done|].
  cbn. apply IH. by apply insert_typed.
Qed.

Lemma typed_bucket (s : Store) (self : addr) (tag : RecordType) rs :
  typed s self → bucket s self tag = Some rs → Forall (λ r, rtype r = tag) rs.
Proof.
  intros (d & Hd & Hty & _). unfold bucket. rewrite Hd. cbn.
  destruct (PyDict.getitem tag d) as [l|] eqn:Ht; [|done]. cbn.
  destruct (Hty _ _ Ht) as (rs' & Hl & Hrs). rewrite Hl. by intros [= <-].
Qed.

(** ** RecordAggregator.total *)

Lemma total_of_type (s : Store) (self : addr) d tag l rs :
  dicts s !! self = Some d → PyDict.getitem tag d = Some l →
  lists s !! l = Some rs →
  RecordAggregator.total self (Some tag) s = (s, Returns (length rs)).
Proof.
  intros Hd Ht Hl. unfold RecordAggregator.total.
  rewrite (bind_returns _ _ _ _ _ (defaultdict_contains_run _ _ _ _ Hd)).
  cbv beta. unfold PyDict.contains. rewrite Ht. cbn [negb].
  rewrite (bind_returns _ _ _ _ _ (defaultdict_getitem_present _ _ _ _ _ Hd Ht)).
  by rewrite (bind_returns _ _ _ _ _ (read_list_run _ _ _ Hl)).
Qed.

Lemma total_loops_agree (s : Store) (self : addr) d (tags : list RecordType) :
  dicts s !! self = Some d →
  (∀ t, t ∈ tags → ∃ l rs, PyDict.getitem t d = Some l ∧ lists s !! l = Some rs) →
  ∀ acc, ∃ n,
    for_fold tags acc (λ sum k,
      bucket ← defaultdict_getitem self k;
      records ← read_list bucket;
      mret (sum + length records)%nat) s = (s, Returns n)
    ∧ for_fold tags acc (λ sum tag,
        n ← RecordAggregator.total self (Some tag);
        mret (sum + n)%nat) s = (s, Returns n).
Proof.
  intros Hd. induction tags as [|t tags IH]; intros Hall acc.
  - by exists acc.
  - destruct (Hall t) as (l & rs & Ht & Hl); [apply list_elem_of_here|].
    cbn [for_fold].
    destruct (IH (λ t' Ht', Hall t' (list_elem_of_further _ _ _ Ht'))
                 (acc + length rs)%nat) as (n & Hn1 & Hn2).
    exists n. split.
    + rewrite bind_unfold, bind_unfold.
      rewrite (defaultdict_getitem_present _ _ _ _ _ Hd Ht).
      by rewrite (bind_returns _ _ _ _ _ (read_list_run _ _ _ Hl)).
    + rewrite bind_unfold, bind_unfold.
      by rewrite (total_of_type _ _ _ _ _ _ Hd Ht Hl).
Qed.

(** C7. After any sequence of [insert] calls on a new aggregator, [total()]
    is the sum of [total(tag)] over the tags of [record_types()], and every
    record of the bucket of a tag is of that type. *)
Theorem bucket_integrity (s0 : Store) (objs : list PyObject) :
  let self := length (dicts s0) in
  let s := insert_all self objs (exec RecordAggregator.new s0) in
  ∃ n tags,
    RecordAggregator.total self None s = (s, Returns n)
    ∧ RecordAggregator.record_types self s = (s, Returns tags)
    ∧ sum_of_totals self tags s = (s, Returns n)
    ∧ ∀ tag rs, bucket s self tag = Some rs → Forall (λ r, rtype r = tag) rs.
Proof.
  intros self s.
  assert (typed s self) as Hty by apply insert_all_typed, new_typed.
  pose proof Hty as (d & Hd & Hb & _).
  destruct (total_loops_agree s self d (PyDict.keys d) Hd) with (acc := 0%nat)
    as (n & Hn1 & Hn2).
  { intros t Hin. apply getitem_is_Some in Hin as [l Hl].
    destruct (Hb _ _ Hl) as (rs & Hrs & _). eauto. }
  exists n, (PyDict.keys d). split; [|split; [|split]].
  - unfold RecordAggregator.total.
    by rewrite (bind_returns _ _ _ _ _ (read_dict_run _ _ _ Hd)).
  - unfold RecordAggregator.record_types.
    by rewrite (bind_returns _ _ _ _ _ (read_dict_run _ _ _ Hd)).
  - done.
  - intros tag rs. by apply typed_bucket.
Qed.

(** ** The builtin [max] *)

Lemma foldl_max_is_max (vs : list Z) :
  ∀ v, is_max (foldl Z.max v vs) (v :: vs).
Proof.
  induction vs as [|w vs IH]; intros v; cbn [foldl].
  - split; [apply list_elem_of_here|].
    intros x Hx. apply list_elem_of_singleton in Hx. lia.
  - destruct (IH (Z.max v w)) as [Hin Hle]. split.
    + apply elem_of_cons in Hin as [Heq|Hin].
      * rewrite Heq. destruct (Z.max_spec v w) as [[_ ->]|[_ ->]].
        -- apply list_elem_of_further, list_elem_of_here.
        -- apply list_elem_of_here.
      * by do 2 apply list_elem_of_further.
    + intros x Hx.
      assert ((Z.max v w ≤ foldl Z.max (Z.max v w) vs)%Z) as Hm
        by apply Hle, list_elem_of_here.
      apply elem_of_cons in Hx as [->|Hx]; [lia|].
      apply elem_of_cons in Hx as [->|Hx]; [lia|].
      by apply Hle, list_elem_of_further.
Qed.

Lemma is_max_unique (m m' : Z) (vs : list Z) : is_max m vs → is_max m' vs → m = m'.
Proof. intros [Hin Hle] [Hin' Hle']. apply Hle in Hin'. apply Hle' in Hin. lia. Qed.

(** ** Dictionaries built by a loop *)

Lemma getitem_foldl_setitem {K V} `{EqDecision K} (f : K → V) (ks : list K) :
  ∀ (acc : list (K * V)) (k : K),
    PyDict.getitem k (foldl (λ acc k', PyDict.setitem k' (f k') acc) acc ks)
    = if decide (k ∈ ks) then Some (f k) else PyDict.getitem k acc.
Proof.
  induction ks as [|k0 ks IH]; intros acc k; cbn [foldl].
  - rewrite decide_False; [done|apply not_elem_of_nil].
  - rewrite IH. destruct (decide (k ∈ ks)) as [Hin|Hnin].
    + rewrite decide_True; [done|by apply list_elem_of_further].
    + rewrite getitem_setitem. destruct (decide (k0 = k)) as [->|Hne].
      * rewrite decide_True; [done|apply list_elem_of_here].
      * rewrite decide_False; [done|]. rewrite not_elem_of_cons. split; congruence.
Qed.

(** ** RecordAggregator.aggregate *)

Lemma aggregate_loop (s : Store) (self : addr) d (f : RecordType → Z)
    (tags : list RecordType) :
  dicts s !! self = Some d →
  (∀ t, t ∈ tags → ∃ l rs, PyDict.getitem t d = Some l ∧ lists s !! l = Some rs
                           ∧ py_max (value <$> rs) = Returns (f t)) →
  ∀ acc,
    for_fold tags acc (λ aggregated_records record_type,
      bucket ← defaultdict_getitem self record_type;
      records ← read_list bucket;
      reduced ← lift (py_max (value <$> records));
      mret (PyDict.setitem record_type reduced aggregated_records)) s
    = (s, Returns (foldl (λ acc t, PyDict.setitem t (f t) acc) acc tags)).
Proof.
  intros Hd. induction tags as [|t tags IH]; intros Hall acc; [done|].
  destruct (Hall t) as (l & rs & Ht & Hl & Hmax); [apply list_elem_of_here|].
  cbn [for_fold foldl]. rewrite bind_unfold, bind_unfold.
  rewrite (defaultdict_getitem_present _ _ _ _ _ Hd Ht).
  rewrite (bind_returns _ _ _ _ _ (read_list_run _ _ _ Hl)).
  unfold lift at 1. rewrite bind_unfold, Hmax. rewrite ret_unfold.
  apply IH. intros t' Ht'. by apply Hall, list_elem_of_further.
Qed.

(** C6. On an aggregator whose buckets are all non-empty, [aggregate()]
    with the default reducer returns, without changing the store, a mapping
    whose keys are the known record types and whose value at a type is the
    greatest [value()] of the records of that bucket. *)
Theorem aggregate_default_max (s : Store) (self : addr) (tags : list RecordType) :
  known_types s self = Some tags →
  (∀ tag, tag ∈ tags → ∃ rs, bucket s self tag = Some rs ∧ rs ≠ []) →
  ∃ result,
    RecordAggregator.aggregate self None py_max s = (s, Returns result)
    ∧ (∀ tag, tag ∈ PyDict.keys result ↔ tag ∈ tags)
    ∧ ∀ tag rs, bucket s self tag = Some rs →
        ∃ m, PyDict.getitem tag result = Some m ∧ is_max m (value <$> rs).
Proof.
  unfold known_types, bucket. intros Hk Hne.
  destruct (dicts s !! self) as [d|] eqn:Hd; [|done].
  injection Hk as <-. cbn in Hne.
  set (f := λ t : RecordType,
         match l ← PyDict.getitem t d; lists s !! l with
         | Some (r :: rs) => foldl Z.max (value r) (value <$> rs)
         | _ => 0%Z
         end).
  exists (foldl (λ acc t, PyDict.setitem t (f t) acc) [] (PyDict.keys d)).
  split; [|split].
  - unfold RecordAggregator.aggregate. cbn [truthy negb].
    unfold RecordAggregator.record_types.
    rewrite bind_unfold, (bind_returns _ _ _ _ _ (read_dict_run _ _ _ Hd)).
    rewrite ret_unfold. apply (aggregate_loop s self d f); [done|].
    intros t Ht. destruct (Hne t Ht) as (rs & Hrs & Hnil).
    destruct (PyDict.getitem t d) as [l|] eqn:Hl; [|done]. cbn in Hrs.
    exists l, rs. split; [done|]. split; [done|].
    unfold f. rewrite Hl. cbn. rewrite Hrs. by destruct rs.
  - intros tag. rewrite <-!getitem_is_Some, getitem_foldl_setitem.
    destruct (decide (tag ∈ PyDict.keys d)) as [Hin|Hnin].
    + by rewrite getitem_is_Some.
    + cbn. by rewrite getitem_is_Some.
  - cbn. intros tag rs Hrs.
    destruct (PyDict.getitem tag d) as [l|] eqn:Hl; [|done]. cbn in Hrs.
    assert (tag ∈ PyDict.keys d) as Hin by (apply getitem_is_Some; by eexists).
    rewrite getitem_foldl_setitem, decide_True by done.
    eexists. split; [done|]. unfold f. rewrite Hl. cbn. rewrite Hrs.
    destruct (Hne tag Hin) as (rs' & Hrs' & Hnil). rewrite Hl in Hrs'.
    cbn in Hrs'. assert (rs' = rs) as -> by congruence.
    destruct rs as [|r rs]; [done|]. apply foldl_max_is_max.
Qed.

Lemma aggregate_default_max_witness :
  let throughput v := mkRecord PerfThroughput None v 0 in
  let s := mkStore [[throughput 100%Z; throughput 150%Z; throughput 120%Z]]
             [[(PerfThroughput, 0%nat)]] [] in
  RecordAggregator.aggregate 0%nat None py_max s
    = (s, Returns [(PerfThroughput, 150%Z)])
  ∧ ∃ result,
      RecordAggregator.aggregate 0%nat None py_max s = (s, Returns result)
      ∧ (∀ tag, tag ∈ PyDict.keys result ↔ tag ∈ [PerfThroughput])
      ∧ ∀ tag rs, bucket s 0%nat tag = Some rs →
          ∃ m, PyDict.getitem tag result = Some m ∧ is_max m (value <$> rs).
Proof.
  intros throughput s. split; [reflexivity|].
  apply (aggregate_default_max s 0%nat [PerfThroughput]); [reflexivity|].
  intros tag Htag. apply list_elem_of_singleton in Htag as ->.
  eexists. split; [reflexivity|discriminate].
Defined.

(** ** RecordAggregator.filter_records with one record type and one criterion *)

Lemma insert_with_filtered L D tr (T : RecordType) (acc : list RecordObj) (r : RecordObj) :
  rtype r = T →
  RecordAggregator.insert (length D) (ARecord r) (with_filtered L D tr T acc)
  = (with_filtered L D tr T (acc ++ [r]), Returns tt).
Proof.
  intros <-. destruct acc as [|a acc]; cbn [with_filtered app].
  - rewrite (insert_absent _ _ [] r); [|cbn|done].
    2:{ by rewrite lookup_app_r, Nat.sub_diag. }
    cbn. do 2 f_equal. by rewrite insert_app_r_alt, Nat.sub_diag.
  - rewrite (insert_present _ _ [(rtype r, length L)] r (length L) (a :: acc));
      [|cbn..].
    2:{ by rewrite lookup_app_r, Nat.sub_diag. }
    2:{ by rewrite decide_True. }
    2:{ by rewrite lookup_app_r, Nat.sub_diag. }
    cbn. do 2 f_equal. by rewrite insert_app_r_alt, Nat.sub_diag.
Qed.

Lemma filter_inner_loop L D tr (T : RecordType)
    (f : RecordObj → outcome bool) (P : RecordObj → Prop) `{∀ r, Decision (P r)}
    (rs : list RecordObj) :
  Forall (λ r, rtype r = T) rs →
  Forall (λ r, f r = Returns (bool_decide (P r))) rs →
  ∀ acc,
    for_each rs (λ record,
      keep ← lift (f record);
      if keep : bool then RecordAggregator.insert (length D) (ARecord record)
      else mret tt) (with_filtered L D tr T acc)
    = (with_filtered L D tr T (acc ++ filter P rs), Returns tt).
Proof.
  induction rs as [|r rs IH]; intros Hty Hf acc.
  - by rewrite filter_nil, (right_id_L [] (++)).
  - apply Forall_cons in Hty as [Hr Hty]. apply Forall_cons in Hf as [Hfr Hf].
    cbn [for_each]. rewrite bind_unfold, bind_unfold. unfold lift at 1.
    rewrite Hfr. destruct (decide (P r)) as [HP|HP].
    + rewrite bool_decide_true, insert_with_filtered by done.
      rewrite IH, filter_cons_True by done. by rewrite <-(assoc_L (++)).
    + rewrite bool_decide_false, ret_unfold by done.
      by rewrite IH, filter_cons_False.
Qed.

Lemma filter_records_one_criterion (s : Store) (self : addr) d (T : RecordType) l
    (f : RecordObj → outcome bool) (P : RecordObj → Prop) `{∀ r, Decision (P r)}
    (rs : list RecordObj) :
  dicts s !! self = Some d →
  PyDict.getitem T d = Some l →
  lists s !! l = Some rs →
  Forall (λ r, rtype r = T) rs →
  Forall (λ r, f r = Returns (bool_decide (P r))) rs →
  RecordAggregator.filter_records self (Some [T]) (Some [f]) s
  = (with_filtered (lists s) (dicts s) (trace s) T (filter P rs),
     Returns (length (dicts s))).
Proof.
  intros Hd Ht Hl Hty Hf.
  assert (self < length (dicts s))%nat by by eapply lookup_lt_Some.
  unfold RecordAggregator.filter_records.
  rewrite (bind_returns _ _ _ _ _ (new_run s)).
  cbn [truthy negb andb default from_option id length bool_decide decide_rel zip zip_with for_each].
  rewrite bool_decide_true by done. cbn [negb].
  change (mkStore (lists s) (dicts s ++ [[]]) (trace s))
    with (with_filtered (lists s) (dicts s) (trace s) T []).
  rewrite !bind_unfold.
  rewrite (defaultdict_getitem_present _ _ d T l); [|cbn|done].
  2:{ by rewrite lookup_app_l. }
  cbv beta iota. rewrite bind_unfold, (read_list_run _ _ rs) by done.
  cbv beta iota. by rewrite (filter_inner_loop _ _ _ T f P).
Qed.

(** [aggregate] on the aggregator a filter with one criterion returned. *)
Lemma aggregate_with_filtered L D tr (T : RecordType) (acc : list RecordObj)
    (reduce_func : list Z → outcome Z) (m : Z) :
  acc ≠ [] →
  reduce_func (value <$> acc) = Returns m →
  RecordAggregator.aggregate (length D) (Some [T]) reduce_func
    (with_filtered L D tr T acc)
  = (with_filtered L D tr T acc, Returns [(T, m)]).
Proof.
  intros Hne Hm. destruct acc as [|a acc]; [done|].
  unfold RecordAggregator.aggregate.
  cbn [truthy negb default from_option id with_filtered].
  rewrite bind_unfold, ret_unfold. cbn [for_fold].
  rewrite !bind_unfold.
  rewrite (defaultdict_getitem_present _ _ [(T, length L)] T (length L)); [|cbn..].
  2:{ by rewrite lookup_app_r, Nat.sub_diag. }
  2:{ by rewrite decide_True. }
  cbv beta iota. rewrite bind_unfold, (read_list_run _ _ (a :: acc)); [|cbn].
  2:{ by rewrite lookup_app_r, Nat.sub_diag. }
  cbv beta iota. rewrite bind_unfold. unfold lift. by rewrite Hm.
Qed.

(** ** RecordAggregator.filter_records with one record type *)

Lemma filter_records_one_type_present (s : Store) (self : addr) d (T : RecordType) l :
  dicts s !! self = Some d →
  PyDict.getitem T d = Some l →
  RecordAggregator.filter_records self (Some [T]) None s
  = (mkStore (lists s) (dicts s ++ [[(T, l)]]) (trace s), Returns (length (dicts s))).
Proof.
  intros Hd Ht.
  assert (self < length (dicts s))%nat by by eapply lookup_lt_Some.
  unfold RecordAggregator.filter_records.
  rewrite (bind_returns _ _ _ _ _ (new_run s)).
  cbn [truthy negb andb default from_option id for_each]. unfold try_except.
  rewrite !bind_unfold.
  rewrite (defaultdict_getitem_present _ _ d T l); [|cbn|done].
  2:{ by rewrite lookup_app_l. }
  cbv beta iota. unfold RecordAggregator.add_key.
  rewrite (defaultdict_setitem_run _ _ []); [|cbn].
  2:{ by rewrite lookup_app_r, Nat.sub_diag. }
  cbn. by rewrite insert_app_r_alt, Nat.sub_diag.
Qed.

Lemma filter_records_one_type_absent (s : Store) (self : addr) d (T : RecordType) :
  dicts s !! self = Some d →
  PyDict.getitem T d = None →
  RecordAggregator.filter_records self (Some [T]) None s
  = (mkStore (lists s ++ [[]])
       (<[self := PyDict.setitem T (length (lists s)) d]> (dicts s)
        ++ [[(T, length (lists s))]])
       (trace s),
     Returns (length (dicts s))).
Proof.
  intros Hd Ht.
  assert (self < length (dicts s))%nat by by eapply lookup_lt_Some.
  unfold RecordAggregator.filter_records.
  rewrite (bind_returns _ _ _ _ _ (new_run s)).
  cbn [truthy negb andb default from_option id for_each]. unfold try_except.
  rewrite !bind_unfold.
  rewrite (defaultdict_getitem_absent _ _ d T); [|cbn|done].
  2:{ by rewrite lookup_app_l. }
  cbv beta iota. unfold RecordAggregator.add_key.
  rewrite (defaultdict_setitem_run _ _ []); [|cbn].
  2:{ rewrite list_lookup_insert_ne by lia.
      by rewrite lookup_app_r, Nat.sub_diag. }
  cbn. do 2 f_equal.
  rewrite insert_app_l by done.
  rewrite insert_app_r_alt by (by rewrite length_insert).
  by rewrite length_insert, Nat.sub_diag.
Qed.

(** ** RecordAggregator.groupby *)

Section groupby_facts.
Context {K : Type} `{EqDecision K}.
Context (groupby_criteria : RecordObj → outcome K) (key : RecordObj → K).
Context (reduce_func : list Z → outcome Z) (red : K → Z).

Lemma elem_of_set_add (k k' : K) (fv : list K) :
  k ∈ set_add k' fv ↔ k ∈ fv ∨ k = k'.
Proof.
  unfold set_add. destruct (decide (k' ∈ fv)) as [Hin|Hnin].
  - split; [by left|]. intros [?| ->]; done.
  - rewrite elem_of_app, list_elem_of_singleton. done.
Qed.

Lemma NoDup_set_add (k : K) (fv : list K) : NoDup fv → NoDup (set_add k fv).
Proof.
  intros Hnd. unfold set_add. destruct (decide (k ∈ fv)) as [Hin|Hnin]; [done|].
  apply NoDup_app. split; [done|]. split; [|apply NoDup_singleton].
  intros x Hx Hx'. apply list_elem_of_singleton in Hx' as ->. done.
Qed.

Lemma elem_of_foldl_set_add (rs : list RecordObj) :
  ∀ (acc : list K) (k : K),
    k ∈ foldl (λ fv r, set_add (key r) fv) acc rs
    ↔ k ∈ acc ∨ ∃ r, r ∈ rs ∧ key r = k.
Proof.
  induction rs as [|r rs IH]; intros acc k; cbn [foldl].
  - split; [by left|]. intros [?|(r & Hr & _)]; [done|].
    by apply elem_of_nil in Hr.
  - rewrite IH, elem_of_set_add. split.
    + intros [[?| ->]|(r' & Hr' & Hk)].
      * by left.
      * right. exists r. split; [apply list_elem_of_here|done].
      * right. exists r'. split; [by apply list_elem_of_further|done].
    + intros [?|(r' & Hr' & Hk)]; [by left; left|].
      apply elem_of_cons in Hr' as [->|Hr'].
      * left. by right.
      * right. by exists r'.
Qed.

Lemma NoDup_foldl_set_add (rs : list RecordObj) :
  ∀ acc : list K, NoDup acc → NoDup (foldl (λ fv r, set_add (key r) fv) acc rs).
Proof.
  induction rs as [|r rs IH]; intros acc Hnd; [done|].
  cbn [foldl]. by apply IH, NoDup_set_add.
Qed.

Lemma elem_of_distinct_keys (rs : list RecordObj) (k : K) :
  k ∈ distinct_keys key rs ↔ ∃ r, r ∈ rs ∧ key r = k.
Proof.
  unfold distinct_keys. rewrite elem_of_foldl_set_add. split; [|by right].
  intros [Hin|?]; [|done]. by apply elem_of_nil in Hin.
Qed.

Lemma NoDup_distinct_keys (rs : list RecordObj) : NoDup (distinct_keys key rs).
Proof. apply NoDup_foldl_set_add, NoDup_nil_2. Qed.

Lemma field_values_loop (rs : list RecordObj) :
  Forall (λ r, groupby_criteria r = Returns (key r)) rs →
  ∀ (acc : list K) (s : Store),
    for_fold rs acc (λ field_values record,
      k ← lift (groupby_criteria record);
      mret (set_add k field_values)) s
    = (s, Returns (foldl (λ fv r, set_add (key r) fv) acc rs)).
Proof.
  induction rs as [|r rs IH]; intros Hc acc s; [done|].
  apply Forall_cons in Hc as [Hr Hc].
  cbn [for_fold foldl]. rewrite bind_unfold, bind_unfold. unfold lift at 1.
  rewrite Hr, ret_unfold. by apply IH.
Qed.

Lemma groupby_outer_loop (self : addr) d (T : RecordType) l (rs : list RecordObj)
    (ks : list K) :
  PyDict.getitem T d = Some l →
  Forall (λ r, rtype r = T) rs →
  Forall (λ r, groupby_criteria r = Returns (key r)) rs →
  (∀ k, k ∈ ks → (∃ r, r ∈ rs ∧ key r = k)
                 ∧ reduce_func (value <$> filter (λ r, key r = k) rs)
                   = Returns (red k)) →
  ∀ (s : Store) (acc : list (K * Z)),
    dicts s !! self = Some d →
    lists s !! l = Some rs →
    ∃ s',
      for_fold ks acc (λ groupby_result field_value,
        filtered ← RecordAggregator.filter_records self (Some [T])
          (Some [λ record,
                   match groupby_criteria record with
                   | Returns k => Returns (bool_decide (k = field_value))
                   | Raises e => Raises e
                   end]);
        aggregated_result ← RecordAggregator.aggregate filtered (Some [T]) reduce_func;
        reduced ← lift (dict_getitem T aggregated_result);
        mret (PyDict.setitem field_value reduced groupby_result)) s
      = (s', Returns (foldl (λ m k, PyDict.setitem k (red k) m) acc ks))
      ∧ dicts s' !! self = Some d
      ∧ (∀ l' rs', lists s !! l' = Some rs' → lists s' !! l' = Some rs')
      ∧ trace s' = trace s.
Proof.
  intros Ht Hty Hc. induction ks as [|k ks IH]; intros Hks s acc Hd Hl.
  - by exists s.
  - destruct (Hks k) as [(r0 & Hr0 & Hk0) Hred]; [apply list_elem_of_here|].
    cbn [for_fold foldl]. rewrite bind_unfold, bind_unfold.
    rewrite (filter_records_one_criterion s self d T l _ (λ r, key r = k) rs);
      [|done..|].
    2:{ eapply Forall_impl; [exact Hc|]. cbv beta. by intros r ->. }
    cbv beta iota. rewrite bind_unfold.
    assert (filter (λ r, key r = k) rs ≠ []) as Hne.
    { intros Hnil. eapply filter_nil_not_elem_of; [exact Hnil| |exact Hr0]. done. }
    rewrite (aggregate_with_filtered _ _ _ _ _ _ (red k)) by done.
    cbv beta iota. rewrite bind_unfold. unfold lift at 1, dict_getitem.
    cbn [PyDict.getitem]. rewrite decide_True by done. rewrite ret_unfold.
    destruct (filter (λ r, key r = k) rs) as [|a grp] eqn:Hgrp; [done|].
    cbn [with_filtered].
    set (s1 := mkStore (lists s ++ [a :: grp])
                 (dicts s ++ [[(T, length (lists s))]]) (trace s)).
    assert (dicts s1 !! self = Some d) as Hd1.
    { cbn. rewrite lookup_app_l; [done|]. by eapply lookup_lt_Some. }
    assert (lists s1 !! l = Some rs) as Hl1.
    { cbn. rewrite lookup_app_l; [done|]. by eapply lookup_lt_Some. }
    destruct (IH (λ k' Hk', Hks k' (list_elem_of_further _ _ _ Hk')) s1
                (PyDict.setitem k (red k) acc) Hd1 Hl1)
      as (s' & Hrun & Hd' & Hl' & Htr).
    exists s'. split; [exact Hrun|]. split; [done|]. split; [|done].
    intros l' rs' Hl0. apply Hl'. cbn. rewrite lookup_app_l; [done|].
    by eapply lookup_lt_Some.
Qed.

End groupby_facts.

Section groupby_runs.
Context {K : Type} `{EqDecision K}.
Context (groupby_criteria : RecordObj → outcome K) (key : RecordObj → K).
Context (reduce_func : list Z → outcome Z) (red : K → Z).

Lemma groupby_present (s : Store) (self : addr) d (T : RecordType) l
    (rs : list RecordObj) :
  dicts s !! self = Some d →
  PyDict.getitem T d = Some l →
  lists s !! l = Some rs →
  Forall (λ r, rtype r = T) rs →
  Forall (λ r, groupby_criteria r = Returns (key r)) rs →
  (∀ k, k ∈ distinct_keys key rs →
        reduce_func (value <$> filter (λ r, key r = k) rs) = Returns (red k)) →
  ∃ s',
    RecordAggregator.groupby self T groupby_criteria reduce_func s
    = (s', Returns (grouped key red rs))
    ∧ dicts s' !! self = Some d
    ∧ (∀ l' rs', lists s !! l' = Some rs' → lists s' !! l' = Some rs')
    ∧ trace s' = trace s.
Proof.
  intros Hd Ht Hl Hty Hc Hred.
  assert (self < length (dicts s))%nat by by eapply lookup_lt_Some.
  unfold RecordAggregator.groupby.
  rewrite bind_unfold, bind_unfold.
  rewrite (filter_records_one_type_present _ _ _ _ _ Hd Ht).
  cbv beta iota. unfold RecordAggregator.get_records. rewrite ret_unfold.
  set (s1 := mkStore (lists s) (dicts s ++ [[(T, l)]]) (trace s)).
  rewrite bind_unfold.
  rewrite (defaultdict_getitem_present s1 _ [(T, l)] T l); [|cbn..].
  2:{ by rewrite lookup_app_r, Nat.sub_diag. }
  2:{ by rewrite decide_True. }
  cbv beta iota. rewrite bind_unfold, (read_list_run s1 l rs) by done.
  cbv beta iota. rewrite bind_unfold.
  rewrite (field_values_loop groupby_criteria key rs Hc).
  assert (dicts s1 !! self = Some d) as Hd1 by (cbn; by rewrite lookup_app_l).
  destruct (groupby_outer_loop groupby_criteria key reduce_func red self d T l rs
              (distinct_keys key rs) Ht Hty Hc) with (s := s1) (acc := @nil (K * Z))
    as (s' & Hrun & Hd' & Hl' & Htr); [|done|done|].
  { intros k Hk. split; [by apply elem_of_distinct_keys|by apply Hred]. }
  exists s'. split; [exact Hrun|]. split; [done|]. split; [|done].
  intros l' rs'. apply Hl'.
Qed.

Lemma groupby_absent (s : Store) (self : addr) d (T : RecordType) :
  dicts s !! self = Some d →
  PyDict.getitem T d = None →
  RecordAggregator.groupby self T groupby_criteria reduce_func s
  = (mkStore (lists s ++ [[]])
       (<[self := PyDict.setitem T (length (lists s)) d]> (dicts s)
        ++ [[(T, length (lists s))]])
       (trace s),
     Returns []).
Proof.
  intros Hd Ht.
  unfold RecordAggregator.groupby.
  rewrite bind_unfold, bind_unfold.
  rewrite (filter_records_one_type_absent _ _ _ _ Hd Ht).
  cbv beta iota. unfold RecordAggregator.get_records. rewrite ret_unfold.
  rewrite bind_unfold.
  rewrite (defaultdict_getitem_present _ _ [(T, length (lists s))] T (length (lists s)));
    [|cbn..].
  2:{ rewrite lookup_app_r by (by rewrite length_insert).
      by rewrite length_insert, Nat.sub_diag. }
  2:{ by rewrite decide_True. }
  cbv beta iota. rewrite bind_unfold, (read_list_run _ _ []); [|cbn].
  2:{ by rewrite lookup_app_r, Nat.sub_diag. }
  done.
Qed.

Lemma groupby_present_empty (s : Store) (self : addr) d (T : RecordType) l :
  dicts s !! self = Some d →
  PyDict.getitem T d = Some l →
  lists s !! l = Some [] →
  RecordAggregator.groupby self T groupby_criteria reduce_func s
  = (mkStore (lists s) (dicts s ++ [[(T, l)]]) (trace s), Returns []).
Proof.
  intros Hd Ht Hl.
  unfold RecordAggregator.groupby.
  rewrite bind_unfold, bind_unfold.
  rewrite (filter_records_one_type_present _ _ _ _ _ Hd Ht).
  cbv beta iota. unfold RecordAggregator.get_records. rewrite ret_unfold.
  rewrite bind_unfold.
  rewrite (defaultdict_getitem_present _ _ [(T, l)] T l); [|cbn..].
  2:{ by rewrite lookup_app_r, Nat.sub_diag. }
  2:{ by rewrite decide_True. }
  cbv beta iota. by rewrite bind_unfold, (read_list_run _ _ []).
Qed.

End groupby_runs.

(** C4. On a record type whose bucket is there and empty, [groupby] raises
    nothing: it returns the empty mapping, whatever the criterion and the
    reduction are. *)
Theorem groupby_empty_bucket {K} `{EqDecision K} (s : Store) (self : addr)
    (T : RecordType) (groupby_criteria : RecordObj → outcome K)
    (reduce_func : list Z → outcome Z) :
  bucket s self T = Some [] →
  ∃ s', RecordAggregator.groupby self T groupby_criteria reduce_func s
        = (s', Returns []).
Proof.
  unfold bucket. intros Hb.
  destruct (dicts s !! self) as [d|] eqn:Hd; [|done]. cbn in Hb.
  destruct (PyDict.getitem T d) as [l|] eqn:Ht; [|done]. cbn in Hb.
  eexists. by apply (groupby_present_empty _ _ s self d T l).
Qed.

Lemma groupby_empty_bucket_witness :
  bucket store_with_empty_bucket 0%nat GPUUsedMemory = Some []
  ∧ ∃ s', RecordAggregator.groupby 0%nat GPUUsedMemory Analyzer.gpu_device_id
            py_max store_with_empty_bucket
          = (s', Returns []).
Proof.
  split; [reflexivity|].
  apply (groupby_empty_bucket store_with_empty_bucket 0%nat GPUUsedMemory
           Analyzer.gpu_device_id py_max).
  reflexivity.
Defined.

(** C4, as stated, fails: on an aggregator whose bucket of [GPUUsedMemory]
    is empty, [groupby] returns the empty mapping and raises nothing. *)
Lemma groupby_empty_bucket_counterexample :
  bucket store_with_empty_bucket 0%nat GPUUsedMemory = Some []
  ∧ (RecordAggregator.groupby 0%nat GPUUsedMemory Analyzer.gpu_device_id py_max
       store_with_empty_bucket).2 = Returns []
  ∧ ¬ ∃ e, (RecordAggregator.groupby 0%nat GPUUsedMemory Analyzer.gpu_device_id
              py_max store_with_empty_bucket).2 = Raises e.
Proof.
  split; [reflexivity|]. split; [reflexivity|]. intros [e He]. discriminate He.
Qed.

(** ** Grouping by device *)

Lemma py_max_max_of (vs : list Z) : vs ≠ [] → py_max vs = Returns (max_of vs).
Proof. by destruct vs. Qed.

Lemma max_of_is_max (vs : list Z) : vs ≠ [] → is_max (max_of vs) vs.
Proof. destruct vs as [|v vs]; [done|]. intros _. apply foldl_max_is_max. Qed.

Lemma is_max_nonempty (m : Z) (vs : list Z) : is_max m vs → vs ≠ [].
Proof. intros [Hin _] ->. by apply elem_of_nil in Hin. Qed.

Lemma device_key_eq (r : RecordObj) (id : nat) :
  is_Some (device r) → device_key r = id ↔ device r = Some (mkGPUDevice id).
Proof.
  unfold device_key. intros [[id'] ->]. cbn. split; [by intros ->|by intros [= ->]].
Qed.

Lemma gpu_device_id_device_key (r : RecordObj) :
  is_Some (device r) → Analyzer.gpu_device_id r = Returns (device_key r).
Proof. unfold Analyzer.gpu_device_id, device_key. by intros [d ->]. Qed.

Lemma filter_ext_Forall {A} (P Q : A → Prop) `{∀ x, Decision (P x)}
    `{∀ x, Decision (Q x)} (l : list A) :
  Forall (λ x, P x ↔ Q x) l → filter P l = filter Q l.
Proof.
  induction 1 as [|x l Hx Hl IH]; [done|].
  destruct (decide (P x)) as [HP|HP].
  - rewrite !filter_cons_True by tauto. by rewrite IH.
  - rewrite !filter_cons_False by tauto. done.
Qed.

Lemma NoDup_keys_foldl_setitem {K V} `{EqDecision K} (f : K → V) (ks : list K) :
  ∀ acc : list (K * V), NoDup (PyDict.keys acc) →
    NoDup (PyDict.keys (foldl (λ acc k, PyDict.setitem k (f k) acc) acc ks)).
Proof.
  induction ks as [|k ks IH]; intros acc Hnd; [done|].
  cbn [foldl]. by apply IH, keys_setitem_NoDup.
Qed.

Lemma getitem_grouped {K} `{EqDecision K} (key : RecordObj → K) (red : K → Z)
    (rs : list RecordObj) (k : K) :
  PyDict.getitem k (grouped key red rs)
  = if decide (k ∈ distinct_keys key rs) then Some (red k) else None.
Proof. unfold grouped. by rewrite getitem_foldl_setitem. Qed.

Lemma max_by_device_spec (rs : list RecordObj) :
  Forall (λ r, is_Some (device r)) rs →
  (∀ id, id ∈ PyDict.keys (max_by_device rs)
         ↔ ∃ r, r ∈ rs ∧ device r = Some (mkGPUDevice id))
  ∧ NoDup (PyDict.keys (max_by_device rs))
  ∧ (∀ id m, PyDict.getitem id (max_by_device rs) = Some m
             ↔ is_max m (value <$> filter (λ r, device r = Some (mkGPUDevice id)) rs)).
Proof.
  intros Hdev.
  assert (∀ id, (∃ r, r ∈ rs ∧ device_key r = id)
                ↔ ∃ r, r ∈ rs ∧ device r = Some (mkGPUDevice id)) as Hex.
  { intros id. split; intros (r & Hr & Hk); exists r; (split; [done|]);
      apply device_key_eq; try done;
      by eapply (proj1 (Forall_forall _ _) Hdev). }
  assert (∀ id, filter (λ r, device_key r = id) rs
                = filter (λ r, device r = Some (mkGPUDevice id)) rs) as Hfilter.
  { intros id. apply filter_ext_Forall. eapply Forall_impl; [exact Hdev|].
    intros r Hr. by apply device_key_eq. }
  assert (∀ id, id ∈ distinct_keys device_key rs
                ↔ filter (λ r, device r = Some (mkGPUDevice id)) rs ≠ []) as Hne.
  { intros id. rewrite elem_of_distinct_keys, Hex. split.
    - intros (r & Hr & Hd) Hnil.
      by eapply filter_nil_not_elem_of; [exact Hnil| |exact Hr].
    - intros Hnil.
      destruct (filter (λ r, device r = Some (mkGPUDevice id)) rs) as [|r grp] eqn:Hgrp;
        [done|].
      assert (r ∈ filter (λ r, device r = Some (mkGPUDevice id)) rs) as Hr
        by (rewrite Hgrp; apply list_elem_of_here).
      apply list_elem_of_filter in Hr as [Hd Hr]. by exists r. }
  unfold max_by_device. split; [|split].
  - intros id. rewrite <-getitem_is_Some, getitem_grouped.
    destruct (decide (id ∈ distinct_keys device_key rs)) as [Hin|Hnin].
    + split; [intros _|by eexists]. by apply Hex, elem_of_distinct_keys.
    + split; [by intros [? ?]|]. intros Hr. exfalso.
      by apply Hnin, elem_of_distinct_keys, Hex.
  - unfold grouped. apply NoDup_keys_foldl_setitem, NoDup_nil_2.
  - intros id m. rewrite getitem_grouped, Hfilter.
    destruct (decide (id ∈ distinct_keys device_key rs)) as [Hin|Hnin].
    + apply Hne in Hin.
      assert (value <$> filter (λ r, device r = Some (mkGPUDevice id)) rs ≠ []) as Hvs.
      { intros Hnil. by apply fmap_nil_inv in Hnil. }
      split.
      * intros [= <-]. by apply max_of_is_max.
      * intros Hm. f_equal. eapply is_max_unique; [|exact Hm]. by apply max_of_is_max.
    + split; [done|]. intros Hm. exfalso. apply Hnin, Hne.
      apply is_max_nonempty in Hm. intros Hnil. by rewrite Hnil in Hm.
Qed.

Lemma groupby_device_run (s : Store) (self : addr) d (T : RecordType) l
    (rs : list RecordObj) :
  dicts s !! self = Some d →
  PyDict.getitem T d = Some l →
  lists s !! l = Some rs →
  Forall (λ r, rtype r = T) rs →
  Forall (λ r, is_Some (device r)) rs →
  ∃ s',
    RecordAggregator.groupby self T Analyzer.gpu_device_id py_max s
    = (s', Returns (max_by_device rs))
    ∧ dicts s' !! self = Some d
    ∧ (∀ l' rs', lists s !! l' = Some rs' → lists s' !! l' = Some rs')
    ∧ trace s' = trace s.
Proof.
  intros Hd Ht Hl Hty Hdev. unfold max_by_device.
  apply (groupby_present _ _ _ _ s self d T l rs); try done.
  - eapply Forall_impl; [exact Hdev|]. intros r. apply gpu_device_id_device_key.
  - intros k Hk. apply py_max_max_of. intros Hnil. apply fmap_nil_inv in Hnil.
    apply elem_of_distinct_keys in Hk as (r & Hr & Hk).
    by eapply filter_nil_not_elem_of; [exact Hnil| |exact Hr].
Qed.

(** C5. On a bucket of records of its type that all have a device,
    [groupby(tag, gpu_device_id)] with the default reduction returns a
    mapping whose keys are the device ids of the records of the bucket, each
    once, and whose value at a device id is the greatest [value()] of the
    records of that device; the bucket is left as it was. *)
Theorem groupby_device_max (s : Store) (self : addr) (T : RecordType)
    (rs : list RecordObj) :
  bucket s self T = Some rs →
  Forall (λ r, rtype r = T ∧ is_Some (device r)) rs →
  ∃ s' result,
    RecordAggregator.groupby self T Analyzer.gpu_device_id py_max s
    = (s', Returns result)
    ∧ (∀ id, id ∈ PyDict.keys result
             ↔ ∃ r, r ∈ rs ∧ device r = Some (mkGPUDevice id))
    ∧ NoDup (PyDict.keys result)
    ∧ (∀ id m, PyDict.getitem id result = Some m
               ↔ is_max m (value <$> filter (λ r, device r = Some (mkGPUDevice id)) rs))
    ∧ bucket s' self T = Some rs.
Proof.
  unfold bucket. intros Hb Hall.
  destruct (dicts s !! self) as [d|] eqn:Hd; [|done]. cbn in Hb.
  destruct (PyDict.getitem T d) as [l|] eqn:Ht; [|done]. cbn in Hb.
  assert (Forall (λ r, rtype r = T) rs) as Hty
    by (eapply Forall_impl; [exact Hall|]; by intros r [? ?]).
  assert (Forall (λ r, is_Some (device r)) rs) as Hdev
    by (eapply Forall_impl; [exact Hall|]; by intros r [? ?]).
  destruct (groupby_device_run s self d T l rs Hd Ht Hb Hty Hdev)
    as (s' & Hrun & Hd' & Hl' & _).
  destruct (max_by_device_spec rs Hdev) as (Hkeys & Hnd & Hget).
  exists s', (max_by_device rs). split; [done|]. split; [done|].
  split; [done|]. split; [done|].
  rewrite Hd'. cbn. rewrite Ht. cbn. by apply Hl'.
Qed.

Lemma groupby_device_max_witness :
  let used id v := mkRecord GPUUsedMemory (Some (mkGPUDevice id)) v 0 in
  let rs := [used 0%nat 10%Z; used 0%nat 30%Z; used 0%nat 20%Z; used 1%nat 5%Z] in
  let s := mkStore [rs] [[(GPUUsedMemory, 0%nat)]] [] in
  (RecordAggregator.groupby 0%nat GPUUsedMemory Analyzer.gpu_device_id py_max s).2
    = Returns [(0%nat, 30%Z); (1%nat, 5%Z)]
  ∧ ∃ s' result,
      RecordAggregator.groupby 0%nat GPUUsedMemory Analyzer.gpu_device_id py_max s
      = (s', Returns result)
      ∧ (∀ id, id ∈ PyDict.keys result
               ↔ ∃ r, r ∈ rs ∧ device r = Some (mkGPUDevice id))
      ∧ NoDup (PyDict.keys result)
      ∧ (∀ id m, PyDict.getitem id result = Some m
                 ↔ is_max m (value <$> filter (λ r, device r = Some (mkGPUDevice id)) rs))
      ∧ bucket s' 0%nat GPUUsedMemory = Some rs.
Proof.
  intros used rs s. split; [reflexivity|].
  apply (groupby_device_max s 0%nat GPUUsedMemory rs); [reflexivity|].
  repeat constructor; by eexists.
Defined.

(** ** Filling an aggregator with records *)

Lemma insert_record_run (s : Store) (self : addr) (r : RecordObj) :
  typed s self →
  RecordAggregator.insert self (ARecord r) s
  = (exec (RecordAggregator.insert self (ARecord r)) s, Returns tt).
Proof.
  intros (d & Hd & Hty & _). unfold exec.
  destruct (PyDict.getitem (rtype r) d) as [l|] eqn:Ht.
  - destruct (Hty _ _ Ht) as (rs & Hl & _).
    by rewrite (insert_present _ _ _ _ _ _ Hd Ht Hl).
  - by rewrite (insert_absent _ _ _ _ Hd Ht).
Qed.

Lemma insert_record_trace (s : Store) (self : addr) (r : RecordObj) :
  typed s self →
  trace (exec (RecordAggregator.insert self (ARecord r)) s) = trace s.
Proof.
  intros (d & Hd & Hty & _). unfold exec.
  destruct (PyDict.getitem (rtype r) d) as [l|] eqn:Ht.
  - destruct (Hty _ _ Ht) as (rs & Hl & _).
    by rewrite (insert_present _ _ _ _ _ _ Hd Ht Hl).
  - by rewrite (insert_absent _ _ _ _ Hd Ht).
Qed.

Lemma insert_record_contents (s : Store) (self : addr) (r : RecordObj)
    (T : RecordType) :
  typed s self →
  contents (exec (RecordAggregator.insert self (ARecord r)) s) self T
  = contents s self T ++ (if decide (rtype r = T) then [r] else []).
Proof.
  intros (d & Hd & Hty & Hinj). unfold exec, contents, bucket.
  assert (self < length (dicts s))%nat by by eapply lookup_lt_Some.
  destruct (PyDict.getitem (rtype r) d) as [l|] eqn:Ht.
  - destruct (Hty _ _ Ht) as (rs & Hl & _).
    rewrite (insert_present _ _ _ _ _ _ Hd Ht Hl). simpl_store.
    rewrite Hd. cbn [mbind option_bind].
    destruct (decide (rtype r = T)) as [<-|Hne].
    + rewrite Ht. cbn [mbind option_bind].
      rewrite list_lookup_insert_eq by by eapply lookup_lt_Some.
      by rewrite Hl.
    + rewrite (right_id_L [] (++)).
      destruct (PyDict.getitem T d) as [l'|] eqn:Ht'; [|done].
      cbn [mbind option_bind]. rewrite list_lookup_insert_ne; [done|].
      intros <-. apply Hne. by eapply Hinj.
  - rewrite (insert_absent _ _ _ _ Hd Ht). simpl_store.
    rewrite Hd, list_lookup_insert_eq by done. cbn [mbind option_bind].
    rewrite getitem_setitem.
    destruct (decide (rtype r = T)) as [<-|Hne].
    + rewrite Ht. cbn [mbind option_bind].
      by rewrite lookup_app_r, Nat.sub_diag.
    + rewrite (right_id_L [] (++)).
      destruct (PyDict.getitem T d) as [l'|] eqn:Ht'; [|done].
      cbn [mbind option_bind]. destruct (Hty _ _ Ht') as (rs' & Hl' & _).
      rewrite lookup_app_l; [done|]. by eapply lookup_lt_Some.
Qed.

Lemma insert_records_run (self : addr) (rs : list RecordObj) :
  ∀ s, typed s self →
    for_each rs (λ record, RecordAggregator.insert self (ARecord record)) s
    = (insert_all self (ARecord <$> rs) s, Returns tt).
Proof.
  induction rs as [|r rs IH]; intros s Hs; [done|].
  cbn [for_each]. rewrite bind_unfold, insert_record_run by done.
  cbn [fmap list_fmap insert_all foldl]. apply IH. by apply insert_typed.
Qed.

Lemma insert_records_trace (self : addr) (rs : list RecordObj) :
  ∀ s, typed s self → trace (insert_all self (ARecord <$> rs) s) = trace s.
Proof.
  induction rs as [|r rs IH]; intros s Hs; [done|].
  cbn [fmap list_fmap insert_all foldl].
  etrans; [apply IH; by apply insert_typed|]. by apply insert_record_trace.
Qed.

Lemma insert_records_contents (self : addr) (T : RecordType) (rs : list RecordObj) :
  ∀ s, typed s self →
    contents (insert_all self (ARecord <$> rs) s) self T
    = contents s self T ++ filter (λ r, rtype r = T) rs.
Proof.
  induction rs as [|r rs IH]; intros s Hs.
  - by rewrite filter_nil, (right_id_L [] (++)).
  - cbn [fmap list_fmap insert_all foldl].
    etrans; [apply IH; by apply insert_typed|].
    rewrite insert_record_contents by done.
    rewrite <-(assoc_L (++)). f_equal.
    destruct (decide (rtype r = T)) as [HT|HT].
    + by rewrite filter_cons_True.
    + by rewrite filter_cons_False.
Qed.

(** ** groupby on an aggregator filled by insert *)

Lemma groupby_typed_run (s : Store) (self : addr) (T : RecordType) :
  typed s self →
  Forall (λ r, is_Some (device r)) (contents s self T) →
  ∃ s',
    RecordAggregator.groupby self T Analyzer.gpu_device_id py_max s
    = (s', Returns (max_by_device (contents s self T)))
    ∧ typed s' self
    ∧ (∀ T', contents s' self T' = contents s self T')
    ∧ trace s' = trace s.
Proof.
  intros (d & Hd & Hty & Hinj) Hdev.
  assert (self < length (dicts s))%nat by by eapply lookup_lt_Some.
  destruct (PyDict.getitem T d) as [l|] eqn:Ht.
  - destruct (Hty _ _ Ht) as (rs & Hl & Hrs).
    assert (contents s self T = rs) as Hc.
    { unfold contents, bucket. rewrite Hd. cbn. rewrite Ht. cbn. by rewrite Hl. }
    rewrite Hc in *.
    destruct (groupby_device_run s self d T l rs Hd Ht Hl Hrs Hdev)
      as (s' & Hrun & Hd' & Hl' & Htr).
    exists s'. split; [done|]. split; [|split; [|done]].
    + exists d. split; [done|]. split; [|done].
      intros t l0 Ht0. destruct (Hty _ _ Ht0) as (rs0 & Hl0 & Hrs0).
      exists rs0. split; [by apply Hl'|done].
    + intros T'. unfold contents, bucket. rewrite Hd, Hd'. cbn.
      destruct (PyDict.getitem T' d) as [l0|] eqn:Ht0; [|done]. cbn.
      destruct (Hty _ _ Ht0) as (rs0 & Hl0 & _). by rewrite Hl0, (Hl' _ _ Hl0).
  - assert (contents s self T = []) as Hc.
    { unfold contents, bucket. rewrite Hd. cbn. by rewrite Ht. }
    rewrite Hc. rewrite (groupby_absent _ _ s self d T Hd Ht).
    eexists. split; [done|].
    assert (∀ t l, PyDict.getitem t d = Some l → l < length (lists s))%nat as Hlt.
    { intros t l Htl. destruct (Hty _ _ Htl) as (rs & Hl & _).
      by eapply lookup_lt_Some. }
    split; [|split; [|done]].
    + exists (PyDict.setitem T (length (lists s)) d). simpl_store.
      split; [by rewrite lookup_app_l, list_lookup_insert_eq
                by (by rewrite ?length_insert)|].
      split.
      * intros t l. rewrite getitem_setitem.
        destruct (decide (T = t)) as [<-|Hne].
        -- intros [= <-]. exists []. split; [|done].
           by rewrite lookup_app_r, Nat.sub_diag.
        -- intros Htl. destruct (Hty _ _ Htl) as (rs & Hl & Hrs).
           exists rs. split; [|done]. rewrite lookup_app_l; [done|].
           by eapply lookup_lt_Some.
      * intros t1 t2 l0. rewrite !getitem_setitem.
        destruct (decide (T = t1)) as [<-|Hne1],
                 (decide (T = t2)) as [<-|Hne2]; try done.
        -- intros [= <-] Ht2. apply Hlt in Ht2. lia.
        -- intros Ht1 [= <-]. apply Hlt in Ht1. lia.
        -- apply Hinj.
    + intros T'. unfold contents, bucket. simpl_store.
      rewrite lookup_app_l, list_lookup_insert_eq by (by rewrite ?length_insert).
      rewrite Hd. cbn [mbind option_bind]. rewrite getitem_setitem.
      destruct (decide (T = T')) as [<-|Hne].
      * rewrite Ht. cbn [mbind option_bind].
        by rewrite lookup_app_r, Nat.sub_diag.
      * destruct (PyDict.getitem T' d) as [l0|] eqn:Ht0; [|done].
        cbn [mbind option_bind]. destruct (Hty _ _ Ht0) as (rs0 & Hl0 & _).
        rewrite lookup_app_l; [done|]. by eapply lookup_lt_Some.
Qed.

(** ** Analyzer._profile without a workload *)

Lemma foldl_setitem_ext {K V} `{EqDecision K} (f g : K → V) (ks : list K) :
  (∀ k, f k = g k) →
  ∀ acc : list (K * V),
    foldl (λ acc k, PyDict.setitem k (f k) acc) acc ks
    = foldl (λ acc k, PyDict.setitem k (g k) acc) acc ks.
Proof.
  intros Hfg. induction ks as [|k ks IH]; intros acc; [done|].
  cbn [foldl]. by rewrite Hfg, IH.
Qed.

Lemma groupby_tags_loop (self : addr) (tags : list RecordType) :
  ∀ (s : Store) (acc : list (RecordType * list (nat * Z))),
    typed s self →
    (∀ tag, tag ∈ tags → Forall (λ r, is_Some (device r)) (contents s self tag)) →
    ∃ s',
      for_fold tags acc (λ records_groupby_gpu tag,
        grouped ← RecordAggregator.groupby self tag Analyzer.gpu_device_id py_max;
        mret (PyDict.setitem tag grouped records_groupby_gpu)) s
      = (s', Returns (foldl (λ acc tag,
                        PyDict.setitem tag (max_by_device (contents s self tag)) acc)
                      acc tags))
      ∧ trace s' = trace s.
Proof.
  induction tags as [|tag tags IH]; intros s acc Hs Hdev.
  - by exists s.
  - destruct (groupby_typed_run s self tag Hs) as (s1 & Hrun & Hs1 & Hc1 & Htr1).
    { apply Hdev, list_elem_of_here. }
    destruct (IH s1 (PyDict.setitem tag (max_by_device (contents s self tag)) acc) Hs1)
      as (s' & Hrun' & Htr').
    { intros tag' Htag'. rewrite Hc1. by apply Hdev, list_elem_of_further. }
    exists s'. split; [|by rewrite Htr'].
    cbn [for_fold foldl]. rewrite bind_unfold, bind_unfold, Hrun.
    cbv beta iota. rewrite ret_unfold, Hrun'. do 2 f_equal.
    apply foldl_setitem_ext. intros tag'. by rewrite Hc1.
Qed.




(** ** filter_records copies the requested buckets *)

Lemma filter_types_loop_present (self : addr) d (D : list (list (RecordType * addr)))
    L tr (record_types : list RecordType) :
  D !! self = Some d →
  (∀ t, t ∈ record_types → is_Some (PyDict.getitem t d)) →
  ∀ df,
    for_each record_types (λ record_type,
      records ← defaultdict_getitem self record_type;
      RecordAggregator.add_key (length D) record_type records)
      (mkStore L (D ++ [df]) tr)
    = (mkStore L
         (D ++ [foldl (λ df t, PyDict.setitem t (default 0%nat (PyDict.getitem t d)) df)
                  df record_types]) tr,
       Returns tt).
Proof.
  intros Hd. induction record_types as [|t ts IH]; intros Hall df; [done|].
  destruct (Hall t) as [l Hl]; [apply list_elem_of_here|].
  cbn [for_each foldl]. rewrite bind_unfold, bind_unfold.
  rewrite (defaultdict_getitem_present _ _ d t l); [|cbn|done].
  2:{ rewrite lookup_app_l; [done|]. by eapply lookup_lt_Some. }
  cbv beta iota. unfold RecordAggregator.add_key.
  rewrite (defaultdict_setitem_run _ _ df); [|cbn].
  2:{ by rewrite lookup_app_r, Nat.sub_diag. }
  cbn [lists dicts trace]. rewrite insert_app_r_alt, Nat.sub_diag by done.
  cbn [insert list_insert]. rewrite Hl. cbn [default from_option id].
  rewrite IH; [done|]. intros t' Ht'. by apply Hall, list_elem_of_further.
Qed.

(** With record types only, all of them known to the source, the call
    returns a new aggregator that holds exactly the requested types, each
    bound to the very list object the source has for it; nothing else of
    the store changes. *)
Lemma filter_records_types_only_copies (s : Store) (self : addr) d
    (record_types : list RecordType) :
  dicts s !! self = Some d →
  record_types ≠ [] →
  (∀ t, t ∈ record_types → is_Some (PyDict.getitem t d)) →
  ∃ df,
    RecordAggregator.filter_records self (Some record_types) None s
    = (mkStore (lists s) (dicts s ++ [df]) (trace s), Returns (length (dicts s)))
    ∧ ∀ t, PyDict.getitem t df
           = if decide (t ∈ record_types) then PyDict.getitem t d else None.
Proof.
  intros Hd Hne Hall. eexists. split.
  - unfold RecordAggregator.filter_records.
    rewrite (bind_returns _ _ _ _ _ (new_run s)).
    destruct record_types as [|t0 ts]; [done|].
    cbn [truthy negb andb default from_option id]. unfold try_except.
    rewrite bind_unfold.
    by rewrite (filter_types_loop_present self d (dicts s) _ _ (t0 :: ts) Hd Hall).
  - intros t. rewrite getitem_foldl_setitem.
    destruct (decide (t ∈ record_types)) as [Hin|Hnin]; [|done].
    by destruct (Hall t Hin) as [l ->].
Qed.

(** ** filter_records leaves the buckets of the source alone *)

Lemma preserves_ret {A} (I : Store → Prop) (a : A) : preserves I (mret a).
Proof. by intros s Hs. Qed.

Lemma preserves_raise {A} (I : Store → Prop) (e : exn) : preserves I (raise e : M A).
Proof. by intros s Hs. Qed.

Lemma preserves_lift {A} (I : Store → Prop) (o : outcome A) : preserves I (lift o).
Proof. by intros s Hs. Qed.

Lemma preserves_bind {A B} (I : Store → Prop) (m : M A) (f : A → M B) :
  preserves I m → (∀ a, preserves I (f a)) → preserves I (m ≫= f).
Proof.
  intros Hm Hf s Hs. rewrite bind_unfold. specialize (Hm s Hs).
  destruct (m s) as [s' [a|e]]; [|done]. by apply Hf.
Qed.

Lemma preserves_for_each {A} (I : Store → Prop) (xs : list A) (body : A → M unit) :
  (∀ x, preserves I (body x)) → preserves I (for_each xs body).
Proof.
  intros Hbody. induction xs as [|x xs IH]; [apply preserves_ret|].
  cbn [for_each]. apply preserves_bind; [apply Hbody|]. by intros _.
Qed.

Lemma preserves_try_except {A} (I : Store → Prop) (body : M A)
    (handler : exn → option (M A)) :
  preserves I body → (∀ e h, handler e = Some h → preserves I h) →
  preserves I (try_except body handler).
Proof.
  intros Hbody Hh s Hs. unfold try_except. specialize (Hbody s Hs).
  destruct (body s) as [s' [a|e]]; [done|].
  destruct (handler e) as [h|] eqn:He; [|done]. by eapply Hh.
Qed.

Lemma preserves_read_list (I : Store → Prop) (l : addr) : preserves I (read_list l).
Proof. intros s Hs. unfold read_list. by destruct (lists s !! l). Qed.

Lemma preserves_read_dict (I : Store → Prop) (a : addr) : preserves I (read_dict a).
Proof. intros s Hs. unfold read_dict. by destruct (dicts s !! a). Qed.

Section filter_frame.
Context (s0 : Store) (self filtered : addr).

Lemma filter_inv_getitem (b : bool) (t : RecordType) :
  preserves (filter_inv b s0 self filtered) (defaultdict_getitem self t).
Proof.
  intros s (ds & df & Hds & Hdf & Hne & Hvs & Hfr & Hins).
  assert (self < length (dicts s))%nat by by eapply lookup_lt_Some.
  destruct (PyDict.getitem t ds) as [l|] eqn:Ht.
  - rewrite (defaultdict_getitem_present _ _ _ _ _ Hds Ht). by exists ds, df.
  - rewrite (defaultdict_getitem_absent _ _ _ _ Hds Ht). simpl_store.
    exists (PyDict.setitem t (length (lists s)) ds), df. simpl_store.
    split; [by apply list_lookup_insert_eq|].
    split; [by rewrite list_lookup_insert_ne|]. split; [done|].
    rewrite length_app. cbn [length]. split; [|split].
    + intros t' l'. rewrite getitem_setitem.
      destruct (decide (t = t')) as [_|_]; [intros [= <-]; lia|].
      intros Hl'. apply Hvs in Hl'. lia.
    + intros t' rs Hb. apply Hfr in Hb. revert Hb. unfold bucket. simpl_store.
      rewrite Hds, list_lookup_insert_eq by done. cbn [mbind option_bind].
      rewrite getitem_setitem. destruct (decide (t = t')) as [<-|_].
      * by rewrite Ht.
      * destruct (PyDict.getitem t' ds) as [l'|] eqn:Hl'; [|done].
        cbn [mbind option_bind]. intros Hrs. rewrite lookup_app_l; [done|].
        by eapply lookup_lt_Some.
    + intros Hb. destruct (Hins Hb) as [Hvf Hdisj]. split.
      * intros t' l' Hl'. apply Hvf in Hl'. lia.
      * intros t1 l1 t2 l2. rewrite getitem_setitem.
        destruct (decide (t = t1)) as [_|_].
        -- intros [= <-] Hl2. apply Hvf in Hl2. lia.
        -- apply Hdisj.
Qed.

Lemma filter_inv_add_key (t : RecordType) (l : addr) :
  preserves (filter_inv false s0 self filtered)
    (RecordAggregator.add_key filtered t l).
Proof.
  intros s (ds & df & Hds & Hdf & Hne & Hvs & Hfr & _).
  unfold RecordAggregator.add_key.
  rewrite (defaultdict_setitem_run _ _ _ _ _ Hdf). simpl_store.
  assert (filtered < length (dicts s))%nat by by eapply lookup_lt_Some.
  exists ds, (PyDict.setitem t l df). simpl_store.
  split; [by rewrite list_lookup_insert_ne|].
  split; [by apply list_lookup_insert_eq|]. split; [done|]. split; [done|].
  split; [|done].
  intros t' rs Hb. apply Hfr in Hb. revert Hb. unfold bucket. simpl_store.
  by rewrite list_lookup_insert_ne.
Qed.

Lemma filter_inv_insert (r : RecordObj) :
  preserves (filter_inv true s0 self filtered)
    (RecordAggregator.insert filtered (ARecord r)).
Proof.
  intros s (ds & df & Hds & Hdf & Hne & Hvs & Hfr & Hins).
  destruct (Hins eq_refl) as [Hvf Hdisj].
  assert (filtered < length (dicts s))%nat by by eapply lookup_lt_Some.
  destruct (PyDict.getitem (rtype r) df) as [l|] eqn:Ht.
  - destruct (lookup_lt_is_Some_2 (lists s) l) as [rs Hl]; [by eapply Hvf|].
    rewrite (insert_present _ _ _ _ _ _ Hdf Ht Hl). simpl_store.
    exists ds, df. simpl_store. rewrite length_insert.
    split; [done|]. split; [done|]. split; [done|]. split; [done|].
    split; [|done].
    intros t' rs' Hb. apply Hfr in Hb. revert Hb. unfold bucket. simpl_store.
    rewrite Hds. cbn [mbind option_bind].
    destruct (PyDict.getitem t' ds) as [l'|] eqn:Hl'; [|done].
    cbn [mbind option_bind]. rewrite list_lookup_insert_ne; [done|].
    intros <-. by eapply Hdisj.
  - rewrite (insert_absent _ _ _ _ Hdf Ht). simpl_store.
    exists ds, (PyDict.setitem (rtype r) (length (lists s)) df). simpl_store.
    rewrite length_app. cbn [length].
    split; [by rewrite list_lookup_insert_ne|].
    split; [by apply list_lookup_insert_eq|]. split; [done|]. split; [|split].
    + intros t' l' Hl'. apply Hvs in Hl'. lia.
    + intros t' rs' Hb. apply Hfr in Hb. revert Hb. unfold bucket. simpl_store.
      rewrite list_lookup_insert_ne by done. rewrite Hds. cbn [mbind option_bind].
      destruct (PyDict.getitem t' ds) as [l'|] eqn:Hl'; [|done].
      cbn [mbind option_bind]. intros Hrs. rewrite lookup_app_l; [done|].
      by eapply lookup_lt_Some.
    + intros _. split.
      * intros t' l'. rewrite getitem_setitem.
        destruct (decide (rtype r = t')) as [_|_]; [intros [= <-]; lia|].
        intros Hl'. apply Hvf in Hl'. lia.
      * intros t1 l1 t2 l2 Hl1. rewrite getitem_setitem.
        destruct (decide (rtype r = t2)) as [_|_].
        -- intros [= <-]. apply Hvs in Hl1. lia.
        -- intros Hl2. by eapply Hdisj.
Qed.

End filter_frame.

(** Whatever the arguments are and whether the call returns or raises,
    every bucket the source has before [filter_records] is its bucket
    after it, with the same records. *)
Lemma filter_records_keeps_buckets (s : Store) (self : addr)
    (record_types : option (list RecordType))
    (filters : option (list (RecordObj → outcome bool))) :
  well_formed s self →
  ∀ t rs, bucket s self t = Some rs →
    bucket (exec (RecordAggregator.filter_records self record_types filters) s) self t
    = Some rs.
Proof.
  intros (d & Hd & Hwf).
  assert (self < length (dicts s))%nat as Hlt by by eapply lookup_lt_Some.
  set (s1 := mkStore (lists s) (dicts s ++ [[]]) (trace s)).
  assert (∀ b, filter_inv b s self (length (dicts s)) s1) as Hinv.
  { intros b. exists d, []. unfold s1. simpl_store.
    split; [by rewrite lookup_app_l|].
    split; [by rewrite lookup_app_r, Nat.sub_diag|].
    split; [lia|]. split; [done|]. split; [|done].
    intros t rs. unfold bucket. simpl_store. by rewrite lookup_app_l. }
  assert (∀ b (k : M addr), preserves (filter_inv b s self (length (dicts s))) k →
            ∀ t rs, bucket s self t = Some rs → bucket (k s1).1 self t = Some rs)
    as Huse.
  { intros b k Hk t rs Hb.
    destruct (Hk s1 (Hinv b)) as (ds & df & _ & _ & _ & _ & Hfr & _). by apply Hfr. }
  unfold exec, RecordAggregator.filter_records.
  rewrite (bind_returns _ _ _ _ _ (new_run s)). fold s1.
  destruct (negb (truthy record_types) && negb (truthy filters)).
  { apply (Huse false).
    apply preserves_bind; [apply preserves_read_dict|]. intros items.
    apply preserves_bind; [|intros ?; apply preserves_ret].
    apply preserves_for_each. intros [t l]. apply filter_inv_add_key. }
  destruct (truthy record_types && negb (truthy filters)).
  { apply (Huse false). apply preserves_try_except.
    - apply preserves_bind; [|intros ?; apply preserves_ret].
      apply preserves_for_each. intros t.
      apply preserves_bind; [apply filter_inv_getitem|].
      intros l. apply filter_inv_add_key.
    - intros e h. destruct e; try done. intros [= <-]. apply preserves_raise. }
  destruct (truthy filters && negb (truthy record_types)).
  { apply (Huse false), preserves_raise. }
  destruct (negb (bool_decide (length (default [] record_types)
                               = length (default [] filters)))).
  { apply (Huse false), preserves_raise. }
  apply (Huse true). apply preserves_bind; [|intros ?; apply preserves_ret].
  apply preserves_for_each. intros [h f].
  apply preserves_bind; [apply filter_inv_getitem|]. intros l.
  apply preserves_bind; [apply preserves_read_list|]. intros records.
  apply preserves_for_each. intros record.
  apply preserves_bind; [apply preserves_lift|]. intros [|].
  - apply filter_inv_insert.
  - apply preserves_ret.
Qed.

(** * Further properties *)

(** ** An aggregator filled by insert *)

Lemma setitem_absent {K V} `{EqDecision K} (k : K) (v : V) (d : list (K * V)) :
  PyDict.getitem k d = None → PyDict.setitem k v d = d ++ [(k, v)].
Proof.
  induction d as [|[k' v'] d IH]; cbn; [done|].
  destruct (decide (k = k')) as [->|Hne]; [done|].
  intros Hn. by rewrite IH.
Qed.

Lemma insert_all_records (self : addr) (objs : list PyObject) :
  ∀ s, insert_all self objs s = insert_all self (ARecord <$> records_of objs) s.
Proof.
  induction objs as [|[r|] objs IH]; intros s; [done| |].
  - cbn [records_of omap list_omap fmap list_fmap insert_all foldl]. apply IH.
  - cbn [records_of omap list_omap insert_all foldl]. apply IH.
Qed.

Lemma insert_record_known_types (s : Store) (self : addr) (r : RecordObj) ks :
  typed s self → known_types s self = Some ks →
  known_types (exec (RecordAggregator.insert self (ARecord r)) s) self
  = Some (set_add (rtype r) ks).
Proof.
  intros (d & Hd & Hty & _). unfold known_types, exec. rewrite Hd.
  intros [= <-]. unfold set_add.
  assert (self < length (dicts s))%nat by by eapply lookup_lt_Some.
  destruct (PyDict.getitem (rtype r) d) as [l|] eqn:Ht.
  - destruct (Hty _ _ Ht) as (rs & Hl & _).
    rewrite (insert_present _ _ _ _ _ _ Hd Ht Hl). simpl_store. rewrite Hd.
    rewrite decide_True; [done|]. apply getitem_is_Some. by eexists.
  - rewrite (insert_absent _ _ _ _ Hd Ht). simpl_store.
    rewrite list_lookup_insert_eq by done. cbn [fmap option_fmap option_map].
    rewrite keys_setitem_absent by done.
    rewrite decide_False; [done|]. by apply getitem_None.
Qed.

Lemma insert_records_known_types (self : addr) (rs : list RecordObj) :
  ∀ s ks, typed s self → known_types s self = Some ks →
    known_types (insert_all self (ARecord <$> rs) s) self
    = Some (foldl (λ fv r, set_add (rtype r) fv) ks rs).
Proof.
  induction rs as [|r rs IH]; intros s ks Hs Hks; [done|].
  cbn [fmap list_fmap insert_all foldl].
  apply IH; [by apply insert_typed|]. by apply insert_record_known_types.
Qed.

Lemma filled_typed (s0 : Store) (objs : list PyObject) :
  typed (filled s0 objs).2 (filled s0 objs).1.
Proof. unfold filled. cbn [fst snd]. apply insert_all_typed, new_typed. Qed.

Lemma filled_contents (s0 : Store) (objs : list PyObject) (T : RecordType) :
  contents (filled s0 objs).2 (filled s0 objs).1 T
  = filter (λ r, rtype r = T) (records_of objs).
Proof.
  unfold filled. cbn [fst snd]. rewrite insert_all_records.
  rewrite insert_records_contents by apply new_typed.
  unfold contents, bucket, exec. rewrite new_run. simpl_store.
  by rewrite lookup_app_r, Nat.sub_diag.
Qed.

Lemma filled_known_types (s0 : Store) (objs : list PyObject) :
  known_types (filled s0 objs).2 (filled s0 objs).1
  = Some (distinct_keys rtype (records_of objs)).
Proof.
  unfold filled. cbn [fst snd]. rewrite insert_all_records.
  unfold distinct_keys. apply insert_records_known_types; [apply new_typed|].
  unfold known_types, exec. rewrite new_run. simpl_store.
  by rewrite lookup_app_r, Nat.sub_diag.
Qed.

(** X1. On a new aggregator, after any sequence of [insert] calls,
    [record_types()] lists the types of the inserted records, each once, in
    the order in which they were first inserted; objects that are not
    records leave no trace. *)
Theorem record_types_first_insertion_order (s0 : Store) (objs : list PyObject) :
  let '(self, s) := filled s0 objs in
  RecordAggregator.record_types self s
  = (s, Returns (distinct_keys rtype (records_of objs)))
  ∧ NoDup (distinct_keys rtype (records_of objs))
  ∧ ∀ T, T ∈ distinct_keys rtype (records_of objs)
         ↔ ∃ r, ARecord r ∈ objs ∧ rtype r = T.
Proof.
  pose proof (filled_known_types s0 objs) as Hk.
  destruct (filled s0 objs) as [self s] eqn:Hf. cbn [fst snd] in Hk.
  split; [|split].
  - unfold known_types in Hk. unfold RecordAggregator.record_types.
    destruct (dicts s !! self) as [d|] eqn:Hd; [|done].
    injection Hk as Hk.
    by rewrite (bind_returns _ _ _ _ _ (read_dict_run _ _ _ Hd)), ret_unfold, Hk.
  - apply NoDup_distinct_keys.
  - intros T. rewrite elem_of_distinct_keys. unfold records_of.
    split; intros (r & Hr & HT); exists r; (split; [|done]).
    + apply list_elem_of_omap in Hr as ([r'|] & Hin & Heq); [|done].
      by injection Heq as ->.
    + apply list_elem_of_omap. by exists (ARecord r).
Qed.

(** X2. On a new aggregator, after any sequence of [insert] calls, the
    bucket of a type holds the inserted records of that type, in the order of
    insertion, duplicates included. *)
Theorem buckets_keep_insertion_order (s0 : Store) (objs : list PyObject)
    (T : RecordType) :
  let '(self, s) := filled s0 objs in
  bucket s self T
  = if decide (T ∈ rtype <$> records_of objs)
    then Some (filter (λ r, rtype r = T) (records_of objs))
    else None.
Proof.
  pose proof (filled_known_types s0 objs) as Hk.
  pose proof (filled_contents s0 objs T) as Hc.
  pose proof (filled_typed s0 objs) as (d & Hd & Hty & _).
  destruct (filled s0 objs) as [self s] eqn:Hf. cbn [fst snd] in *.
  unfold known_types in Hk. rewrite Hd in Hk. injection Hk as Hk.
  unfold contents, bucket in *. rewrite Hd in *. cbn [mbind option_bind] in *.
  assert (T ∈ rtype <$> records_of objs ↔ T ∈ PyDict.keys d) as Hiff.
  { rewrite Hk, elem_of_distinct_keys, list_elem_of_fmap.
    split; [intros (r & -> & Hr)|intros (r & Hr & <-)]; by exists r. }
  destruct (PyDict.getitem T d) as [l|] eqn:Ht.
  - rewrite decide_True by (apply Hiff, getitem_is_Some; by eexists).
    cbn [mbind option_bind] in *. destruct (Hty _ _ Ht) as (rs & Hl & _).
    rewrite Hl in *. cbn in Hc. by rewrite Hc.
  - rewrite decide_False; [done|]. rewrite Hiff. by apply getitem_None.
Qed.

(** ** Counting *)

Lemma sum_list_with_plus {A} (f g : A → nat) (l : list A) :
  sum_list_with (λ x, f x + g x)%nat l
  = (sum_list_with f l + sum_list_with g l)%nat.
Proof. induction l as [|x l IH]; cbn; [done|]. rewrite IH. lia. Qed.

Lemma sum_list_with_agree {A} (f g : A → nat) (l : list A) :
  (∀ x, x ∈ l → f x = g x) → sum_list_with f l = sum_list_with g l.
Proof.
  induction l as [|x l IH]; intros Hfg; cbn; [done|].
  rewrite Hfg by apply list_elem_of_here.
  rewrite IH; [done|]. intros y Hy. by apply Hfg, list_elem_of_further.
Qed.

Lemma sum_list_with_indicator {K} `{EqDecision K} (k0 : K) (ks : list K) :
  NoDup ks →
  sum_list_with (λ k, if decide (k0 = k) then 1 else 0)%nat ks
  = if decide (k0 ∈ ks) then 1%nat else 0%nat.
Proof.
  induction 1 as [|k ks Hk Hnd IH]; cbn [sum_list_with].
  - rewrite decide_False; [done|apply not_elem_of_nil].
  - rewrite IH. destruct (decide (k0 = k)) as [->|Hne].
    + rewrite decide_False by done.
      rewrite decide_True; [done|apply list_elem_of_here].
    + destruct (decide (k0 ∈ ks)) as [Hin|Hnin].
      * rewrite decide_True; [done|by apply list_elem_of_further].
      * rewrite decide_False; [done|]. rewrite not_elem_of_cons. done.
Qed.

(** Every record is in the group of exactly one key. *)
Lemma groups_partition {K} `{EqDecision K} (key : RecordObj → K)
    (rs : list RecordObj) :
  sum_list_with (λ k, length (filter (λ r, key r = k) rs)) (distinct_keys key rs)
  = length rs.
Proof.
  induction rs as [|r rs IH] using rev_ind; [done|].
  assert (distinct_keys key (rs ++ [r]) = set_add (key r) (distinct_keys key rs))
    as Hks by (unfold distinct_keys; by rewrite foldl_app).
  assert (∀ ks, sum_list_with (λ k, length (filter (λ r0, key r0 = k) (rs ++ [r]))) ks
                = (sum_list_with (λ k, length (filter (λ r0, key r0 = k) rs)) ks
                   + sum_list_with (λ k, if decide (key r = k) then 1 else 0) ks)%nat)
    as Hsplit.
  { intros ks. rewrite <-sum_list_with_plus. apply sum_list_with_agree.
    intros k _. rewrite filter_app, length_app. f_equal.
    destruct (decide (key r = k)) as [Hk|Hk].
    - by rewrite filter_cons_True.
    - by rewrite filter_cons_False. }
  rewrite Hks, length_app. cbn [length]. unfold set_add.
  pose proof (NoDup_distinct_keys key rs) as Hnd.
  destruct (decide (key r ∈ distinct_keys key rs)) as [Hin|Hnin].
  - rewrite Hsplit, IH, sum_list_with_indicator by done.
    by rewrite decide_True.
  - rewrite sum_list_with_app, Hsplit, IH, sum_list_with_indicator by done.
    rewrite decide_False by done. cbn [sum_list_with].
    rewrite filter_app, filter_cons_True, length_app by done.
    assert (filter (λ r0, key r0 = key r) rs = []) as ->; [|cbn; lia].
    destruct (filter (λ r0, key r0 = key r) rs) as [|r0 grp] eqn:Hgrp; [done|].
    exfalso. apply Hnin, elem_of_distinct_keys. exists r0.
    assert (r0 ∈ filter (λ r0, key r0 = key r) rs) as Hr0
      by (rewrite Hgrp; apply list_elem_of_here).
    apply list_elem_of_filter in Hr0 as [? ?]. done.
Qed.

Lemma total_loop_sum (s : Store) (self : addr) (ks : list RecordType) :
  typed s self →
  (∀ k, k ∈ ks → is_Some (bucket s self k)) →
  ∀ acc,
    for_fold ks acc (λ sum k,
      bucket ← defaultdict_getitem self k;
      records ← read_list bucket;
      mret (sum + length records)%nat) s
    = (s, Returns (acc + sum_list_with (λ k, length (contents s self k)) ks)%nat).
Proof.
  intros (d & Hd & Hty & _). induction ks as [|k ks IH]; intros Hall acc.
  - cbn. by rewrite Nat.add_0_r.
  - destruct (Hall k) as [rs Hrs]; [apply list_elem_of_here|].
    assert (contents s self k = rs) as Hc by (unfold contents; by rewrite Hrs).
    unfold bucket in Hrs. rewrite Hd in Hrs. cbn in Hrs.
    destruct (PyDict.getitem k d) as [l|] eqn:Hl; [|done]. cbn in Hrs.
    cbn [for_fold sum_list_with]. rewrite bind_unfold, bind_unfold.
    rewrite (defaultdict_getitem_present _ _ _ _ _ Hd Hl).
    rewrite (bind_returns _ _ _ _ _ (read_list_run _ _ _ Hrs)), ret_unfold.
    rewrite IH by (intros k' Hk'; by apply Hall, list_elem_of_further).
    rewrite Hc. do 2 f_equal. lia.
Qed.

(** X3. On a new aggregator, after any sequence of [insert] calls,
    [total()] is the number of records inserted; [total(tag)] is the number
    of inserted records of that type when there is one.  When there is none
    it fails and leaves the aggregator as it is: the statement that is to
    raise "Record type ... not found" names [TritonModelAnalyzerException],
    which the module does not import, so the failure is a [NameError]. *)
Theorem total_counts_inserted_records (s0 : Store) (objs : list PyObject) :
  let '(self, s) := filled s0 objs in
  RecordAggregator.total self None s = (s, Returns (length (records_of objs)))
  ∧ ∀ T, RecordAggregator.total self (Some T) s
         = if decide (T ∈ rtype <$> records_of objs)
           then (s, Returns (length (filter (λ r, rtype r = T) (records_of objs))))
           else (s, Raises (NameError "TritonModelAnalyzerException")).
Proof.
  pose proof (filled_known_types s0 objs) as Hk.
  pose proof (filled_contents s0 objs) as Hc.
  pose proof (filled_typed s0 objs) as Hty.
  destruct (filled s0 objs) as [self s] eqn:Hf. cbn [fst snd] in *.
  pose proof Hty as (d & Hd & Hb & _).
  unfold known_types in Hk. rewrite Hd in Hk. injection Hk as Hk.
  assert (∀ T, T ∈ rtype <$> records_of objs ↔ T ∈ PyDict.keys d) as Hiff.
  { intros T. rewrite Hk, elem_of_distinct_keys, list_elem_of_fmap.
    split; [intros (r & -> & Hr)|intros (r & Hr & <-)]; by exists r. }
  split.
  - unfold RecordAggregator.total.
    rewrite (bind_returns _ _ _ _ _ (read_dict_run _ _ _ Hd)).
    rewrite (total_loop_sum s self (PyDict.keys d) Hty).
    2:{ intros k Hk'. apply getitem_is_Some in Hk' as [l Hl].
        destruct (Hb _ _ Hl) as (rs & Hrs & _). unfold bucket.
        rewrite Hd. cbn. rewrite Hl. cbn. by eexists. }
    rewrite Hk. do 2 f_equal. cbn [Nat.add].
    rewrite <-(groups_partition rtype (records_of objs)).
    apply sum_list_with_agree. intros k _. by rewrite Hc.
  - intros T. destruct (decide (T ∈ rtype <$> records_of objs)) as [Hin|Hnin].
    + apply Hiff, getitem_is_Some in Hin as [l Hl].
      destruct (Hb _ _ Hl) as (rs & Hrs & _).
      rewrite (total_of_type _ _ _ _ _ _ Hd Hl Hrs). do 3 f_equal.
      rewrite <-Hc. unfold contents, bucket. rewrite Hd. cbn. rewrite Hl. cbn.
      by rewrite Hrs.
    + assert (PyDict.getitem T d = None) as Hn.
      { apply getitem_None. intros Hin. by apply Hnin, Hiff. }
      unfold RecordAggregator.total.
      rewrite (bind_returns _ _ _ _ _ (defaultdict_contains_run _ _ _ _ Hd)).
      unfold PyDict.contains. by rewrite Hn.
Qed.

(** ** filter_records: copies and views *)

Lemma copy_loop (D : list (list (RecordType * addr))) L tr
    (items : list (RecordType * addr)) :
  ∀ df, NoDup (PyDict.keys (df ++ items)) →
    for_each items (λ '(record_type, records),
      RecordAggregator.add_key (length D) record_type records)
      (mkStore L (D ++ [df]) tr)
    = (mkStore L (D ++ [df ++ items]) tr, Returns tt).
Proof.
  induction items as [|[t l] items IH]; intros df Hnd.
  - by rewrite (right_id_L [] (++)).
  - cbn [for_each]. rewrite bind_unfold. unfold RecordAggregator.add_key.
    rewrite (defaultdict_setitem_run _ _ df); [|cbn].
    2:{ by rewrite lookup_app_r, Nat.sub_diag. }
    cbn [lists dicts trace]. rewrite insert_app_r_alt, Nat.sub_diag by done.
    cbn [insert list_insert].
    rewrite setitem_absent.
    2:{ apply getitem_None. unfold PyDict.keys in *. rewrite fmap_app in Hnd.
        apply NoDup_app in Hnd as (_ & Hdisj & _). intros Hin.
        apply (Hdisj t Hin). cbn. apply list_elem_of_here. }
    rewrite IH; [by rewrite <-(assoc_L (++))|]. by rewrite <-(assoc_L (++)).
Qed.

(** X4. Without record types and without criteria (each omitted or empty),
    [filter_records] returns a new aggregator whose dictionary is that of the
    source: the same types in the same order, each bound to the very list
    object the source has for it.  Nothing else in the store changes. *)
Theorem filter_records_no_arguments (s : Store) (self : addr) d
    (record_types : option (list RecordType))
    (filters : option (list (RecordObj → outcome bool))) :
  dicts s !! self = Some d →
  NoDup (PyDict.keys d) →
  truthy record_types = false →
  truthy filters = false →
  RecordAggregator.filter_records self record_types filters s
  = (mkStore (lists s) (dicts s ++ [d]) (trace s), Returns (length (dicts s))).
Proof.
  intros Hd Hnd Hrt Hf.
  assert (self < length (dicts s))%nat by by eapply lookup_lt_Some.
  unfold RecordAggregator.filter_records.
  rewrite (bind_returns _ _ _ _ _ (new_run s)), Hrt, Hf. cbn [negb andb].
  rewrite bind_unfold, (read_dict_run _ _ d); [|cbn; by rewrite lookup_app_l].
  cbv beta iota. rewrite bind_unfold.
  by rewrite (copy_loop (dicts s) _ _ d []).
Qed.

Lemma filter_records_no_arguments_witness :
  let r := mkRecord PerfLatency None 7 0 in
  let s := mkStore [[r]] [[(PerfLatency, 0%nat)]] [] in
  RecordAggregator.filter_records 0%nat None (Some []) s
  = (mkStore [[r]] [[(PerfLatency, 0%nat)]; [(PerfLatency, 0%nat)]] [],
     Returns 1%nat).
Proof.
  intros r s.
  apply (filter_records_no_arguments s 0%nat [(PerfLatency, 0%nat)] None (Some []));
    try reflexivity.
  apply NoDup_singleton.
Defined.

(** X5. A filtered aggregator built from record types only shares its
    buckets with the source: a record inserted afterwards into the filtered
    aggregator is appended to the bucket of the source as well. *)
Theorem filtered_copy_shares_buckets (s : Store) (self : addr) (r : RecordObj)
    (rs : list RecordObj) :
  bucket s self (rtype r) = Some rs →
  ∃ s' filtered,
    (filtered ← RecordAggregator.filter_records self (Some [rtype r]) None;
     RecordAggregator.insert filtered (ARecord r) ;;
     mret filtered) s
    = (s', Returns filtered)
    ∧ bucket s' filtered (rtype r) = Some (rs ++ [r])
    ∧ bucket s' self (rtype r) = Some (rs ++ [r]).
Proof.
  unfold bucket. intros Hb.
  destruct (dicts s !! self) as [d|] eqn:Hd; [|done]. cbn in Hb.
  destruct (PyDict.getitem (rtype r) d) as [l|] eqn:Ht; [|done]. cbn in Hb.
  assert (self < length (dicts s))%nat by by eapply lookup_lt_Some.
  rewrite bind_unfold, (filter_records_one_type_present _ _ _ _ _ Hd Ht).
  cbv beta iota. rewrite bind_unfold.
  rewrite (insert_present _ _ [(rtype r, l)] r l rs); [|cbn..|done].
  2:{ by rewrite lookup_app_r, Nat.sub_diag. }
  2:{ by rewrite decide_True. }
  cbv beta iota. rewrite ret_unfold. do 2 eexists. split; [done|].
  simpl_store. rewrite lookup_app_r, Nat.sub_diag by done.
  rewrite lookup_app_l, Hd by done. cbn. rewrite decide_True, Ht by done. cbn.
  rewrite list_lookup_insert_eq by by eapply lookup_lt_Some. done.
Qed.

Lemma filtered_copy_shares_buckets_witness :
  let r v := mkRecord PerfLatency None v 0 in
  let s := mkStore [[r 7%Z]] [[(PerfLatency, 0%nat)]] [] in
  ∃ s' filtered,
    (filtered ← RecordAggregator.filter_records 0%nat (Some [PerfLatency]) None;
     RecordAggregator.insert filtered (ARecord (r 9%Z)) ;;
     mret filtered) s
    = (s', Returns filtered)
    ∧ bucket s' filtered PerfLatency = Some ([r 7%Z] ++ [r 9%Z])
    ∧ bucket s' 0%nat PerfLatency = Some ([r 7%Z] ++ [r 9%Z]).
Proof.
  intros r s.
  apply (filtered_copy_shares_buckets s 0%nat (r 9%Z) [r 7%Z]). reflexivity.
Defined.

(** X6. With one record type and one criterion that returns on every record
    of the bucket, [filter_records] returns a new aggregator whose bucket of
    that type holds the records the criterion accepts, in their order; it
    knows that type only, and not even that type when no record is accepted.
    The bucket of the source is left as it is. *)
Theorem filter_records_one_criterion_view (s : Store) (self : addr)
    (T : RecordType) (rs : list RecordObj)
    (f : RecordObj → outcome bool) (accepts : RecordObj → bool) :
  bucket s self T = Some rs →
  Forall (λ r, rtype r = T) rs →
  Forall (λ r, f r = Returns (accepts r)) rs →
  ∃ s' filtered,
    RecordAggregator.filter_records self (Some [T]) (Some [f]) s
    = (s', Returns filtered)
    ∧ contents s' filtered T = filter (λ r, accepts r = true) rs
    ∧ known_types s' filtered
      = Some (if decide (filter (λ r, accepts r = true) rs = []) then [] else [T])
    ∧ bucket s' self T = Some rs.
Proof.
  unfold bucket at 1. intros Hb Hty Hf.
  destruct (dicts s !! self) as [d|] eqn:Hd; [|done]. cbn in Hb.
  destruct (PyDict.getitem T d) as [l|] eqn:Ht; [|done]. cbn in Hb.
  assert (self < length (dicts s))%nat by by eapply lookup_lt_Some.
  rewrite (filter_records_one_criterion s self d T l f (λ r, accepts r = true) rs);
    [|done..|].
  2:{ eapply Forall_impl; [exact Hf|]. cbv beta. intros r ->.
      by destruct (accepts r). }
  do 2 eexists. split; [done|].
  unfold contents, known_types, bucket.
  destruct (filter (λ r, accepts r = true) rs) as [|a grp] eqn:Hgrp;
    cbn [with_filtered]; simpl_store.
  - rewrite lookup_app_r, Nat.sub_diag by done. cbn.
    rewrite lookup_app_l, Hd by done. cbn. rewrite Ht. cbn. done.
  - rewrite lookup_app_r, Nat.sub_diag by done. cbn.
    rewrite decide_True by done. cbn.
    rewrite lookup_app_r, Nat.sub_diag by done. cbn.
    rewrite lookup_app_l, Hd by done. cbn. rewrite Ht. cbn.
    split; [done|]. split; [done|]. rewrite lookup_app_l; [done|].
    by eapply lookup_lt_Some.
Qed.

Lemma filter_records_one_criterion_view_witness :
  let r v := mkRecord PerfLatency None v 0 in
  let rs := [r 7%Z; r 2%Z; r 9%Z] in
  let s := mkStore [rs] [[(PerfLatency, 0%nat)]] [] in
  let f := λ x : RecordObj, Returns (bool_decide (5 < value x)%Z) in
  ∃ s' filtered,
    RecordAggregator.filter_records 0%nat (Some [PerfLatency]) (Some [f]) s
    = (s', Returns filtered)
    ∧ contents s' filtered PerfLatency
      = filter (λ x, bool_decide (5 < value x)%Z = true) rs
    ∧ known_types s' filtered
      = Some (if decide (filter (λ x, bool_decide (5 < value x)%Z = true) rs = [])
              then [] else [PerfLatency])
    ∧ bucket s' 0%nat PerfLatency = Some rs.
Proof.
  intros r rs s f.
  apply (filter_records_one_criterion_view s 0%nat PerfLatency rs f
           (λ x, bool_decide (5 < value x)%Z)); [reflexivity| |].
  - repeat constructor.
  - repeat constructor.
Defined.

Lemma filter_records_types_only_copies_witness :
  let r := mkRecord PerfLatency None 7 0 in
  let s := mkStore [[r]; []] [[(PerfLatency, 0%nat); (PerfThroughput, 1%nat)]] [] in
  ∃ df,
    RecordAggregator.filter_records 0%nat (Some [PerfLatency]) None s
    = (mkStore (lists s) (dicts s ++ [df]) (trace s), Returns (length (dicts s)))
    ∧ ∀ t, PyDict.getitem t df
           = if decide (t ∈ [PerfLatency])
             then PyDict.getitem t [(PerfLatency, 0%nat); (PerfThroughput, 1%nat)]
             else None.
Proof.
  intros r s.
  apply (filter_records_types_only_copies s 0%nat
           [(PerfLatency, 0%nat); (PerfThroughput, 1%nat)] [PerfLatency]);
    [reflexivity|discriminate|].
  intros t Ht. apply list_elem_of_singleton in Ht as ->. by eexists.
Defined.

Lemma filter_records_keeps_buckets_witness :
  let r := mkRecord PerfLatency None 7 0 in
  let s := mkStore [[r]] [[(PerfLatency, 0%nat)]] [] in
  let f := λ x : RecordObj, Returns (bool_decide (5 < value x)%Z) in
  bucket (exec (RecordAggregator.filter_records 0%nat
                  (Some [GPUUsedMemory; PerfLatency]) (Some [f; f])) s)
    0%nat PerfLatency
  = Some [r].
Proof.
  intros r s f.
  apply (filter_records_keeps_buckets s 0%nat (Some [GPUUsedMemory; PerfLatency])
           (Some [f; f])); [|reflexivity].
  exists [(PerfLatency, 0%nat)]. split; [reflexivity|].
  intros t l. cbn. destruct (decide (t = PerfLatency)); [|done].
  intros [= <-]. lia.
Defined.

(** ** aggregate: requested types and empty buckets *)

Lemma aggregate_loop_empty (s : Store) (self : addr) d (tags : list RecordType) :
  dicts s !! self = Some d →
  (∀ t, t ∈ tags → ∃ l rs, PyDict.getitem t d = Some l ∧ lists s !! l = Some rs) →
  (∃ t l, t ∈ tags ∧ PyDict.getitem t d = Some l ∧ lists s !! l = Some []) →
  ∀ acc,
    for_fold tags acc (λ aggregated_records record_type,
      bucket ← defaultdict_getitem self record_type;
      records ← read_list bucket;
      reduced ← lift (py_max (value <$> records));
      mret (PyDict.setitem record_type reduced aggregated_records)) s
    = (s, Raises ValueError).
Proof.
  intros Hd. induction tags as [|t tags IH]; intros Hall (t0 & l0 & Hin & Ht0 & Hl0) acc.
  - by apply elem_of_nil in Hin.
  - destruct (Hall t) as (l & rs & Ht & Hl); [apply list_elem_of_here|].
    cbn [for_fold]. rewrite bind_unfold, bind_unfold.
    rewrite (defaultdict_getitem_present _ _ _ _ _ Hd Ht).
    rewrite (bind_returns _ _ _ _ _ (read_list_run _ _ _ Hl)).
    unfold lift at 1. rewrite bind_unfold.
    destruct rs as [|r rs]; [done|]. cbn [fmap list_fmap py_max].
    rewrite ret_unfold. apply IH.
    + intros t' Ht'. by apply Hall, list_elem_of_further.
    + apply elem_of_cons in Hin as [->|Hin]; [congruence|]. by exists t0, l0.
Qed.

(** X9. When a known type has an empty bucket (and every known type has its
    list), [aggregate()] with the default reduction raises the [ValueError]
    of [max] on an empty list and leaves the store as it is. *)
Theorem aggregate_empty_bucket_raises (s : Store) (self : addr)
    (tags : list RecordType) (tag : RecordType) :
  known_types s self = Some tags →
  (∀ t, t ∈ tags → is_Some (bucket s self t)) →
  bucket s self tag = Some [] →
  RecordAggregator.aggregate self None py_max s = (s, Raises ValueError).
Proof.
  unfold known_types, bucket. intros Hk Hall Hempty.
  destruct (dicts s !! self) as [d|] eqn:Hd; [|done].
  injection Hk as <-. cbn in Hall, Hempty.
  destruct (PyDict.getitem tag d) as [l0|] eqn:Hl0; [|done]. cbn in Hempty.
  unfold RecordAggregator.aggregate, RecordAggregator.record_types.
  cbn [truthy negb].
  rewrite bind_unfold, (bind_returns _ _ _ _ _ (read_dict_run _ _ _ Hd)).
  rewrite ret_unfold. apply (aggregate_loop_empty s self d); [done| |].
  - intros t Ht. destruct (Hall t Ht) as [rs Hrs].
    destruct (PyDict.getitem t d) as [l|] eqn:Hl; [|done]. cbn in Hrs. eauto.
  - exists tag, l0. split; [|done]. apply getitem_is_Some. by eexists.
Qed.

Lemma aggregate_empty_bucket_raises_witness :
  RecordAggregator.aggregate 0%nat None py_max store_with_empty_bucket
  = (store_with_empty_bucket, Raises ValueError).
Proof.
  apply (aggregate_empty_bucket_raises store_with_empty_bucket 0%nat
           [GPUUsedMemory] GPUUsedMemory); [reflexivity| |reflexivity].
  intros t Ht. apply list_elem_of_singleton in Ht as ->. by eexists.
Defined.

(** X10. [aggregate(record_types)] with a non-empty list of known types
    whose buckets are not empty returns, without changing the store, a
    mapping over exactly the requested types, with the greatest [value()] of
    each bucket; the other buckets of the aggregator play no part. *)
Theorem aggregate_requested_types (s : Store) (self : addr)
    (requested : list RecordType) :
  requested ≠ [] →
  (∀ tag, tag ∈ requested → ∃ rs, bucket s self tag = Some rs ∧ rs ≠ []) →
  ∃ result,
    RecordAggregator.aggregate self (Some requested) py_max s = (s, Returns result)
    ∧ (∀ tag, tag ∈ PyDict.keys result ↔ tag ∈ requested)
    ∧ ∀ tag rs, tag ∈ requested → bucket s self tag = Some rs →
        ∃ m, PyDict.getitem tag result = Some m ∧ is_max m (value <$> rs).
Proof.
  intros Hreq Hne. destruct requested as [|t0 ts]; [done|].
  destruct (Hne t0) as (rs0 & Hrs0 & _); [apply list_elem_of_here|].
  unfold bucket in Hrs0, Hne |- *.
  destruct (dicts s !! self) as [d|] eqn:Hd; [|done]. cbn in Hne |- *.
  set (f := λ t : RecordType,
         max_of (value <$> default [] (l ← PyDict.getitem t d; lists s !! l))).
  exists (foldl (λ acc t, PyDict.setitem t (f t) acc) [] (t0 :: ts)).
  split; [|split].
  - unfold RecordAggregator.aggregate. cbn [truthy negb default from_option id].
    rewrite bind_unfold, ret_unfold.
    apply (aggregate_loop s self d f); [done|].
    intros t Ht. destruct (Hne t Ht) as (rs & Hrs & Hnil).
    destruct (PyDict.getitem t d) as [l|] eqn:Hl; [|done]. cbn in Hrs.
    exists l, rs. split; [done|]. split; [done|].
    unfold f. rewrite Hl. cbn. rewrite Hrs. cbn. apply py_max_max_of.
    intros Hmap. by apply fmap_nil_inv in Hmap.
  - intros tag. rewrite <-getitem_is_Some, getitem_foldl_setitem.
    destruct (decide (tag ∈ t0 :: ts)) as [Hin|Hnin].
    + split; [done|by eexists].
    + split; [by intros [? ?]|done].
  - intros tag rs Hin Hrs. rewrite getitem_foldl_setitem, decide_True by done.
    eexists. split; [done|]. unfold f.
    destruct (Hne tag Hin) as (rs' & Hrs' & Hnil).
    assert (rs' = rs) as -> by congruence.
    rewrite Hrs. cbn. apply max_of_is_max.
    intros Hmap. by apply fmap_nil_inv in Hmap.
Qed.

Lemma aggregate_requested_types_witness :
  let r t v := mkRecord t None v 0 in
  let s := mkStore [[r PerfThroughput 100%Z; r PerfThroughput 150%Z];
                    [r PerfLatency 3%Z]]
             [[(PerfThroughput, 0%nat); (PerfLatency, 1%nat)]] [] in
  (RecordAggregator.aggregate 0%nat (Some [PerfLatency]) py_max s).2
    = Returns [(PerfLatency, 3%Z)]
  ∧ ∃ result,
      RecordAggregator.aggregate 0%nat (Some [PerfLatency]) py_max s
      = (s, Returns result)
      ∧ (∀ tag, tag ∈ PyDict.keys result ↔ tag ∈ [PerfLatency])
      ∧ ∀ tag rs, tag ∈ [PerfLatency] → bucket s 0%nat tag = Some rs →
          ∃ m, PyDict.getitem tag result = Some m ∧ is_max m (value <$> rs).
Proof.
  intros r s. split; [reflexivity|].
  apply (aggregate_requested_types s 0%nat [PerfLatency]); [discriminate|].
  intros tag Htag. apply list_elem_of_singleton in Htag as ->.
  eexists. split; [reflexivity|discriminate].
Defined.

(** ** groupby: unknown types, failing criteria, any reduction *)

(** X11. On a record type the aggregator does not know, [groupby] returns
    the empty mapping, whatever the criterion and the reduction; the lookup
    it makes leaves the type bound to an empty bucket in the aggregator. *)
Theorem groupby_unknown_type {K} `{EqDecision K} (s : Store) (self : addr) d
    (T : RecordType) (groupby_criteria : RecordObj → outcome K)
    (reduce_func : list Z → outcome Z) :
  dicts s !! self = Some d →
  PyDict.getitem T d = None →
  ∃ s',
    RecordAggregator.groupby self T groupby_criteria reduce_func s
    = (s', Returns [])
    ∧ known_types s' self = Some (PyDict.keys d ++ [T])
    ∧ bucket s' self T = Some [].
Proof.
  intros Hd Ht.
  assert (self < length (dicts s))%nat by by eapply lookup_lt_Some.
  rewrite (groupby_absent _ _ s self d T Hd Ht). eexists. split; [done|].
  unfold known_types, bucket. simpl_store.
  rewrite lookup_app_l by (by rewrite length_insert).
  rewrite list_lookup_insert_eq by done. cbn.
  rewrite keys_setitem_absent, getitem_setitem_eq by done. cbn.
  by rewrite lookup_app_r, Nat.sub_diag.
Qed.

Lemma groupby_unknown_type_witness :
  ∃ s',
    RecordAggregator.groupby 0%nat GPUFreeMemory Analyzer.gpu_device_id py_max
      (mkStore [] [[]] [])
    = (s', Returns [])
    ∧ known_types s' 0%nat = Some ([] ++ [GPUFreeMemory])
    ∧ bucket s' 0%nat GPUFreeMemory = Some [].
Proof.
  apply (groupby_unknown_type (mkStore [] [[]] []) 0%nat [] GPUFreeMemory
           Analyzer.gpu_device_id py_max); reflexivity.
Defined.

Lemma field_values_loop_no_device (rs : list RecordObj) :
  Exists (λ r, device r = None) rs →
  ∀ (acc : list nat) (s : Store),
    for_fold rs acc (λ field_values record,
      k ← lift (Analyzer.gpu_device_id record);
      mret (set_add k field_values)) s
    = (s, Raises AttributeError).
Proof.
  induction rs as [|r rs IH]; intros Hex acc s.
  - by apply Exists_nil in Hex.
  - cbn [for_fold]. rewrite bind_unfold, bind_unfold.
    unfold lift at 1, Analyzer.gpu_device_id at 1.
    destruct (device r) as [dev|] eqn:Hdev; [|done].
    rewrite ret_unfold. apply IH.
    apply Exists_cons in Hex as [Hr|Hex]; [congruence|done].
Qed.

(** X12. When a record of the bucket has no device, [groupby] by device id
    raises the [AttributeError] of the criterion, whatever the reduction
    is. *)
Theorem groupby_record_without_device (s : Store) (self : addr) (T : RecordType)
    (rs : list RecordObj) (reduce_func : list Z → outcome Z) :
  bucket s self T = Some rs →
  Exists (λ r, device r = None) rs →
  ∃ s',
    RecordAggregator.groupby self T Analyzer.gpu_device_id reduce_func s
    = (s', Raises AttributeError).
Proof.
  unfold bucket. intros Hb Hex.
  destruct (dicts s !! self) as [d|] eqn:Hd; [|done]. cbn in Hb.
  destruct (PyDict.getitem T d) as [l|] eqn:Ht; [|done]. cbn in Hb.
  unfold RecordAggregator.groupby.
  rewrite bind_unfold, bind_unfold.
  rewrite (filter_records_one_type_present _ _ _ _ _ Hd Ht).
  cbv beta iota. unfold RecordAggregator.get_records. rewrite ret_unfold.
  rewrite bind_unfold.
  rewrite (defaultdict_getitem_present _ _ [(T, l)] T l); [|cbn..].
  2:{ by rewrite lookup_app_r, Nat.sub_diag. }
  2:{ by rewrite decide_True. }
  cbv beta iota. rewrite bind_unfold, (read_list_run _ _ rs) by done.
  cbv beta iota. rewrite bind_unfold.
  rewrite (field_values_loop_no_device rs Hex). by eexists.
Qed.

Lemma groupby_record_without_device_witness :
  let rs := [mkRecord PerfThroughput None 100 0] in
  ∃ s',
    RecordAggregator.groupby 0%nat PerfThroughput Analyzer.gpu_device_id py_max
      (mkStore [rs] [[(PerfThroughput, 0%nat)]] [])
    = (s', Raises AttributeError).
Proof.
  intros rs.
  apply (groupby_record_without_device
           (mkStore [rs] [[(PerfThroughput, 0%nat)]] []) 0%nat PerfThroughput rs
           py_max); [reflexivity|].
  by apply Exists_cons_hd.
Defined.

Lemma foldl_setitem_fresh {K V} `{EqDecision K} (g : K → V) (ks : list K) :
  ∀ acc : list (K * V),
    NoDup (PyDict.keys acc ++ ks) →
    foldl (λ m k, PyDict.setitem k (g k) m) acc ks
    = acc ++ ((λ k, (k, g k)) <$> ks).
Proof.
  induction ks as [|k ks IH]; intros acc Hnd.
  - cbn [foldl fmap list_fmap]. by rewrite (right_id_L [] (++)).
  - cbn [foldl fmap list_fmap]. rewrite setitem_absent.
    2:{ apply getitem_None. apply NoDup_app in Hnd as (_ & Hdisj & _).
        intros Hin. apply (Hdisj k Hin), list_elem_of_here. }
    rewrite IH; [by rewrite <-(assoc_L (++))|].
    unfold PyDict.keys. rewrite fmap_app. cbn. by rewrite <-(assoc_L (++)).
Qed.

(** X13. For a bucket of records of its type, a criterion that returns on
    every record and a reduction that returns on every non-empty list,
    [groupby] returns a mapping with one entry per key that occurs in the
    bucket and no other; the value at a key is the reduction of the values
    of the records with that key, in bucket order.  The bucket is left as it
    is. *)
Theorem groupby_reduces_each_group {K} `{EqDecision K} (s : Store) (self : addr)
    (T : RecordType) (rs : list RecordObj)
    (groupby_criteria : RecordObj → outcome K) (key : RecordObj → K)
    (reduce_func : list Z → outcome Z) (red : list Z → Z) :
  bucket s self T = Some rs →
  Forall (λ r, rtype r = T) rs →
  Forall (λ r, groupby_criteria r = Returns (key r)) rs →
  (∀ vs, vs ≠ [] → reduce_func vs = Returns (red vs)) →
  ∃ s' result,
    RecordAggregator.groupby self T groupby_criteria reduce_func s
    = (s', Returns result)
    ∧ NoDup (PyDict.keys result)
    ∧ (∀ k v, PyDict.getitem k result = Some v
              ↔ (∃ r, r ∈ rs ∧ key r = k)
                ∧ v = red (value <$> filter (λ r, key r = k) rs))
    ∧ bucket s' self T = Some rs.
Proof.
  unfold bucket. intros Hb Hty Hc Hred.
  destruct (dicts s !! self) as [d|] eqn:Hd; [|done]. cbn in Hb.
  destruct (PyDict.getitem T d) as [l|] eqn:Ht; [|done]. cbn in Hb.
  destruct (groupby_present groupby_criteria key reduce_func
              (λ k, red (value <$> filter (λ r, key r = k) rs))
              s self d T l rs Hd Ht Hb Hty Hc)
    as (s' & Hrun & Hd' & Hl' & _).
  { intros k Hk. apply Hred. intros Hnil. apply fmap_nil_inv in Hnil.
    apply elem_of_distinct_keys in Hk as (r & Hr & Hk).
    by eapply filter_nil_not_elem_of; [exact Hnil| |exact Hr]. }
  exists s'. eexists. split; [exact Hrun|]. split; [|split].
  - unfold grouped. apply NoDup_keys_foldl_setitem, NoDup_nil_2.
  - intros k v. rewrite getitem_grouped.
    destruct (decide (k ∈ distinct_keys key rs)) as [Hin|Hnin].
    + apply elem_of_distinct_keys in Hin. split.
      * by intros [= <-].
      * by intros [_ ->].
    + split; [done|]. intros [Hex _]. exfalso.
      by apply Hnin, elem_of_distinct_keys.
  - rewrite Hd'. cbn. rewrite Ht. cbn. by apply Hl'.
Qed.

Lemma groupby_reduces_each_group_witness :
  let used id v := mkRecord GPUUsedMemory (Some (mkGPUDevice id)) v 0 in
  let rs := [used 1%nat 10%Z; used 0%nat 30%Z; used 1%nat 20%Z] in
  let s := mkStore [rs] [[(GPUUsedMemory, 0%nat)]] [] in
  ∃ s' result,
    RecordAggregator.groupby 0%nat GPUUsedMemory Analyzer.gpu_device_id py_len s
    = (s', Returns result)
    ∧ NoDup (PyDict.keys result)
    ∧ (∀ k v, PyDict.getitem k result = Some v
              ↔ (∃ r, r ∈ rs ∧ device_key r = k)
                ∧ v = Z.of_nat (length (value <$> filter (λ r, device_key r = k) rs)))
    ∧ bucket s' 0%nat GPUUsedMemory = Some rs.
Proof.
  intros used rs s.
  apply (groupby_reduces_each_group s 0%nat GPUUsedMemory rs Analyzer.gpu_device_id
           device_key py_len (λ vs, Z.of_nat (length vs))); try done.
  - repeat constructor.
  - repeat constructor.
Defined.

(** X14. The groups of [groupby] cover the bucket, each record in one
    group: with [len] as the reduction, the values of the mapping it returns
    add up to the number of records in the bucket. *)
Theorem groupby_groups_cover_bucket {K} `{EqDecision K} (s : Store) (self : addr)
    (T : RecordType) (rs : list RecordObj)
    (groupby_criteria : RecordObj → outcome K) (key : RecordObj → K) :
  bucket s self T = Some rs →
  Forall (λ r, rtype r = T) rs →
  Forall (λ r, groupby_criteria r = Returns (key r)) rs →
  ∃ s' result,
    RecordAggregator.groupby self T groupby_criteria py_len s
    = (s', Returns result)
    ∧ foldr Z.add 0%Z result.*2 = Z.of_nat (length rs).
Proof.
  unfold bucket. intros Hb Hty Hc.
  destruct (dicts s !! self) as [d|] eqn:Hd; [|done]. cbn in Hb.
  destruct (PyDict.getitem T d) as [l|] eqn:Ht; [|done]. cbn in Hb.
  destruct (groupby_present groupby_criteria key py_len
              (λ k, Z.of_nat (length (filter (λ r, key r = k) rs)))
              s self d T l rs Hd Ht Hb Hty Hc)
    as (s' & Hrun & _).
  { intros k _. unfold py_len. by rewrite length_fmap. }
  exists s', (grouped key (λ k, Z.of_nat (length (filter (λ r, key r = k) rs))) rs).
  split; [done|]. unfold grouped.
  rewrite foldl_setitem_fresh by (cbn; apply NoDup_distinct_keys).
  cbn [app]. rewrite <-list_fmap_compose.
  rewrite <-(groups_partition key rs).
  induction (distinct_keys key rs) as [|k ks IH]; [done|].
  cbn [fmap list_fmap foldr sum_list_with compose snd]. rewrite IH. lia.
Qed.

Lemma groupby_groups_cover_bucket_witness :
  let used id v := mkRecord GPUUsedMemory (Some (mkGPUDevice id)) v 0 in
  let rs := [used 1%nat 10%Z; used 0%nat 30%Z; used 1%nat 20%Z] in
  let s := mkStore [rs] [[(GPUUsedMemory, 0%nat)]] [] in
  ∃ s' result,
    RecordAggregator.groupby 0%nat GPUUsedMemory Analyzer.gpu_device_id py_len s
    = (s', Returns result)
    ∧ foldr Z.add 0%Z result.*2 = Z.of_nat (length rs).
Proof.
  intros used rs s.
  apply (groupby_groups_cover_bucket s 0%nat GPUUsedMemory rs
           Analyzer.gpu_device_id device_key); [reflexivity| |];
    repeat constructor.
Defined.

(** ** aggregate after insert *)

Lemma records_of_records (rs : list RecordObj) : records_of (ARecord <$> rs) = rs.
Proof.
  unfold records_of. induction rs as [|r rs IH]; [done|].
  cbn [fmap list_fmap omap list_omap]. by rewrite IH.
Qed.

Lemma aggregate_filled (s0 : Store) (objs : list PyObject) :
  let '(self, s) := filled s0 objs in
  RecordAggregator.aggregate self None py_max s
  = (s, Returns ((λ t, (t, max_of (value <$> filter (λ r, rtype r = t)
                                                 (records_of objs))))
                 <$> distinct_keys rtype (records_of objs))).
Proof.
  pose proof (filled_known_types s0 objs) as Hk.
  pose proof (filled_contents s0 objs) as Hc.
  pose proof (filled_typed s0 objs) as (d & Hd & Hb & _).
  destruct (filled s0 objs) as [self s] eqn:Hf. cbn [fst snd] in *.
  unfold known_types in Hk. rewrite Hd in Hk. injection Hk as Hk.
  unfold RecordAggregator.aggregate, RecordAggregator.record_types.
  cbn [truthy negb].
  rewrite bind_unfold, (bind_returns _ _ _ _ _ (read_dict_run _ _ _ Hd)).
  rewrite ret_unfold.
  rewrite (aggregate_loop s self d
             (λ t, max_of (value <$> filter (λ r, rtype r = t) (records_of objs)))).
  - rewrite Hk, foldl_setitem_fresh; [done|]. cbn. apply NoDup_distinct_keys.
  - done.
  - intros t Ht. apply getitem_is_Some in Ht as Hl. destruct Hl as [l Hl].
    destruct (Hb _ _ Hl) as (rs & Hrs & _). exists l, rs.
    split; [done|]. split; [done|].
    assert (rs = filter (λ r, rtype r = t) (records_of objs)) as <-.
    { rewrite <-Hc. unfold contents, bucket. rewrite Hd. cbn. rewrite Hl. cbn.
      by rewrite Hrs. }
    apply py_max_max_of. intros Hnil. apply fmap_nil_inv in Hnil. subst rs.
    rewrite Hk in Ht. apply elem_of_distinct_keys in Ht as (r & Hr & Hrt).
    specialize (Hc t). unfold contents, bucket in Hc. rewrite Hd in Hc.
    cbn in Hc. rewrite Hl in Hc. cbn in Hc. rewrite Hrs in Hc. cbn in Hc.
    by eapply filter_nil_not_elem_of; [symmetry; exact Hc| |exact Hr].
Qed.

(** X15. On a new aggregator, after any sequence of [insert] calls,
    [aggregate()] with the default reduction does not raise and leaves the
    store as it is: it returns one entry per inserted record type, in the
    order of first insertion, with the greatest value among the inserted
    records of that type. *)
Theorem aggregate_after_inserts (s0 : Store) (objs : list PyObject) :
  let '(self, s) := filled s0 objs in
  RecordAggregator.aggregate self None py_max s
  = (s, Returns ((λ t, (t, max_of (value <$> filter (λ r, rtype r = t)
                                                 (records_of objs))))
                 <$> distinct_keys rtype (records_of objs))).
Proof. apply aggregate_filled. Qed.

(** ** Analyzer._profile with a workload *)

(** X16. When [perf_analyzer.run] returns its records and the sampled
    records of the monitored types all have a device, [_profile] starts the
    monitor, runs the workload with [perf_tags], stops the monitor and
    returns: the device-scoped mapping has, for every monitored type, the
    greatest value per device id among the sampled records of that type, and
    the run-scoped mapping has, for every type among the workload's records,
    the greatest value of the records of that type. *)
Theorem profile_with_workload (self : Analyzer.t) (dcgm_monitor : DCGMMonitor)
    (perf_records : list RecordObj) (s : Store) :
  (∀ r, r ∈ samples dcgm_monitor → rtype r ∈ Analyzer.dcgm_tags self →
        is_Some (device r)) →
  ∃ s' records_groupby_gpu,
    Analyzer._profile self (Some (mkPerfAnalyzer (Returns perf_records)))
      dcgm_monitor s
    = (s', Returns (records_groupby_gpu,
                    (λ t, (t, max_of (value <$> filter (λ r, rtype r = t) perf_records)))
                    <$> distinct_keys rtype perf_records))
    ∧ trace s' = trace s ++ [StartRecording;
                             RunPerfAnalyzer (Analyzer.perf_tags self);
                             StopRecording]
    ∧ ∀ tag, tag ∈ Analyzer.dcgm_tags self →
        ∃ by_device,
          PyDict.getitem tag records_groupby_gpu = Some by_device
          ∧ ∀ id m,
              PyDict.getitem id by_device = Some m
              ↔ is_max m
                  (value <$> filter (λ r, device r = Some (mkGPUDevice id))
                               (filter (λ r, rtype r = tag) (samples dcgm_monitor))).
Proof.
  intros Hdev. unfold Analyzer._profile.
  rewrite bind_unfold. unfold start_recording_metrics at 1. cbv beta iota.
  rewrite bind_unfold. unfold try_except, run at 1. cbn [run_result].
  cbv beta iota. simpl_store.
  rewrite bind_unfold. unfold stop_recording_metrics at 1. cbv beta iota.
  simpl_store. rewrite <-!(assoc_L (++)). cbn [app].
  set (tr := trace s ++ _).
  rewrite (bind_returns _ _ _ _ _ (new_run _)).
  pose proof (new_typed (mkStore (lists s) (dicts s) tr)) as Hty.
  unfold exec in Hty. rewrite new_run in Hty. simpl_store.
  set (s4 := mkStore (lists s) (dicts s ++ [[]]) tr) in *.
  set (ra := length (dicts s)) in *.
  rewrite bind_unfold, (insert_records_run ra (samples dcgm_monitor) s4 Hty).
  cbv beta iota.
  set (s5 := insert_all ra (ARecord <$> samples dcgm_monitor) s4).
  assert (typed s5 ra) as Hty5 by by apply insert_all_typed.
  assert (∀ tag, contents s5 ra tag
                 = filter (λ r, rtype r = tag) (samples dcgm_monitor)) as Hc5.
  { intros tag. unfold s5. rewrite insert_records_contents by done.
    unfold contents, bucket, s4, ra. simpl_store.
    by rewrite lookup_app_r, Nat.sub_diag. }
  destruct (groupby_tags_loop ra (Analyzer.dcgm_tags self) s5 [] Hty5)
    as (s6 & Hrun6 & Htr6).
  { intros tag Htag. rewrite Hc5. apply Forall_forall. intros r Hr.
    apply list_elem_of_filter in Hr as [<- Hr]. by apply Hdev. }
  rewrite bind_unfold, Hrun6. cbv beta iota.
  rewrite (bind_returns _ _ _ _ _ (new_run s6)).
  pose proof (new_typed s6) as Hty6. unfold exec in Hty6.
  rewrite new_run in Hty6. cbn [fst] in Hty6.
  rewrite bind_unfold, (insert_records_run _ perf_records _ Hty6).
  cbv beta iota.
  pose proof (aggregate_filled s6 (ARecord <$> perf_records)) as Hagg.
  unfold filled, exec in Hagg. rewrite new_run in Hagg. cbn [fst] in Hagg.
  rewrite records_of_records in Hagg.
  rewrite bind_unfold, Hagg. cbv beta iota. rewrite ret_unfold.
  do 2 eexists. split; [done|]. split.
  { rewrite insert_records_trace by done. simpl_store.
    rewrite Htr6. unfold s5. by rewrite insert_records_trace. }
  intros tag Htag. eexists. split.
  - by rewrite getitem_foldl_setitem, decide_True.
  - rewrite Hc5. apply max_by_device_spec. apply Forall_forall. intros r Hr.
    apply list_elem_of_filter in Hr as [<- Hr]. by apply Hdev.
Qed.

Lemma profile_with_workload_witness :
  let used id v := mkRecord GPUUsedMemory (Some (mkGPUDevice id)) v 0 in
  let perf t v := mkRecord t None v 0 in
  let monitor := mkDCGMMonitor [used 0%nat 7%Z; used 0%nat 9%Z] in
  let perf_records := [perf PerfThroughput 100%Z; perf PerfLatency 4%Z;
                       perf PerfThroughput 150%Z] in
  let analyzer := Analyzer.mk 5 [GPUUsedMemory] [PerfThroughput; PerfLatency] in
  (Analyzer._profile analyzer (Some (mkPerfAnalyzer (Returns perf_records)))
     monitor empty_store).2
    = Returns ([(GPUUsedMemory, [(0%nat, 9%Z)])],
               [(PerfThroughput, 150%Z); (PerfLatency, 4%Z)])
  ∧ ∃ s' records_groupby_gpu,
      Analyzer._profile analyzer (Some (mkPerfAnalyzer (Returns perf_records)))
        monitor empty_store
      = (s', Returns (records_groupby_gpu,
                      (λ t, (t, max_of (value <$> filter (λ r, rtype r = t) perf_records)))
                      <$> distinct_keys rtype perf_records))
      ∧ trace s' = trace empty_store
                   ++ [StartRecording; RunPerfAnalyzer [PerfThroughput; PerfLatency];
                       StopRecording]
      ∧ ∀ tag, tag ∈ [GPUUsedMemory] →
          ∃ by_device,
            PyDict.getitem tag records_groupby_gpu = Some by_device
            ∧ ∀ id m,
                PyDict.getitem id by_device = Some m
                ↔ is_max m
                    (value <$> filter (λ r, device r = Some (mkGPUDevice id))
                                 (filter (λ r, rtype r = tag) (samples monitor))).
Proof.
  intros used perf monitor perf_records analyzer. split; [reflexivity|].
  apply (profile_with_workload analyzer monitor perf_records empty_store).
  intros r Hr _. cbn in Hr.
  repeat (apply elem_of_cons in Hr as [->|Hr]; [by eexists|]).
  by apply elem_of_nil in Hr.
Defined.

(** X17. An exception of [perf_analyzer.run] other than [FileNotFoundError]
    reaches the caller of [_profile] as it is; the only calls made on the
    collaborators are the start of the monitor and the run. *)
Theorem profile_run_raises (self : Analyzer.t) (dcgm_monitor : DCGMMonitor)
    (e : exn) (s : Store) :
  e ≠ FileNotFoundError →
  Analyzer._profile self (Some (mkPerfAnalyzer (Raises e))) dcgm_monitor s
  = (mkStore (lists s) (dicts s)
       (trace s ++ [StartRecording; RunPerfAnalyzer (Analyzer.perf_tags self)]),
     Raises e).
Proof.
  intros He. unfold Analyzer._profile, mbind, M_bind. cbn -[app].
  rewrite <-(assoc_L (++)). by destruct e.
Qed.

Lemma profile_run_raises_witness :
  Analyzer._profile (Analyzer.mk 5 [GPUUsedMemory] [PerfThroughput])
    (Some (mkPerfAnalyzer (Raises OtherError))) (mkDCGMMonitor []) empty_store
  = (mkStore [] [] [StartRecording; RunPerfAnalyzer [PerfThroughput]],
     Raises OtherError).
Proof.
  apply (profile_run_raises (Analyzer.mk 5 [GPUUsedMemory] [PerfThroughput])
           (mkDCGMMonitor []) OtherError empty_store).
  discriminate.
Defined.

(** ** PerfAnalyzerConfig: independent keys, parameters, command line *)

Lemma getitem_Some_elem_of {K V} `{EqDecision K} (k : K) (v : V) (d : list (K * V)) :
  PyDict.getitem k d = Some v → (k, v) ∈ d.
Proof.
  induction d as [|[k' v'] d IH]; cbn; [done|].
  destruct (decide (k = k')) as [->|Hne].
  - intros [= ->]. apply list_elem_of_here.
  - intros Hg. apply list_elem_of_further. auto.
Qed.

Lemma contains_keys {K V} `{EqDecision K} (k : K) (d d' : list (K * V)) :
  PyDict.keys d = PyDict.keys d' → PyDict.contains k d = PyDict.contains k d'.
Proof.
  intros Hk. destruct (PyDict.contains k d') eqn:Hc'.
  - apply contains_true, getitem_is_Some. rewrite Hk.
    by apply getitem_is_Some, contains_true.
  - destruct (PyDict.contains k d) eqn:Hc; [|done].
    apply contains_true, getitem_is_Some in Hc. rewrite Hk in Hc.
    apply getitem_is_Some, contains_true in Hc. congruence.
Qed.

Lemma getitem_values_inj {K V} `{EqDecision K} (k k' : K) (v : V) (d : list (K * V)) :
  NoDup d.*2 → PyDict.getitem k d = Some v → PyDict.getitem k' d = Some v → k = k'.
Proof.
  induction d as [|[k0 v0] d IH]; csimpl; [done|].
  intros Hnd. apply NoDup_cons in Hnd as [Hv0 Hnd].
  destruct (decide (k = k0)) as [->|Hne], (decide (k' = k0)) as [->|Hne']; try done.
  - intros [= ->] Hk'. exfalso. apply Hv0.
    apply getitem_Some_elem_of in Hk'. apply list_elem_of_fmap. by exists (k', v).
  - intros Hk [= ->]. exfalso. apply Hv0.
    apply getitem_Some_elem_of in Hk. apply list_elem_of_fmap. by exists (k, v).
  - by apply IH.
Qed.

Lemma new_option_aliases (key option : string) :
  PyDict.getitem key (PerfAnalyzerConfig._input_to_options PerfAnalyzerConfig.new)
    = Some option →
  option ∈ PyDict.keys (PerfAnalyzerConfig._options PerfAnalyzerConfig.new).
Proof.
  intros Hg. apply getitem_Some_elem_of in Hg. cbn in Hg.
  repeat (apply elem_of_cons in Hg as [[= _ ->]|Hg];
          [apply (bool_decide_unpack _); by vm_compute|]).
  by apply elem_of_nil in Hg.
Qed.

Lemma new_verbose_aliases (key flag : string) :
  PyDict.getitem key (PerfAnalyzerConfig._input_to_verbose PerfAnalyzerConfig.new)
    = Some flag →
  flag ∈ PyDict.keys (PerfAnalyzerConfig._verbose PerfAnalyzerConfig.new).
Proof.
  intros Hg. apply getitem_Some_elem_of in Hg. cbn in Hg.
  repeat (apply elem_of_cons in Hg as [[= _ ->]|Hg];
          [apply (bool_decide_unpack _); by vm_compute|]).
  by apply elem_of_nil in Hg.
Qed.

Lemma new_option_aliases_NoDup :
  NoDup (PerfAnalyzerConfig._input_to_options PerfAnalyzerConfig.new).*2.
Proof. apply (bool_decide_unpack _). by vm_compute. Qed.

Lemma new_verbose_aliases_NoDup :
  NoDup (PerfAnalyzerConfig._input_to_verbose PerfAnalyzerConfig.new).*2.
Proof. apply (bool_decide_unpack _). by vm_compute. Qed.

Lemma config_shape_new : config_shape PerfAnalyzerConfig.new.
Proof. by repeat split. Qed.

Lemma config_shape_recognized (c : PerfAnalyzerConfig.t) (key : string) :
  config_shape c →
  PerfAnalyzerConfig.recognized c key
  = PerfAnalyzerConfig.recognized PerfAnalyzerConfig.new key.
Proof.
  intros (Ha & _ & _ & Hio & Hiv). unfold PerfAnalyzerConfig.recognized.
  by rewrite (contains_keys key _ _ Ha), Hio, Hiv.
Qed.

Lemma config_shape_setitem (c : PerfAnalyzerConfig.t) (key : string) (v : PyValue) :
  config_shape c → config_shape (PerfAnalyzerConfig.__setitem__ c key v).1.
Proof.
  intros (Ha & Ho & Hv & Hio & Hiv). unfold PerfAnalyzerConfig.__setitem__.
  destruct (PyDict.contains key (PerfAnalyzerConfig._args c)) eqn:Hargs.
  { cbn. repeat split; try done. rewrite <-Ha.
    by apply keys_setitem_present, contains_true. }
  destruct (PyDict.contains key (PerfAnalyzerConfig._input_to_options c)) eqn:Hopt.
  { destruct (proj1 (contains_true _ _) Hopt) as [option Hoption].
    rewrite (dict_getitem_Some _ _ _ Hoption). cbn. repeat split; try done.
    rewrite <-Ho. apply keys_setitem_present, getitem_is_Some. rewrite Ho.
    apply (new_option_aliases key). by rewrite <-Hio. }
  destruct (PyDict.contains key (PerfAnalyzerConfig._input_to_verbose c)) eqn:Hverb.
  { destruct (proj1 (contains_true _ _) Hverb) as [flag Hflag].
    rewrite (dict_getitem_Some _ _ _ Hflag). cbn. repeat split; try done.
    rewrite <-Hv. apply keys_setitem_present, getitem_is_Some. rewrite Hv.
    apply (new_verbose_aliases key). by rewrite <-Hiv. }
  by repeat split.
Qed.

Lemma after_assignments_shape (assignments : list (string * PyValue)) :
  config_shape (after_assignments assignments).
Proof.
  unfold after_assignments.
  assert (∀ c, config_shape c →
            config_shape (foldl (λ c kv, (PerfAnalyzerConfig.__setitem__ c kv.1 kv.2).1)
                            c assignments)) as Hgen.
  { induction assignments as [|[k v] ps IH]; intros c Hc; [done|].
    cbn [foldl]. by apply IH, config_shape_setitem. }
  apply Hgen, config_shape_new.
Qed.

Lemma config_setitem_returns (c : PerfAnalyzerConfig.t) (key : string) (v : PyValue) :
  PerfAnalyzerConfig.recognized c key = true →
  (PerfAnalyzerConfig.__setitem__ c key v).2 = Returns tt
  ∧ PerfAnalyzerConfig.__getitem__ (PerfAnalyzerConfig.__setitem__ c key v).1 key
    = Returns v.
Proof.
  unfold PerfAnalyzerConfig.recognized, PerfAnalyzerConfig.__setitem__,
    PerfAnalyzerConfig.__getitem__.
  destruct (PyDict.contains key (PerfAnalyzerConfig._args c)) eqn:Hargs; cbn.
  { intros _. split; [done|]. rewrite contains_setitem by done.
    apply dict_getitem_Some, getitem_setitem_eq. }
  destruct (PyDict.contains key (PerfAnalyzerConfig._input_to_options c)) eqn:Hopt; cbn.
  { intros _. destruct (proj1 (contains_true _ _) Hopt) as [option Hoption].
    rewrite (dict_getitem_Some _ _ _ Hoption). cbn. rewrite Hargs, Hopt.
    rewrite (dict_getitem_Some _ _ _ Hoption). split; [done|].
    apply dict_getitem_Some, getitem_setitem_eq. }
  destruct (PyDict.contains key (PerfAnalyzerConfig._input_to_verbose c)) eqn:Hverb; cbn.
  { intros _. destruct (proj1 (contains_true _ _) Hverb) as [flag Hflag].
    rewrite (dict_getitem_Some _ _ _ Hflag). cbn. rewrite Hargs, Hopt, Hverb.
    rewrite (dict_getitem_Some _ _ _ Hflag). split; [done|].
    apply dict_getitem_Some, getitem_setitem_eq. }
  done.
Qed.

Lemma config_setitem_other (c : PerfAnalyzerConfig.t) (key key' : string) (v : PyValue) :
  config_shape c → key ≠ key' →
  PerfAnalyzerConfig.__getitem__ (PerfAnalyzerConfig.__setitem__ c key v).1 key'
  = PerfAnalyzerConfig.__getitem__ c key'.
Proof.
  intros (Ha & Ho & Hv & Hio & Hiv) Hne.
  unfold PerfAnalyzerConfig.__setitem__.
  destruct (PyDict.contains key (PerfAnalyzerConfig._args c)) eqn:Hargs.
  { unfold PerfAnalyzerConfig.__getitem__. cbn.
    rewrite (contains_keys key' (PyDict.setitem key v _) (PerfAnalyzerConfig._args c))
      by by apply keys_setitem_present, contains_true.
    unfold dict_getitem at 1 4. by rewrite getitem_setitem_ne. }
  destruct (PyDict.contains key (PerfAnalyzerConfig._input_to_options c)) eqn:Hopt.
  { destruct (proj1 (contains_true _ _) Hopt) as [option Hoption].
    rewrite (dict_getitem_Some _ _ _ Hoption).
    unfold PerfAnalyzerConfig.__getitem__. cbn.
    destruct (PyDict.contains key' (PerfAnalyzerConfig._args c)); [done|].
    destruct (PyDict.contains key' (PerfAnalyzerConfig._input_to_options c)) eqn:Hopt';
      [|done].
    destruct (proj1 (contains_true _ _) Hopt') as [option' Hoption'].
    rewrite (dict_getitem_Some _ _ _ Hoption').
    unfold dict_getitem. rewrite getitem_setitem_ne; [done|].
    intros <-. apply Hne. rewrite Hio in Hoption, Hoption'.
    eapply getitem_values_inj; [apply new_option_aliases_NoDup|done..]. }
  destruct (PyDict.contains key (PerfAnalyzerConfig._input_to_verbose c)) eqn:Hverb.
  { destruct (proj1 (contains_true _ _) Hverb) as [flag Hflag].
    rewrite (dict_getitem_Some _ _ _ Hflag).
    unfold PerfAnalyzerConfig.__getitem__. cbn.
    destruct (PyDict.contains key' (PerfAnalyzerConfig._args c)); [done|].
    destruct (PyDict.contains key' (PerfAnalyzerConfig._input_to_options c)); [done|].
    destruct (PyDict.contains key' (PerfAnalyzerConfig._input_to_verbose c)) eqn:Hverb';
      [|done].
    destruct (proj1 (contains_true _ _) Hverb') as [flag' Hflag'].
    rewrite (dict_getitem_Some _ _ _ Hflag').
    unfold dict_getitem. rewrite getitem_setitem_ne; [done|].
    intros <-. apply Hne. rewrite Hiv in Hflag, Hflag'.
    eapply getitem_values_inj; [apply new_verbose_aliases_NoDup|done..]. }
  done.
Qed.

(** X18. On a config reached from a new one by any assignments, setting one
    key leaves what every other key reads as it was: no two keys share a
    stored argument. *)
Theorem config_keys_independent (assignments : list (string * PyValue))
    (key key' : string) (v : PyValue) :
  key ≠ key' →
  PerfAnalyzerConfig.__getitem__
    (PerfAnalyzerConfig.__setitem__ (after_assignments assignments) key v).1 key'
  = PerfAnalyzerConfig.__getitem__ (after_assignments assignments) key'.
Proof. apply config_setitem_other, after_assignments_shape. Qed.

Lemma config_keys_independent_witness :
  PerfAnalyzerConfig.__getitem__
    (PerfAnalyzerConfig.__setitem__ (after_assignments [("url", PyStr "localhost:8001")])
       "model-name" (PyStr "resnet50")).1 "url"
  = PerfAnalyzerConfig.__getitem__ (after_assignments [("url", PyStr "localhost:8001")])
      "url".
Proof.
  apply (config_keys_independent [("url", PyStr "localhost:8001")] "model-name" "url"
           (PyStr "resnet50")).
  discriminate.
Defined.

(** X19. [_create_perf_config] on parameters whose keys are all recognized
    returns a config in which every parameter reads back as given and every
    other recognized key still reads [None]. *)
Theorem create_perf_config_accepts (params : list (string * PyValue)) :
  NoDup params.*1 →
  Forall (λ kv, PerfAnalyzerConfig.recognized PerfAnalyzerConfig.new kv.1 = true)
    params →
  ∃ config,
    _create_perf_config params = Returns config
    ∧ (∀ key v, (key, v) ∈ params →
         PerfAnalyzerConfig.__getitem__ config key = Returns v)
    ∧ ∀ key, PerfAnalyzerConfig.recognized PerfAnalyzerConfig.new key = true →
             key ∉ params.*1 →
             PerfAnalyzerConfig.__getitem__ config key = Returns PyNone.
Proof.
  unfold _create_perf_config. intros Hnd Hall.
  assert (∀ ps c, config_shape c → NoDup ps.*1 →
            Forall (λ kv, PerfAnalyzerConfig.recognized PerfAnalyzerConfig.new kv.1 = true)
              ps →
            ∃ c', set_params c ps = Returns c'
                  ∧ (∀ key v, (key, v) ∈ ps →
                       PerfAnalyzerConfig.__getitem__ c' key = Returns v)
                  ∧ ∀ key, key ∉ ps.*1 →
                      PerfAnalyzerConfig.__getitem__ c' key
                      = PerfAnalyzerConfig.__getitem__ c key) as Hgen.
  { clear. induction ps as [|[k v] ps IH]; intros c Hc Hnd Hall.
    - exists c. split; [done|]. split; [|done].
      intros key v Hin. by apply elem_of_nil in Hin.
    - csimpl in Hnd. apply NoDup_cons in Hnd as [Hk Hnd].
      apply Forall_cons in Hall as [Hrec Hall]. cbn [fst] in Hrec.
      rewrite <-(config_shape_recognized c k Hc) in Hrec.
      destruct (config_setitem_returns c k v Hrec) as [Hret Hget].
      cbn [set_params].
      destruct (PerfAnalyzerConfig.__setitem__ c k v) as [c1 o] eqn:Hset.
      cbn [fst snd] in Hret, Hget. subst o.
      assert (config_shape c1) as Hc1.
      { pose proof (config_shape_setitem c k v Hc) as H1. by rewrite Hset in H1. }
      destruct (IH c1 Hc1 Hnd Hall) as (c' & Hrun & Hread & Hframe).
      exists c'. split; [done|]. split.
      + intros key v' Hin. apply elem_of_cons in Hin as [[= -> ->]|Hin].
        * by rewrite (Hframe k Hk).
        * by apply Hread.
      + intros key Hkey. csimpl in Hkey.
        apply not_elem_of_cons in Hkey as [Hne Hkey].
        rewrite (Hframe key Hkey).
        pose proof (config_setitem_other c k key v Hc) as Hother.
        rewrite Hset in Hother. apply Hother. congruence. }
  destruct (Hgen params PerfAnalyzerConfig.new config_shape_new Hnd Hall)
    as (config & Hrun & Hread & Hframe).
  exists config. split; [done|]. split; [done|].
  intros key Hrec Hkey. rewrite (Hframe key Hkey).
  apply config_new_recognized in Hrec.
  repeat (apply elem_of_cons in Hrec as [->|Hrec]; [reflexivity|]).
  by apply elem_of_nil in Hrec.
Qed.

Lemma create_perf_config_accepts_witness :
  let params := [("model-name", PyStr "resnet50"); ("batch-size", PyInt 8)] in
  ∃ config,
    _create_perf_config params = Returns config
    ∧ (∀ key v, (key, v) ∈ params →
         PerfAnalyzerConfig.__getitem__ config key = Returns v)
    ∧ ∀ key, PerfAnalyzerConfig.recognized PerfAnalyzerConfig.new key = true →
             key ∉ params.*1 →
             PerfAnalyzerConfig.__getitem__ config key = Returns PyNone.
Proof.
  intros params. apply (create_perf_config_accepts params).
  - apply (bool_decide_unpack _). by vm_compute.
  - repeat constructor.
Defined.

(** X20. [_create_perf_config] raises on the first parameter whose key is
    not recognized, with the message that names that key; parameters after
    it are not looked at. *)
Theorem create_perf_config_rejects
    (before after : list (string * PyValue)) (key : string) (v : PyValue) :
  Forall (λ kv, PerfAnalyzerConfig.recognized PerfAnalyzerConfig.new kv.1 = true)
    before →
  PerfAnalyzerConfig.recognized PerfAnalyzerConfig.new key = false →
  _create_perf_config (before ++ (key, v) :: after)
  = Raises (TritonModelAnalyzerException (ArgumentNotSupported key)).
Proof.
  unfold _create_perf_config. intros Hall Hkey.
  assert (∀ c, config_shape c →
            set_params c (before ++ (key, v) :: after)
            = Raises (TritonModelAnalyzerException (ArgumentNotSupported key)))
    as Hgen; [|apply Hgen, config_shape_new].
  induction before as [|[k0 v0] ps IH]; intros c Hc.
  - cbn [app set_params].
    rewrite <-(config_shape_recognized c key Hc) in Hkey.
    unfold PerfAnalyzerConfig.recognized in Hkey.
    apply orb_false_iff in Hkey as [Hkey Hverb].
    apply orb_false_iff in Hkey as [Hargs Hopt].
    unfold PerfAnalyzerConfig.__setitem__. by rewrite Hargs, Hopt, Hverb.
  - apply Forall_cons in Hall as [Hk0 Hall]. cbn [fst] in Hk0.
    rewrite <-(config_shape_recognized c k0 Hc) in Hk0.
    destruct (config_setitem_returns c k0 v0 Hk0) as [Hret _].
    cbn [app set_params].
    destruct (PerfAnalyzerConfig.__setitem__ c k0 v0) as [c1 o] eqn:Hset.
    cbn [snd] in Hret. subst o. apply IH; [done|].
    pose proof (config_shape_setitem c k0 v0 Hc) as H1. by rewrite Hset in H1.
Qed.

Lemma create_perf_config_rejects_witness :
  _create_perf_config
    ([("model-name", PyStr "resnet50")] ++ ("gpus", PyStr "all")
       :: [("batch-size", PyInt 8)])
  = Raises (TritonModelAnalyzerException (ArgumentNotSupported "gpus")).
Proof.
  apply (create_perf_config_rejects [("model-name", PyStr "resnet50")]
           [("batch-size", PyInt 8)] "gpus" (PyStr "all")).
  - repeat constructor.
  - reflexivity.
Defined.

Lemma filter_truthy_none (d : list (string * PyValue)) :
  Forall (λ kv, py_truthy kv.2 = false) d →
  filter (λ kv, py_truthy kv.2 = true) d = [].
Proof.
  induction 1 as [|kv d Hkv Hd IH]; [done|].
  rewrite filter_cons_False; [done|]. congruence.
Qed.

Lemma filter_truthy_setitem (k : string) (v : PyValue) (d : list (string * PyValue)) :
  Forall (λ kv, py_truthy kv.2 = false) d →
  is_Some (PyDict.getitem k d) →
  filter (λ kv, py_truthy kv.2 = true) (PyDict.setitem k v d)
  = if py_truthy v then [(k, v)] else [].
Proof.
  induction 1 as [|[k0 v0] d Hkv Hd IH]; cbn [PyDict.getitem PyDict.setitem].
  - by intros [? ?].
  - destruct (decide (k = k0)) as [->|Hne].
    + intros _. destruct (py_truthy v) eqn:Hv.
      * rewrite filter_cons_True by done. by rewrite filter_truthy_none.
      * rewrite filter_cons_False by (cbn; congruence). by apply filter_truthy_none.
    + intros Hs. rewrite filter_cons_False by (cbn in *; congruence). by apply IH.
Qed.

Lemma Forall_setitem {K V} `{EqDecision K} (P : K * V → Prop) (k : K) (v : V)
    (d : list (K * V)) :
  Forall P d → P (k, v) → Forall P (PyDict.setitem k v d).
Proof.
  intros Hd Hkv. induction Hd as [|[k0 v0] d Hkv0 Hd IH]; cbn [PyDict.setitem].
  - by apply Forall_singleton.
  - destruct (decide (k = k0)); by apply Forall_cons.
Qed.

Lemma new_values_falsy :
  Forall (λ kv, py_truthy kv.2 = false) (PerfAnalyzerConfig._args PerfAnalyzerConfig.new)
  ∧ Forall (λ kv, py_truthy kv.2 = false)
      (PerfAnalyzerConfig._options PerfAnalyzerConfig.new)
  ∧ Forall (λ kv, py_truthy kv.2 = false)
      (PerfAnalyzerConfig._verbose PerfAnalyzerConfig.new).
Proof. repeat split; repeat constructor. Qed.

(** X21. After one assignment of a true value to a recognized key of a new
    config, [to_cli_string] is the one flag of that key: [--key=value] for a
    long-form argument, the single dashed option followed by the value for
    an option alias, and the flag alone for a verbose alias. *)
Theorem to_cli_string_one_assignment (key : string) (v : PyValue) :
  py_truthy v = true →
  PerfAnalyzerConfig.recognized PerfAnalyzerConfig.new key = true →
  to_cli_string (after_assignments [(key, v)])
  = if PyDict.contains key (PerfAnalyzerConfig._args PerfAnalyzerConfig.new)
    then "--" +:+ key +:+ "=" +:+ py_str v
    else match PyDict.getitem key
                 (PerfAnalyzerConfig._input_to_options PerfAnalyzerConfig.new) with
         | Some option => option +:+ " " +:+ py_str v
         | None =>
             default ""
               (PyDict.getitem key
                  (PerfAnalyzerConfig._input_to_verbose PerfAnalyzerConfig.new))
         end.
Proof.
  intros Hv Hrec. destruct new_values_falsy as (Hfa & Hfo & Hfv).
  unfold after_assignments. cbn [foldl fst snd].
  unfold PerfAnalyzerConfig.recognized in Hrec.
  unfold PerfAnalyzerConfig.__setitem__.
  destruct (PyDict.contains key (PerfAnalyzerConfig._args PerfAnalyzerConfig.new))
    eqn:Hargs.
  { unfold to_cli_string. cbn [fst PerfAnalyzerConfig._args
      PerfAnalyzerConfig._options PerfAnalyzerConfig._verbose].
    rewrite (filter_truthy_none _ Hfo), (filter_truthy_none _ Hfv).
    rewrite filter_truthy_setitem, Hv by (done || by apply contains_true).
    done. }
  destruct (PyDict.contains key
              (PerfAnalyzerConfig._input_to_options PerfAnalyzerConfig.new)) eqn:Hopt.
  { destruct (proj1 (contains_true _ _) Hopt) as [option Hoption].
    rewrite (dict_getitem_Some _ _ _ Hoption), Hoption.
    unfold to_cli_string. cbn [fst PerfAnalyzerConfig._args
      PerfAnalyzerConfig._options PerfAnalyzerConfig._verbose].
    rewrite (filter_truthy_none _ Hfa), (filter_truthy_none _ Hfv).
    rewrite filter_truthy_setitem, Hv; [done|done|].
    by apply getitem_is_Some, (new_option_aliases key). }
  cbn [orb] in Hrec.
  destruct (proj1 (contains_true _ _) Hrec) as [flag Hflag].
  rewrite Hrec, (dict_getitem_Some _ _ _ Hflag), Hflag.
  assert (PyDict.getitem key
            (PerfAnalyzerConfig._input_to_options PerfAnalyzerConfig.new) = None)
    as ->.
  { unfold PyDict.contains in Hopt. by destruct (PyDict.getitem key _). }
  unfold to_cli_string. cbn [fst PerfAnalyzerConfig._args
    PerfAnalyzerConfig._options PerfAnalyzerConfig._verbose].
  rewrite (filter_truthy_none _ Hfa), (filter_truthy_none _ Hfo).
  rewrite filter_truthy_setitem, Hv; [done|done|].
  by apply getitem_is_Some, (new_verbose_aliases key).
Qed.

Lemma to_cli_string_one_assignment_witness :
  to_cli_string (after_assignments [("batch-size", PyInt 8)]) = "-b 8".
Proof.
  apply (to_cli_string_one_assignment "batch-size" (PyInt 8)); reflexivity.
Defined.

Lemma after_assignments_falsy (assignments : list (string * PyValue)) :
  Forall (λ kv, py_truthy kv.2 = false) assignments →
  Forall (λ kv, py_truthy kv.2 = false)
    (PerfAnalyzerConfig._args (after_assignments assignments))
  ∧ Forall (λ kv, py_truthy kv.2 = false)
      (PerfAnalyzerConfig._options (after_assignments assignments))
  ∧ Forall (λ kv, py_truthy kv.2 = false)
      (PerfAnalyzerConfig._verbose (after_assignments assignments)).
Proof.
  unfold after_assignments. intros Hall.
  assert (∀ c,
            Forall (λ kv, py_truthy kv.2 = false) (PerfAnalyzerConfig._args c)
            ∧ Forall (λ kv, py_truthy kv.2 = false) (PerfAnalyzerConfig._options c)
            ∧ Forall (λ kv, py_truthy kv.2 = false) (PerfAnalyzerConfig._verbose c) →
            let c' := foldl (λ c kv, (PerfAnalyzerConfig.__setitem__ c kv.1 kv.2).1)
                        c assignments in
            Forall (λ kv, py_truthy kv.2 = false) (PerfAnalyzerConfig._args c')
            ∧ Forall (λ kv, py_truthy kv.2 = false) (PerfAnalyzerConfig._options c')
            ∧ Forall (λ kv, py_truthy kv.2 = false) (PerfAnalyzerConfig._verbose c'))
    as Hgen; [|apply Hgen, new_values_falsy].
  induction Hall as [|[k v] ps Hv Hps IH]; intros c Hc; [done|].
  cbn [foldl fst snd] in *. apply IH. destruct Hc as (Ha & Ho & Hvb).
  unfold PerfAnalyzerConfig.__setitem__.
  destruct (PyDict.contains k (PerfAnalyzerConfig._args c)).
  { cbn. split; [|done]. by apply Forall_setitem. }
  destruct (PyDict.contains k (PerfAnalyzerConfig._input_to_options c)).
  { destruct (dict_getitem k (PerfAnalyzerConfig._input_to_options c)); [|done].
    cbn. split; [done|]. split; [|done]. by apply Forall_setitem. }
  destruct (PyDict.contains k (PerfAnalyzerConfig._input_to_verbose c)); [|done].
  destruct (dict_getitem k (PerfAnalyzerConfig._input_to_verbose c)); [|done].
  cbn. split; [done|]. split; [done|]. by apply Forall_setitem.
Qed.

(** X22. A key that is given [None] -- or any other false value: [False],
    [0], the empty string -- takes no part in the command line: after
    assignments of false values only, [to_cli_string] is the empty string. *)
Theorem to_cli_string_false_values (assignments : list (string * PyValue)) :
  Forall (λ kv, py_truthy kv.2 = false) assignments →
  to_cli_string (after_assignments assignments) = "".
Proof.
  intros Hall. destruct (after_assignments_falsy assignments Hall) as (Ha & Ho & Hv).
  unfold to_cli_string.
  by rewrite (filter_truthy_none _ Ha), (filter_truthy_none _ Ho),
    (filter_truthy_none _ Hv).
Qed.

Lemma to_cli_string_false_values_witness :
  to_cli_string (after_assignments [("model-name", PyNone); ("async", PyBool false);
                                    ("percentile", PyInt 0)]) = "".
Proof.
  apply (to_cli_string_false_values [("model-name", PyNone); ("async", PyBool false);
                                     ("percentile", PyInt 0)]).
  repeat constructor.
Defined.

(** ** The rows of the GPU tables *)

Lemma extend_values_app (bound : option (list Z)) (a b : list Z) :
  extend_values (extend_values bound a) b = extend_values bound (a ++ b).
Proof.
  destruct bound as [old|]; cbn.
  - by rewrite <-(assoc_L (++)).
  - by destruct a.
Qed.

Lemma getitem_append_metric (gm : list (nat * list Z)) (g g' : nat) (v : Z) :
  PyDict.getitem g (append_metric gm g' v)
  = if decide (g' = g) then Some (default [] (PyDict.getitem g gm) ++ [v])
    else PyDict.getitem g gm.
Proof.
  unfold append_metric. rewrite getitem_setitem.
  by destruct (decide (g' = g)) as [->|].
Qed.

Lemma getitem_metric_loop (g : nat) (metric : list (nat * Z)) :
  ∀ gm,
    PyDict.getitem g
      (foldl (λ gm gv, append_metric gm gv.1 gv.2) gm metric)
    = extend_values (PyDict.getitem g gm) (filter (λ gv, gv.1 = g) metric).*2.
Proof.
  induction metric as [|[g' v] metric IH]; intros gm; cbn [foldl].
  - rewrite filter_nil. csimpl.
    destruct (PyDict.getitem g gm); cbn; by rewrite ?(right_id_L [] (++)).
  - rewrite IH, getitem_append_metric. cbn [fst snd].
    destruct (decide (g' = g)) as [->|Hne].
    + rewrite filter_cons_True by done. csimpl.
      destruct (PyDict.getitem g gm) as [old|]; cbn.
      * by rewrite <-(assoc_L (++)).
      * done.
    + by rewrite filter_cons_False.
Qed.

Lemma getitem_metrics_loop (g : nat) (metrics : list (RecordType * list (nat * Z))) :
  ∀ gm,
    PyDict.getitem g
      (foldl (λ gm tag_metric,
                foldl (λ gm gv, append_metric gm gv.1 gv.2) gm tag_metric.2)
         gm metrics)
    = extend_values (PyDict.getitem g gm) (gpu_values g metrics).
Proof.
  unfold gpu_values.
  induction metrics as [|[tag metric] metrics IH]; intros gm; cbn [foldl].
  - csimpl. destruct (PyDict.getitem g gm); cbn; by rewrite ?(right_id_L [] (++)).
  - rewrite IH, getitem_metric_loop. cbn [snd]. by rewrite extend_values_app.
Qed.

Lemma metrics_loop_NoDup (metrics : list (RecordType * list (nat * Z))) :
  ∀ gm, NoDup (PyDict.keys gm) →
    NoDup (PyDict.keys
             (foldl (λ gm tag_metric,
                       foldl (λ gm gv, append_metric gm gv.1 gv.2) gm tag_metric.2)
                gm metrics)).
Proof.
  induction metrics as [|[tag metric] metrics IH]; intros gm Hnd; [done|].
  cbn [foldl snd]. apply IH. clear IH. revert gm Hnd.
  induction metric as [|[g v] metric IH]; intros gm Hnd; [done|].
  cbn [foldl]. apply IH. by apply keys_setitem_NoDup.
Qed.

Lemma getitem_metrics_by_gpu (g : nat) (metrics : list (RecordType * list (nat * Z))) :
  PyDict.getitem g (metrics_by_gpu metrics)
  = match gpu_values g metrics with [] => None | v :: vs => Some (v :: vs) end.
Proof.
  unfold metrics_by_gpu. rewrite getitem_metrics_loop. cbn.
  by destruct (gpu_values g metrics).
Qed.

Lemma elem_of_NoDup_getitem {K V} `{EqDecision K} (k : K) (v : V) (d : list (K * V)) :
  NoDup (PyDict.keys d) → (k, v) ∈ d ↔ PyDict.getitem k d = Some v.
Proof.
  intros Hnd. split; [|apply getitem_Some_elem_of].
  unfold PyDict.keys in Hnd. induction d as [|[k' v'] d IH]; csimpl in *.
  - intros Hin. by apply elem_of_nil in Hin.
  - apply NoDup_cons in Hnd as [Hk' Hnd]. intros Hin.
    apply elem_of_cons in Hin as [[= -> ->]|Hin].
    + by rewrite decide_True.
    + rewrite decide_False; [by apply IH|].
      intros ->. apply Hk'. apply list_elem_of_fmap. by exists (k', v).
Qed.

Lemma gpu_rows_spec (parameters : list Cell)
    (metrics : list (RecordType * list (nat * Z))) :
  NoDup (gpu_rows parameters metrics)
  ∧ ∀ row, row ∈ gpu_rows parameters metrics
           ↔ ∃ gpu_id, gpu_values gpu_id metrics ≠ []
                       ∧ row = parameters
                               ++ (CellNum <$> gpu_values gpu_id metrics)
                               ++ [CellGpu gpu_id].
Proof.
  assert (NoDup (PyDict.keys (metrics_by_gpu metrics))) as Hnd
    by apply metrics_loop_NoDup, NoDup_nil_2.
  unfold gpu_rows. split.
  - apply NoDup_fmap_2_strong; [|by eapply NoDup_fmap_1].
    intros [g1 v1] [g2 v2] _ _ Heq. cbn [fst snd] in Heq.
    apply app_inv_head in Heq. apply app_inj_tail in Heq as [Hv Hg].
    injection Hg as ->. f_equal.
    revert v2 Hv. induction v1 as [|a v1 IH]; intros [|b v2]; try done.
    cbn. intros [= -> Hv]. f_equal. by apply IH.
  - intros row. rewrite list_elem_of_fmap. split.
    + intros ([g vs] & -> & Hin). apply elem_of_NoDup_getitem in Hin; [|done].
      rewrite getitem_metrics_by_gpu in Hin. exists g. cbn [fst snd].
      destruct (gpu_values g metrics) as [|v vs']; [done|].
      injection Hin as <-. done.
    + intros (g & Hne & ->). exists (g, gpu_values g metrics). split; [done|].
      apply elem_of_NoDup_getitem; [done|]. rewrite getitem_metrics_by_gpu.
      by destruct (gpu_values g metrics).
Qed.

(** X23. The rows built for a GPU table from the mapping type -> (gpu id ->
    value): there is one row for each gpu id that has a value under some
    type and no other row; the row of a gpu id is the parameter columns,
    then the values of that gpu id in the order of the types, then the gpu
    id. *)
Theorem gpu_rows_one_per_gpu (parameters : list Cell)
    (metrics : list (RecordType * list (nat * Z))) :
  NoDup (gpu_rows parameters metrics)
  ∧ ∀ row, row ∈ gpu_rows parameters metrics
           ↔ ∃ gpu_id, gpu_values gpu_id metrics ≠ []
                       ∧ row = parameters
                               ++ (CellNum <$> gpu_values gpu_id metrics)
                               ++ [CellGpu gpu_id].
Proof. apply gpu_rows_spec. Qed.

(** ** Server-only profiling *)







(** ** A negative duration *)





